(** * AutoConsolidado: consolidation of per-entity workbooks into a master

    A shallow embedding of the three scripts of the repository

    - [autocompletar_consolidado.py]      (module [V0]:  in-place value copy),
    - [autocompletar_consolidado_v0.2.py] (module [V02]: streaming value copy),
    - [autocompletar_consolidado_v1.0.py] (module [V1]:  in-place link formulas),

    together with the properties of the row loop, of the two traversal
    policies and of the process exit code.

    What the scripts take from outside (the file system, [os.path], the
    workbooks [openpyxl] loads, [wb.save]) is an explicit environment; the
    part of [openpyxl] the scripts drive (the cells of a worksheet in memory
    and [ws.cell]) is modelled in [Openpyxl]; a sheet read or written row by
    row is the list of its rows. *)

From Stdlib Require Import ZArith Ascii String.
From Stdlib Require Import Floats.SpecFloat.
From stdpp Require Import gmap strings list pretty.

(** ** Python values held by spreadsheet cells *)

Module Py.

(** A cell value as [openpyxl] hands it to the scripts: [None] for an empty
    cell, booleans, integers, floats, text, and dates and times.  A date or
    time is only ever copied, tested for truth (always true) and printed, so
    it is carried by its text; durations are left out.  Text is a sequence of
    code points below U+0100. *)
Inductive Value : Type :=
| VNone
| VBool (b : bool)
| VInt (z : Z)
| VFloat (f : spec_float)
| VStr (s : string)
| VFecha (texto : string).

Global Instance Value_inhabited : Inhabited Value := populate VNone.

(** [bool(v)]: the test behind [if not codigo] and [if codigo_cell.value]. *)
Definition truthy (v : Value) : bool :=
  match v with
  | VNone => false
  | VBool b => b
  | VInt z => negb (z =? 0)%Z
  | VFloat (S754_zero _) => false
  | VFloat _ => true
  | VStr EmptyString => false
  | VStr _ => true
  | VFecha _ => true
  end.

(** [str.isspace] on one code point below U+0100. *)
Definition isspace (c : ascii) : bool :=
  let n := nat_of_ascii c in
  ((9 <=? n) && (n <=? 13)) || ((28 <=? n) && (n <=? 32))
  || (n =? 133) || (n =? 160).

(** [str.lstrip()], [str.rstrip()] and [str.strip()] without argument. *)
Fixpoint lstrip (s : string) : string :=
  match s with
  | EmptyString => EmptyString
  | String c s' => if isspace c then lstrip s' else s
  end.

Fixpoint rstrip (s : string) : string :=
  match s with
  | EmptyString => EmptyString
  | String c s' =>
      match rstrip s' with
      | EmptyString => if isspace c then EmptyString else String c EmptyString
      | r => String c r
      end
  end.

Definition strip (s : string) : string := rstrip (lstrip s).

(** [s.startswith(pre)] and [s.endswith(suf)]. *)
Fixpoint startswith (s pre : string) : bool :=
  match pre, s with
  | EmptyString, _ => true
  | String a pre', String b s' => Ascii.eqb a b && startswith s' pre'
  | String _ _, EmptyString => false
  end.

Fixpoint endswith (s suf : string) : bool :=
  String.eqb s suf
  || match s with
     | EmptyString => false
     | String _ s' => endswith s' suf
     end.

Section Str.
(** [repr] of a float is the shortest-round-trip decimal printer of the
    interpreter; it is taken from outside. *)
Variable repr_float : spec_float → string.

(** [str(v)]. *)
Definition str (v : Value) : string :=
  match v with
  | VNone => "None"
  | VBool true => "True"
  | VBool false => "False"
  | VInt z => pretty z
  | VFloat f => repr_float f
  | VStr s => s
  | VFecha t => t
  end.
End Str.

(** Exceptions the model distinguishes, and results of fallible calls. *)
Inductive Excepcion : Type :=
| IndexError
| OtraExcepcion (mensaje : string).

Inductive Exc (A : Type) : Type :=
| Ok (a : A)
| Raise (e : Excepcion).
Global Arguments Ok {A} a.
Global Arguments Raise {A} e.

(** [l[i] = v] on a list: out of range raises. *)
Definition setitem (l : list Value) (i : nat) (v : Value) : Exc (list Value) :=
  if decide (i < length l) then Ok (<[i := v]> l) else Raise IndexError.

(** [t[i]] on a tuple or list. *)
Definition getitem {A} (l : list A) (i : nat) : Exc A :=
  match l !! i with
  | Some x => Ok x
  | None => Raise IndexError
  end.

End Py.
Import Py.

(** ** The part of openpyxl the scripts drive *)

Module Openpyxl.

(** An in-memory worksheet is its dictionary [_cells], from (row, column),
    both counted from 1, to the value of the cell. *)
Abbreviation Worksheet := (gmap (nat * nat) Value).

(** What a reader of the sheet sees at (row, column): a cell that was never
    created reads as [None]. *)
Definition value_at (ws : Worksheet) (row column : nat) : Value :=
  default VNone (ws !! (row, column)).

(** [ws.cell(row=row, column=column).value] for a row of the sheet: the
    cell is created, empty, when it is first accessed.  The row check that
    [ws.cell] makes first is in [ws_cell] below. *)
Definition cell (ws : Worksheet) (row column : nat) : Worksheet * Value :=
  match ws !! (row, column) with
  | Some v => (ws, v)
  | None => (<[(row, column) := VNone]> ws, VNone)
  end.

(** [ws.cell(row=row, column=column, value=value)].  In openpyxl
    [Worksheet.cell] ends in
<<
    cell = self._get_cell(row, column)
    if value is not None:
        cell.value = value
    return cell
>>
    so the cell is fetched or created, and [None] assigns nothing.  The
    values the scripts store come from a loaded workbook or are formula text,
    and are stored as they are. *)
Definition cell_set (ws : Worksheet) (row column : nat) (value : Value)
  : Worksheet :=
  let ws := (cell ws row column).1 in
  match value with
  | VNone => ws
  | _ => <[(row, column) := value]> ws
  end.

(** openpyxl keeps the rows of a sheet between 1 and 1048576
    (= 1024 * 1024): [ws.cell], through [_get_cell], raises [ValueError] for
    a row outside that range before any cell is fetched or created. *)
Definition MAX_ROW : nat := 1024 * 1024.

Definition error_de_fila (row : nat) : Excepcion :=
  OtraExcepcion ("Row numbers must be between 1 and 1048576. "
                 +:+ "Row number supplied was " +:+ pretty row).

(** [ws.cell(row=row, column=column)] with that check: the sheet and the
    value of the cell, or the exception.  [cell] above is the access for a
    row within the range. *)
Definition ws_cell (ws : Worksheet) (row column : nat)
  : Exc (Worksheet * Value) :=
  if (1 <=? row) && (row <=? MAX_ROW) then Ok (cell ws row column)
  else Raise (error_de_fila row).

(** [openpyxl.utils.column_index_from_string] on upper-case letters:
    A = 1, ..., Z = 26, AA = 27, ... *)
Definition column_index_from_string (s : string) : nat :=
  foldl (fun acc c => acc * 26 + (nat_of_ascii c - 64)) 0
        (list_ascii_of_string s).

(** A per-entity workbook loaded with [data_only=True]: its active sheet, if
    it has one, read by cell reference. *)
Record Workbook : Type := { active : option (string -> Value) }.

(** [wb.active[celda].value]; without an active sheet the subscript raises. *)
Definition active_value (wb : Workbook) (celda : string) : Exc Value :=
  match active wb with
  | Some hoja => Ok (hoja celda)
  | None => Raise (OtraExcepcion "'NoneType' object is not subscriptable")
  end.

End Openpyxl.
Import Openpyxl.

(** ** What the scripts take from the operating system *)

(** [os.sep] and the functions of [os.path] the scripts call. *)
Record OsPath : Type := {
  sep : string;
  join : string -> string -> string;
  abspath : string -> string;
  dirname : string -> string;
  basename : string -> string
}.

Record Entorno : Type := {
  os_path : OsPath;
  getcwd : string;
  isfile : string -> bool;
  load_workbook : string -> Exc Workbook;
  repr_float : spec_float -> string
}.

(** The master workbook as [main] finds it: whether the path exists, what
    loading it gives, and whether saving the result succeeds; and what the
    call [input(...)] gives, which every path of [main] makes once before it
    ends: the line typed, or the exception it
    raises ([EOFError] when the standard input is at its end). *)
Record Maestro (L : Type) : Type := {
  existe : bool;
  cargar : Exc L;
  guardar : Exc unit;
  entrada : Exc string
}.
Global Arguments existe {L} _.
Global Arguments cargar {L} _.
Global Arguments guardar {L} _.
Global Arguments entrada {L} _.

(** ** Console lines and results *)

Inductive Estado : Type :=
| Copiado
| ErrorAlLeer (e : Excepcion)
| ArchivoNoEncontrado
| FormulaAnadida
| NoEncontradoConFormula.

Record Linea : Type := { l_fila : nat; l_codigo : string; l_estado : Estado }.

Record Salida (L : Type) : Type := {
  exit_code : Z;
  guardado : option L
}.
Global Arguments exit_code {L} _.
Global Arguments guardado {L} _.

(** The exit code of a path that ends in [input(...)] followed by [return]
    or by the end of [main]: 0 when the call returns; when it raises, nothing
    catches the exception and the interpreter exits with code 1. *)
Definition tras_input (entrada : Exc string) : Z :=
  match entrada with
  | Ok _ => 0
  | Raise _ => 1
  end.

(** ** Configuration shared by the three scripts *)

Definition COL_CODIGO : nat := 4.
Definition HOJAS_OBJETIVO : list string := ["EDU"; "HOSP"; "EMPRESA"].
Definition FILA_INICIO : nat := 6.

(** The per-row console line [Fila .. | Código: .. | Estado: ..]. *)
Definition linea (fila : nat) (codigo : string) (estado : Estado) : Linea :=
  {| l_fila := fila; l_codigo := codigo; l_estado := estado |}.

(** ** The row loop of the two in-place scripts

    [procesar_hoja] of [autocompletar_consolidado.py] and of
    [autocompletar_consolidado_v1.0.py] are the same [while True] loop around
    a different row body:
<<
    fila = FILA_INICIO
    while True:
        codigo = ws.cell(row=fila, column=COL_CODIGO).value
        if not codigo:
            break
        codigo = str(codigo).strip()
        ... row body ...
        fila += 1
>>
    The loop has no bound of its own; [mientras] runs it for at most [fuel]
    tests of a code cell and gives [None] when that is not enough.  The result
    is the sheet, the console lines in order, and the row at which the loop
    broke.

    [mientras] is the loop on the rows of the sheet: it reads the code cell
    with [cell].  [bucle] below is the same loop with [ws_cell], the call
    with openpyxl's row check: it is left by the [break], or by the
    [ValueError] that [ws.cell] raises when column D is filled down to the
    last row a sheet can have and the loop asks for the row after it. *)

Module EnSitio.

Section Bucle.
Variable E : Entorno.
Variable cuerpo : Worksheet -> nat -> string -> Worksheet * Estado.

Fixpoint mientras (fuel : nat) (ws : Worksheet) (fila : nat)
  : option (Worksheet * list Linea * nat) :=
  match fuel with
  | 0 => None
  | S fuel =>
      let '(ws, codigo) := cell ws fila COL_CODIGO in
      if negb (truthy codigo) then Some (ws, [], fila)
      else
        let codigo := strip (str (repr_float E) codigo) in
        let '(ws, estado) := cuerpo ws fila codigo in
        '(ws, consola, fin) ← mientras fuel ws (S fila);
        Some (ws, linea fila codigo estado :: consola, fin)
  end.

(** The call [procesar_hoja(ws, ...)] as [main] makes it: what it returns,
    or the exception that leaves it (nothing in the loop catches the
    [ValueError] of [ws.cell]; the row body runs on a row the check has
    let through).  What was printed and written before the exception is
    not kept: [main] does not guard the call and saves nothing after it. *)
Fixpoint bucle (fuel : nat) (ws : Worksheet) (fila : nat)
  : option (Exc (Worksheet * list Linea * nat)) :=
  match fuel with
  | 0 => None
  | S fuel =>
      match ws_cell ws fila COL_CODIGO with
      | Raise e => Some (Raise e)
      | Ok (ws, codigo) =>
          if negb (truthy codigo) then Some (Ok (ws, [], fila))
          else
            let codigo := strip (str (repr_float E) codigo) in
            let '(ws, estado) := cuerpo ws fila codigo in
            match bucle fuel ws (S fila) with
            | Some (Ok (ws, consola, fin)) =>
                Some (Ok (ws, linea fila codigo estado :: consola, fin))
            | otro => otro
            end
      end
  end.
End Bucle.

(** The largest row that holds a cell ([ws.max_row]; 0 on an empty sheet):
    the loop breaks at the latest one row below it. *)
Definition max_row (ws : Worksheet) : nat :=
  map_fold (fun k _ m => Nat.max k.1 m) 0 ws.

Definition combustible (ws : Worksheet) : nat := S (max_row ws).

(** The master workbook in memory: its sheets by name, in order. *)
Abbreviation Libro := (list (string * Worksheet)).

(** [hoja in wb.sheetnames] and [wb[hoja]]. *)
Fixpoint hoja_de {A} (wb : list (string * A)) (nombre : string) : option A :=
  match wb with
  | [] => None
  | (n, ws) :: resto =>
      if String.eqb n nombre then Some ws else hoja_de resto nombre
  end.

(** The sheet [wb[hoja]] replaced by its mutated state. *)
Fixpoint poner_hoja {A} (wb : list (string * A)) (nombre : string) (ws : A)
  : list (string * A) :=
  match wb with
  | [] => []
  | (n, ws0) :: resto =>
      if String.eqb n nombre then (n, ws) :: resto
      else (n, ws0) :: poner_hoja resto nombre ws
  end.

Section Main.
Variable procesar_hoja
  : Worksheet -> option (Exc (Worksheet * list Linea * nat)).

(** [for hoja in HOJAS_OBJETIVO: ...] of [main]: the workbook with its
    target sheets processed, or the exception of a [procesar_hoja] call,
    which [main] does not guard. *)
Fixpoint procesar_hojas (hojas : list string) (wb : Libro)
  : option (Exc Libro) :=
  match hojas with
  | [] => Some (Ok wb)
  | hoja :: resto =>
      match hoja_de wb hoja with
      | None => procesar_hojas resto wb
      | Some ws =>
          r ← procesar_hoja ws;
          match r with
          | Ok (ws, _, _) => procesar_hojas resto (poner_hoja wb hoja ws)
          | Raise e => Some (Raise e)
          end
      end
  end.

(** [main] of both in-place scripts.  Neither calls [sys.exit]: the paths
    that report a fault (master missing, master unreadable, output not
    saved) and the path that saves all end in [input(...)] and then return
    or fall off the end of [main], so the exit code is that of
    [tras_input].  An exception of [procesar_hoja] leaves [main] before
    anything is saved: exit code 1. *)
Definition main (M : Maestro Libro) : option (Salida Libro) :=
  if negb (existe M)
  then Some {| exit_code := tras_input (entrada M); guardado := None |}
  else
    match cargar M with
    | Raise _ =>
        Some {| exit_code := tras_input (entrada M); guardado := None |}
    | Ok wb =>
        r ← procesar_hojas HOJAS_OBJETIVO wb;
        match r with
        | Raise _ => Some {| exit_code := 1; guardado := None |}
        | Ok wb =>
            match guardar M with
            | Ok _ => Some {| exit_code := tras_input (entrada M);
                              guardado := Some wb |}
            | Raise _ => Some {| exit_code := tras_input (entrada M);
                                 guardado := None |}
            end
        end
    end.
End Main.

End EnSitio.

(** ** autocompletar_consolidado.py: in-place value copy *)

Module V0.

Definition COLUMNAS_DESTINO : list (string * string) :=
  [("F", "N21"); ("G", "N25"); ("I", "N49"); ("K", "N153"); ("M", "N161")].

Definition cargar_valor (wb : Workbook) (celda : string) : Value :=
  match active_value wb celda with
  | Ok v => v
  | Raise _ => VNone
  end.

Section Hoja.
Variable E : Entorno.
Variable ruta_base : string.

(** [for col_letra, celda in COLUMNAS_DESTINO.items(): ...] *)
Definition copiar (wb_codigo : Workbook) (fila : nat) (ws : Worksheet)
  : Worksheet :=
  foldl (fun ws '(col_letra, celda) =>
           let valor := cargar_valor wb_codigo celda in
           let col_index := column_index_from_string col_letra in
           cell_set ws fila col_index valor)
        ws COLUMNAS_DESTINO.

(** The row body: from [nombre_archivo = ...] to the status line.  Only
    [load_workbook] can raise inside the [try]: [cargar_valor] swallows
    every fault and the cell writes do not fail. *)
Definition cuerpo (ws : Worksheet) (fila : nat) (codigo : string)
  : Worksheet * Estado :=
  let nombre_archivo := codigo +:+ ".xlsx" in
  let ruta_archivo := join (os_path E) ruta_base nombre_archivo in
  if isfile E ruta_archivo then
    match load_workbook E ruta_archivo with
    | Ok wb_codigo => (copiar wb_codigo fila ws, Copiado)
    | Raise e => (ws, ErrorAlLeer e)
    end
  else (ws, ArchivoNoEncontrado).

(** The loop on the rows of the sheet; the call [main] makes, with the
    row check of [ws.cell], is [procesar_hoja_o_error] below. *)
Definition procesar_hoja_fuel (fuel : nat) (ws : Worksheet)
  : option (Worksheet * list Linea * nat) :=
  EnSitio.mientras E cuerpo fuel ws FILA_INICIO.

Definition procesar_hoja (ws : Worksheet)
  : option (Worksheet * list Linea * nat) :=
  procesar_hoja_fuel (EnSitio.combustible ws) ws.

(** The call with the row check of [ws.cell]: what [procesar_hoja]
    returns, or the [ValueError] that leaves it. *)
Definition procesar_hoja_o_error (ws : Worksheet)
  : option (Exc (Worksheet * list Linea * nat)) :=
  EnSitio.bucle E cuerpo (EnSitio.combustible ws) ws FILA_INICIO.
End Hoja.

(** [main] calls [procesar_hoja(ws, os.getcwd())]. *)
Definition main (E : Entorno) (M : Maestro EnSitio.Libro)
  : option (Salida EnSitio.Libro) :=
  EnSitio.main (procesar_hoja_o_error E (getcwd E)) M.

End V0.

(** ** autocompletar_consolidado_v1.0.py: in-place link formulas *)

Module V1.

Definition COLUMNAS_DESTINO : list (string * string) :=
  [("F", "$N$21"); ("G", "$N$25"); ("I", "$N$49"); ("K", "$N$153");
   ("M", "$N$161")].

Definition NOMBRE_HOJA_ORIGEN_FIJO : string := "Hoja1".
Definition RUTA_ARCHIVOS_ORIGEN : string := "C:\presupuestos".

Section Hoja.
Variable E : Entorno.

Definition ruta_absoluta_archivo_codigo (codigo : string) : string :=
  let nombre_archivo_codigo := codigo +:+ ".xlsx" in
  abspath (os_path E)
          (join (os_path E) RUTA_ARCHIVOS_ORIGEN nombre_archivo_codigo).

Definition nombre_archivo_base (codigo : string) : string :=
  basename (os_path E) (ruta_absoluta_archivo_codigo codigo).

Definition path_para_formula (codigo : string) : string :=
  let directorio_origen :=
    dirname (os_path E) (ruta_absoluta_archivo_codigo codigo) in
  if truthy (VStr directorio_origen)
     && negb (endswith directorio_origen (sep (os_path E)))
  then directorio_origen +:+ sep (os_path E)
  else directorio_origen.

Definition formula_enlace (codigo celda_origen_ref : string) : string :=
  "='" +:+ path_para_formula codigo
       +:+ "[" +:+ nombre_archivo_base codigo +:+ "]"
       +:+ NOMBRE_HOJA_ORIGEN_FIJO +:+ "'!" +:+ celda_origen_ref.

(** [for col_letra, celda_origen_ref in COLUMNAS_DESTINO.items(): ...] *)
Definition enlazar (codigo : string) (fila : nat) (ws : Worksheet)
  : Worksheet :=
  foldl (fun ws '(col_letra, celda_origen_ref) =>
           let col_index := column_index_from_string col_letra in
           cell_set ws fila col_index
                    (VStr (formula_enlace codigo celda_origen_ref)))
        ws COLUMNAS_DESTINO.

Definition cuerpo (ws : Worksheet) (fila : nat) (codigo : string)
  : Worksheet * Estado :=
  let archivo_existe := isfile E (ruta_absoluta_archivo_codigo codigo) in
  let ws := enlazar codigo fila ws in
  (ws, if archivo_existe then FormulaAnadida else NoEncontradoConFormula).

(** The loop on the rows of the sheet; the call [main] makes, with the
    row check of [ws.cell], is [procesar_hoja_o_error] below. *)
Definition procesar_hoja_fuel (fuel : nat) (ws : Worksheet)
  : option (Worksheet * list Linea * nat) :=
  EnSitio.mientras E cuerpo fuel ws FILA_INICIO.

Definition procesar_hoja (ws : Worksheet)
  : option (Worksheet * list Linea * nat) :=
  procesar_hoja_fuel (EnSitio.combustible ws) ws.

(** The call with the row check of [ws.cell]: what [procesar_hoja]
    returns, or the [ValueError] that leaves it. *)
Definition procesar_hoja_o_error (ws : Worksheet)
  : option (Exc (Worksheet * list Linea * nat)) :=
  EnSitio.bucle E cuerpo (EnSitio.combustible ws) ws FILA_INICIO.
End Hoja.

Definition main (E : Entorno) (M : Maestro EnSitio.Libro)
  : option (Salida EnSitio.Libro) :=
  EnSitio.main (procesar_hoja_o_error E) M.

End V1.

(** ** autocompletar_consolidado_v0.2.py: streaming value copy *)

Module V02.

Definition COLUMNAS_DESTINO : list (string * string) :=
  [("F", "N21"); ("G", "N25"); ("I", "N49"); ("K", "N153"); ("M", "N161")].

Definition COL_INDICES_DESTINO : list (nat * string) :=
  map (fun '(col_letra, celda) => (column_index_from_string col_letra, celda))
      COLUMNAS_DESTINO.

Definition FILA_INICIO_DATOS : nat := 6.

Definition cargar_valor_desde_origen (wb_origen : Workbook)
  (celda_ref : string) : Value :=
  match active_value wb_origen celda_ref with
  | Ok v => v
  | Raise _ => VNone
  end.

(** A row as [iter_rows] yields it (the values of its cells) and as
    [ws_salida.append] receives it.  A read-only sheet yields rows as wide as
    the dimension the file records for it, or as wide as the row's own last
    cell when it records none: a row may end before column D. *)
Abbreviation Fila := (list Value).

(** The master opened with [read_only=True], and the output workbook: sheets
    by name, in order, each a sequence of rows. *)
Abbreviation Libro := (list (string * list Fila)).

(** [while len(current_row_values) < col_index:
        current_row_values.append(None)];
    [k] bounds the number of turns. *)
Fixpoint rellenar_aux (k : nat) (col_index : nat) (crv : Fila) : Fila :=
  match k with
  | 0 => crv
  | S k =>
      if decide (length crv < col_index)
      then rellenar_aux k col_index (crv ++ [VNone])
      else crv
  end.

Definition rellenar (col_index : nat) (crv : Fila) : Fila :=
  rellenar_aux (col_index - length crv) col_index crv.

(** [for col_index, celda_ref_origen in COL_INDICES_DESTINO.items(): ...]
    on the mutable list [current_row_values]: what the list holds when the
    loop ends, and the exception that ended it, if any. *)
Fixpoint copiar (wb_codigo : Workbook) (cols : list (nat * string))
  (crv : Fila) : Fila * Exc unit :=
  match cols with
  | [] => (crv, Ok tt)
  | (col_index, celda_ref_origen) :: resto =>
      let valor := cargar_valor_desde_origen wb_codigo celda_ref_origen in
      let crv := rellenar col_index crv in
      match setitem crv (col_index - 1) valor with
      | Ok crv => copiar wb_codigo resto crv
      | Raise e => (crv, Raise e)
      end
  end.

Section Hoja.
Variable E : Entorno.
Variable ruta_base : string.

(** A data row with a code: from [ruta_archivo_origen = ...] to the status
    line.  The row that will be appended and the status printed. *)
Definition fila_con_codigo (codigo : string) (crv : Fila) : Fila * Estado :=
  let ruta_archivo_origen :=
    join (os_path E) ruta_base (codigo +:+ ".xlsx") in
  if isfile E ruta_archivo_origen then
    match load_workbook E ruta_archivo_origen with
    | Ok wb_codigo =>
        match copiar wb_codigo COL_INDICES_DESTINO crv with
        | (crv, Ok _) => (crv, Copiado)
        | (crv, Raise e) => (crv, ErrorAlLeer e)
        end
    | Raise e => (crv, ErrorAlLeer e)
    end
  else (crv, ArchivoNoEncontrado).

(** [codigo = str(codigo_cell.value).strip() if codigo_cell.value else ""] *)
Definition codigo_de (valor : Value) : string :=
  if truthy valor then strip (str (repr_float E) valor) else "".

(** [for r_idx, row_data in enumerate(ws_lectura.iter_rows(min_row=1, ...))]:
    the rows still to come, the rows appended to [ws_salida] so far and the
    console.  An exception leaves the loop with the state it had. *)
Fixpoint recorrer (r_idx : nat) (filas : list Fila) (ws_salida : list Fila)
  (consola : list Linea) : list Fila * list Linea * Exc unit :=
  match filas with
  | [] => (ws_salida, consola, Ok tt)
  | row_data :: resto =>
      let current_row_values := row_data in
      if r_idx + 1 <? FILA_INICIO_DATOS then
        recorrer (S r_idx) resto (ws_salida ++ [current_row_values]) consola
      else
        let fila_actual_num := r_idx + 1 in
        match getitem row_data (COL_CODIGO - 1) with
        | Raise e => (ws_salida, consola, Raise e)
        | Ok codigo_cell =>
            let codigo := codigo_de codigo_cell in
            if negb (truthy (VStr codigo)) then
              recorrer (S r_idx) resto
                       (ws_salida ++ [current_row_values]) consola
            else
              let '(current_row_values, estado) :=
                fila_con_codigo codigo current_row_values in
              recorrer (S r_idx) resto
                       (ws_salida ++ [current_row_values])
                       (consola ++ [linea fila_actual_num codigo estado])
        end
  end.

(** One target sheet: [ws_salida] is the sheet of that name in the output,
    created empty if the output has none. *)
Definition procesar_hoja (filas : list Fila) (ws_salida : list Fila)
  : list Fila * list Linea * Exc unit :=
  recorrer 0 filas ws_salida [].

(** [wb_salida[nombre]] replaced, or [create_sheet(title=nombre)]. *)
Definition poner_o_crear (wb_salida : Libro) (nombre : string)
  (ws : list Fila) : Libro :=
  match EnSitio.hoja_de wb_salida nombre with
  | Some _ => EnSitio.poner_hoja wb_salida nombre ws
  | None => wb_salida ++ [(nombre, ws)]
  end.

(** [for nombre_hoja_objetivo in HOJAS_OBJETIVO: ...] *)
Fixpoint procesar_objetivos (hojas : list string) (wb_lectura : Libro)
  (wb_salida : Libro) : Libro * Exc unit :=
  match hojas with
  | [] => (wb_salida, Ok tt)
  | nombre :: resto =>
      match EnSitio.hoja_de wb_lectura nombre with
      | None => procesar_objetivos resto wb_lectura wb_salida
      | Some ws_lectura =>
          let ws_salida :=
            default [] (EnSitio.hoja_de wb_salida nombre) in
          match procesar_hoja ws_lectura ws_salida with
          | (ws_salida, _, Ok _) =>
              procesar_objetivos resto wb_lectura
                                 (poner_o_crear wb_salida nombre ws_salida)
          | (ws_salida, _, Raise e) =>
              (poner_o_crear wb_salida nombre ws_salida, Raise e)
          end
      end
  end.

(** [for existing_sheet_name in wb_consolidado_lectura.sheetnames: ...]:
    the sheets that are no target and have no namesake in the output yet
    are copied row by row. *)
Fixpoint copiar_no_procesadas (hojas : Libro) (wb_salida : Libro) : Libro :=
  match hojas with
  | [] => wb_salida
  | (nombre, filas) :: resto =>
      if negb (bool_decide (nombre ∈ HOJAS_OBJETIVO))
         && negb (bool_decide (is_Some (EnSitio.hoja_de wb_salida nombre)))
      then copiar_no_procesadas resto (wb_salida ++ [(nombre, filas)])
      else copiar_no_procesadas resto wb_salida
  end.
End Hoja.

(** [main].  A missing master ends in [input(...)] and [return].  An
    exception while the master is loaded or processed, and a failed save,
    end in [input(...)] and [sys.exit(1)]: the exit code is 1 whether the
    [input] call returns or raises.  The path that saves all ends in
    [input(...)] as the last statement of [main]. *)
Definition main (E : Entorno) (M : Maestro Libro) : Salida Libro :=
  let ruta_base := getcwd E in
  if negb (existe M)
  then {| exit_code := tras_input (entrada M); guardado := None |}
  else
    let wb_salida : Libro := [] in
    match cargar M with
    | Raise _ => {| exit_code := 1; guardado := None |}
    | Ok wb_lectura =>
        match procesar_objetivos E ruta_base HOJAS_OBJETIVO wb_lectura
                                 wb_salida with
        | (_, Raise _) => {| exit_code := 1; guardado := None |}
        | (wb_salida, Ok _) =>
            let wb_salida := copiar_no_procesadas wb_lectura wb_salida in
            match guardar M with
            | Ok _ => {| exit_code := tras_input (entrada M);
                         guardado := Some wb_salida |}
            | Raise _ => {| exit_code := 1; guardado := None |}
            end
        end
    end.

End V02.

(** ** A concrete [os.path]: posixpath

    The functions of CPython's [posixpath.py] the scripts call, as they are
    written there.  ([ntpath] splits paths at [/] as well as at its own
    separator, so a code holding a [/] is split on either platform.) *)

Module Posixpath.

Definition es_sep (c : ascii) : bool := Ascii.eqb c "/".

(** [path.startswith(sep)]. *)
Definition isabs (s : string) : bool := startswith s "/".

(** [join(a, b)]:
<<
    if b.startswith(sep): path = b
    elif not path or path.endswith(sep): path += b
    else: path += sep + b
>> *)
Definition join (a b : string) : string :=
  if startswith b "/" then b
  else if negb (truthy (VStr a)) || endswith a "/" then a +:+ b
  else a +:+ "/" +:+ b.

(** [(p[:i], p[i:])] for [i = p.rfind(sep) + 1]. *)
Fixpoint partir (p : string) : string * string :=
  match p with
  | EmptyString => (EmptyString, EmptyString)
  | String c p' =>
      let '(cabeza, cola) := partir p' in
      match cabeza with
      | String _ _ => (String c cabeza, cola)
      | EmptyString =>
          if es_sep c then (String c EmptyString, cola)
          else (EmptyString, String c cola)
      end
  end.

Definition basename (p : string) : string := (partir p).2.

(** [head.rstrip(sep)]. *)
Fixpoint rstrip_sep (s : string) : string :=
  match s with
  | EmptyString => EmptyString
  | String c s' =>
      match rstrip_sep s' with
      | EmptyString => if es_sep c then EmptyString else String c EmptyString
      | r => String c r
      end
  end.

(** [head != sep*len(head)]. *)
Fixpoint solo_sep (s : string) : bool :=
  match s with
  | EmptyString => true
  | String c s' => es_sep c && solo_sep s'
  end.

Definition dirname (p : string) : string :=
  let head := (partir p).1 in
  if truthy (VStr head) && negb (solo_sep head) then rstrip_sep head
  else head.

(** [path.split(sep)]. *)
Fixpoint split (s : string) : list string :=
  match s with
  | EmptyString => [EmptyString]
  | String c s' =>
      if es_sep c then EmptyString :: split s'
      else match split s' with
           | comp :: comps => String c comp :: comps
           | [] => [String c EmptyString]
           end
  end.

(** [sep.join(comps)]. *)
Fixpoint unir (comps : list string) : string :=
  match comps with
  | [] => EmptyString
  | [comp] => comp
  | comp :: comps => comp +:+ "/" +:+ unir comps
  end.

(** The loop of [normpath] over the components; [new_comps] is kept with its
    last component first. *)
Fixpoint normalizar (initial_slashes : nat) (comps : list string)
  (new_comps : list string) : list string :=
  match comps with
  | [] => rev new_comps
  | comp :: comps =>
      if String.eqb comp "" || String.eqb comp "." then
        normalizar initial_slashes comps new_comps
      else if negb (String.eqb comp "..")
              || ((initial_slashes =? 0) && bool_decide (new_comps = []))
              || match new_comps with
                 | ultimo :: _ => String.eqb ultimo ".."
                 | [] => false
                 end
      then normalizar initial_slashes comps (comp :: new_comps)
      else normalizar initial_slashes comps (tail new_comps)
  end.

Definition normpath (path : string) : string :=
  if String.eqb path "" then "."
  else
    let initial_slashes :=
      if startswith path "/" then
        if startswith path "//" && negb (startswith path "///") then 2 else 1
      else 0 in
    let comps := normalizar initial_slashes (split path) [] in
    let path := unir comps in
    let path :=
      match initial_slashes with
      | 0 => path
      | 1 => "/" +:+ path
      | _ => "//" +:+ path
      end in
    if truthy (VStr path) then path else ".".

Definition abspath (cwd : string) (path : string) : string :=
  normpath (if isabs path then path else join cwd path).

Definition os_path (cwd : string) : OsPath :=
  Build_OsPath "/" join (abspath cwd) dirname basename.

End Posixpath.

(** ** Example inputs *)

Module Ejemplo.

Definition cwd : string := "/home/u".

(** The per-entity workbook [A100.xlsx]: 42 in N21, 7 in N25, text in N49,
    nothing in N153, 1 in N161. *)
Definition libro_A100 : Workbook :=
  {| active := Some (fun celda =>
       if String.eqb celda "N21" then VInt 42
       else if String.eqb celda "N25" then VInt 7
       else if String.eqb celda "N49" then VStr "ok"
       else if String.eqb celda "N161" then VInt 1
       else VNone) |}.

(** [repr] of the floats that print the same everywhere; the example sheets
    hold no other float in their code column. *)
Definition repr_ejemplo (f : spec_float) : string :=
  match f with
  | S754_zero false => "0.0"
  | S754_zero true => "-0.0"
  | S754_infinity false => "inf"
  | S754_infinity true => "-inf"
  | S754_nan => "nan"
  | S754_finite _ _ _ => ""
  end.

(** A working directory with [A100.xlsx] (readable) and [C300.xlsx] (a file
    that does not load), and nothing else. *)
Definition entorno : Entorno :=
  {| os_path := Posixpath.os_path cwd;
     getcwd := cwd;
     isfile := fun p => String.eqb p "/home/u/A100.xlsx"
                        || String.eqb p "/home/u/C300.xlsx";
     load_workbook := fun p =>
       if String.eqb p "/home/u/A100.xlsx" then Ok libro_A100
       else Raise (OtraExcepcion "File is not a zip file");
     repr_float := repr_ejemplo |}.

(** A master sheet held in memory: headers in rows 1 to 5, then
    row 6: code A100, 99 already in F and 5 in K;
    row 7: code B200 (no file), 11 in F;
    row 8: code C300 (file that does not load), 12 in G;
    row 9: no code;
    row 10: code A100 again. *)
Definition hoja : Worksheet :=
  list_to_map
    [((1, 1), VStr "Titulo"); ((5, 4), VStr "Codigo");
     ((6, 4), VStr " A100 "); ((6, 6), VInt 99); ((6, 11), VInt 5);
     ((7, 4), VStr "B200"); ((7, 6), VInt 11);
     ((8, 4), VStr "C300"); ((8, 7), VInt 12);
     ((10, 4), VStr "A100"); ((10, 6), VInt 3)].

(** The same sheet as the read-only reader yields it, thirteen cells a row. *)
Definition fila_de (ws : Worksheet) (ancho : nat) (r : nat) : list Value :=
  map (fun c => value_at ws r c) (seq 1 ancho).

Definition filas : list (list Value) :=
  map (fila_de hoja 13) (seq 1 10).

(** A sheet whose sixth row has three cells only. *)
Definition filas_cortas : list (list Value) :=
  map (fun r => [VStr "a"; VStr "b"; VInt (Z.of_nat r)]) (seq 1 7).

(** A sheet whose first data row has a code of two blanks, and the rows the
    reader yields for it. *)
Definition hoja_blanco : Worksheet :=
  list_to_map
    [((6, 4), VStr "  "); ((6, 6), VInt 1); ((7, 4), VStr "A100")].

Definition filas_blanco : list (list Value) :=
  map (fila_de hoja_blanco 13) (seq 1 7).


(** A master with ENTER typed at the closing prompt, and one with the
    standard input at its end. *)
Definition maestro {L} (existe : bool) (cargar : Exc L) (guardar : Exc unit)
  : Maestro L :=
  {| existe := existe; cargar := cargar; guardar := guardar;
     entrada := Ok EmptyString |}.

Definition maestro_sin_entrada {L} (existe : bool) (cargar : Exc L)
  (guardar : Exc unit) : Maestro L :=
  {| existe := existe; cargar := cargar; guardar := guardar;
     entrada := Raise (OtraExcepcion "EOF when reading a line") |}.

End Ejemplo.

(** ** Notions the statements use *)

(** Row [r] of an in-memory sheet is a data row the loop reaches with a code:
    every code cell from [FILA_INICIO] to [r] is non-empty. *)
Definition alcanzada (ws : Worksheet) (r : nat) : Prop :=
  FILA_INICIO ≤ r
  ∧ ∀ r', FILA_INICIO ≤ r' ≤ r → truthy (value_at ws r' COL_CODIGO) = true.

(** Column D has a cell that tests false at or below the first data row and
    within the rows a sheet can have: the in-place loop meets its [break]. *)
Definition con_paro (ws : Worksheet) : Prop :=
  ∃ r, FILA_INICIO ≤ r ≤ MAX_ROW
       ∧ truthy (value_at ws r COL_CODIGO) = false.

(** The code the in-place loop derives from row [fila]. *)
Definition codigo_en (E : Entorno) (ws : Worksheet) (fila : nat) : string :=
  strip (str (repr_float E) (value_at ws fila COL_CODIGO)).

(** A run of [ws.cell(row=fila, column=c, value=v)] calls. *)
Definition escribir (fila : nat) (cols : list (nat * Value)) (ws : Worksheet)
  : Worksheet :=
  foldl (fun ws '(c, v) => cell_set ws fila c v) ws cols.

(** The five destination columns, as numbers. *)
Definition columnas_destino : list nat := [6; 7; 9; 11; 13].

(** What the value-copy body writes in a row, and what the link body writes. *)
Definition valores_v0 (wb : Workbook) : list (nat * Value) :=
  map (fun '(col_letra, celda) =>
         (column_index_from_string col_letra, V0.cargar_valor wb celda))
      V0.COLUMNAS_DESTINO.

Definition formulas_v1 (E : Entorno) (codigo : string) : list (nat * Value) :=
  map (fun '(col_letra, ref) =>
         (column_index_from_string col_letra,
          VStr (V1.formula_enlace E codigo ref)))
      V1.COLUMNAS_DESTINO.

Definition valores_v02 (wb : Workbook) : list (nat * Value) :=
  map (fun '(col, ref) => (col, V02.cargar_valor_desde_origen wb ref))
      V02.COL_INDICES_DESTINO.

(** One turn of the streaming loop on the row of index [r_idx]: the row it
    appends and the lines it prints, or the exception that leaves the loop. *)
Definition turno (E : Entorno) (ruta_base : string) (r_idx : nat)
  (row_data : V02.Fila) : Exc (V02.Fila * list Linea) :=
  if r_idx + 1 <? V02.FILA_INICIO_DATOS then Ok (row_data, [])
  else
    match getitem row_data (COL_CODIGO - 1) with
    | Raise e => Raise e
    | Ok codigo_cell =>
        let codigo := V02.codigo_de E codigo_cell in
        if negb (truthy (VStr codigo)) then Ok (row_data, [])
        else
          let r := V02.fila_con_codigo E ruta_base codigo row_data in
          Ok (r.1, [linea (r_idx + 1) codigo r.2])
    end.

(** The streaming loop can read the code cell of every data row. *)
Definition filas_anchas (r_idx : nat) (filas : list V02.Fila) : Prop :=
  ∀ i fila, filas !! i = Some fila →
            V02.FILA_INICIO_DATOS ≤ r_idx + i + 1 → COL_CODIGO ≤ length fila.

(** The values Python tests as false that a code cell can hold. *)
Definition valores_falsos : list Value :=
  [VNone; VInt 0; VFloat (S754_zero false); VFloat (S754_zero true);
   VBool false; VStr ""].

(** A string of white space only. *)
Fixpoint solo_espacios (s : string) : bool :=
  match s with
  | EmptyString => true
  | String c s' => isspace c && solo_espacios s'
  end.

(** [current_row_values] after the padding loop and the assignment of one
    destination column. *)
Definition poner (col_index : nat) (valor : Value) (crv : V02.Fila)
  : V02.Fila :=
  <[col_index - 1 := valor]> (V02.rellenar col_index crv).

(** A row read past its end: the cells the padding loop would add. *)
Definition celda_o_vacia (crv : V02.Fila) (ancho : nat) (i : nat)
  : option Value :=
  if decide (i < length crv) then crv !! i
  else if decide (i < ancho) then Some VNone else None.

(** The result of the in-place loop with the code cell of row [r] set to
    [v]. *)
Definition con_celda (r : nat) (v : Value)
  (res : Worksheet * list Linea * nat) : Worksheet * list Linea * nat :=
  (<[(r, COL_CODIGO) := v]> res.1.1, res.1.2, res.2).


(** ** More example inputs *)

Module Ejemplo2.

(** The working directory of [Ejemplo.entorno] where every path is a file
    that loads as [A100.xlsx] does. *)
Definition entorno_lleno : Entorno :=
  {| os_path := Posixpath.os_path Ejemplo.cwd;
     getcwd := Ejemplo.cwd;
     isfile := fun _ => true;
     load_workbook := fun _ => Ok Ejemplo.libro_A100;
     repr_float := Ejemplo.repr_ejemplo |}.

(** A workbook without active sheet, and a directory where [A100.xlsx] is
    such a workbook. *)
Definition libro_sin_hoja : Workbook := {| active := None |}.

Definition entorno_sin_hoja : Entorno :=
  {| os_path := Posixpath.os_path Ejemplo.cwd;
     getcwd := Ejemplo.cwd;
     isfile := fun p => String.eqb p "/home/u/A100.xlsx";
     load_workbook := fun _ => Ok libro_sin_hoja;
     repr_float := Ejemplo.repr_ejemplo |}.

(** A per-entity workbook with a value in each of the five source cells. *)
Definition libro_completo : Workbook :=
  {| active := Some (fun celda =>
       if String.eqb celda "N21" then VInt 1
       else if String.eqb celda "N25" then VInt 2
       else if String.eqb celda "N49" then VInt 3
       else if String.eqb celda "N153" then VInt 4
       else if String.eqb celda "N161" then VInt 5
       else VNone) |}.

Definition entorno_completo : Entorno :=
  {| os_path := Posixpath.os_path Ejemplo.cwd;
     getcwd := Ejemplo.cwd;
     isfile := fun p => String.eqb p "/home/u/A100.xlsx";
     load_workbook := fun _ => Ok libro_completo;
     repr_float := Ejemplo.repr_ejemplo |}.

(** A master with a sheet that is no target, before and after its target
    sheets, in memory and as the read-only reader yields it. *)
Definition libro_en_memoria : list (string * Worksheet) :=
  [("Notas", Ejemplo.hoja_blanco); ("HOSP", Ejemplo.hoja);
   ("EDU", Ejemplo.hoja_blanco); ("Resumen", Ejemplo.hoja)].

Definition libro_de_lectura : list (string * list (list Value)) :=
  [("Notas", Ejemplo.filas_cortas); ("HOSP", Ejemplo.filas);
   ("EDU", Ejemplo.filas_blanco); ("Resumen", Ejemplo.filas_blanco)].

(** Row 6 of [Ejemplo.filas] after the streaming copy from [A100.xlsx]. *)
Definition fila_copiada : list Value :=
  [VNone; VNone; VNone; VStr " A100 "; VNone; VInt 42; VInt 7; VNone;
   VStr "ok"; VNone; VNone; VNone; VInt 1].

(** A sheet read without recorded dimensions, each row as wide as its last
    cell: five header rows, row 6 with an entity name and an empty code
    cell, row 7 with three cells, row 8 with the code A100. *)
Definition filas_vacia_y_corta : list (list Value) :=
  replicate 5 [VStr "a"; VStr "b"; VStr "c"; VStr "d"]
  ++ [[VStr "Centro"; VNone; VNone; VNone];
      [VStr "x"; VStr "y"; VInt 7];
      [VNone; VNone; VNone; VStr "A100"]].

(** A sheet whose column D holds a code in every row from row 6 to the last
    row a sheet can have. *)
Definition hoja_llena : Worksheet :=
  list_to_map (map (fun r => ((r, COL_CODIGO), VStr "A100"))
                   (seq FILA_INICIO (MAX_ROW - 5))).

End Ejemplo2.

(** The console without the statuses. *)
Definition filas_y_codigos (consola : list Linea) : list (nat * string) :=
  map (fun l => (l_fila l, l_codigo l)) consola.

(** * Properties *)

(** ** The definitions on concrete inputs *)

Example column_index_F : column_index_from_string "F" = 6.
Proof. reflexivity. Qed.

Example column_index_destinos :
  map (fun p => column_index_from_string p.1) V0.COLUMNAS_DESTINO
  = [6; 7; 9; 11; 13].
Proof. reflexivity. Qed.

Example column_index_AB : column_index_from_string "AB" = 28.
Proof. reflexivity. Qed.

Example strip_codigo : strip "  A100 " = "A100".
Proof. reflexivity. Qed.

Example strip_interior : strip " a b " = "a b".
Proof. reflexivity. Qed.

Example str_entero : str Ejemplo.repr_ejemplo (VInt (-42)) = "-42".
Proof. reflexivity. Qed.

Example truthy_nan : truthy (VFloat S754_nan) = true.
Proof. reflexivity. Qed.

Example endswith_vacio : endswith "abc" "" = true.
Proof. reflexivity. Qed.

Example posix_join_abs : Posixpath.join "/home/u" "/tmp/x.xlsx" = "/tmp/x.xlsx".
Proof. reflexivity. Qed.

Example posix_normpath :
  Posixpath.normpath "/a/./b/../c//d/" = "/a/c/d"
  ∧ Posixpath.normpath "../a/.." = ".."
  ∧ Posixpath.normpath "//a" = "//a"
  ∧ Posixpath.normpath "///a" = "/a".
Proof. repeat split; reflexivity. Qed.

Example posix_dirname_basename :
  Posixpath.dirname "/a/b/c.x" = "/a/b"
  ∧ Posixpath.basename "/a/b/c.x" = "c.x"
  ∧ Posixpath.dirname "/c.x" = "/"
  ∧ Posixpath.dirname "c.x" = "".
Proof. repeat split; reflexivity. Qed.

Example formula_A100 :
  V1.formula_enlace Ejemplo.entorno "A100" "$N$21"
  = "='/home/u/C:\presupuestos/[A100.xlsx]Hoja1'!$N$21".
Proof. reflexivity. Qed.

(** The streaming script on the example sheet: rows 6 and 10 are filled from
    [A100.xlsx], row 7 has no file, row 8 a file that does not load, row 9
    no code. *)
Example consola_del_ejemplo :
  (V02.procesar_hoja Ejemplo.entorno Ejemplo.cwd Ejemplo.filas []).1.2
  = [linea 6 "A100" Copiado;
     linea 7 "B200" ArchivoNoEncontrado;
     linea 8 "C300" (ErrorAlLeer (OtraExcepcion "File is not a zip file"));
     linea 10 "A100" Copiado].
Proof. reflexivity. Qed.

(** The in-place script on the same sheet stops at row 9. *)
Example paro_del_ejemplo :
  (λ '(_, consola, fin), (map l_fila consola, fin))
    <$> V0.procesar_hoja Ejemplo.entorno Ejemplo.cwd Ejemplo.hoja
  = Some ([6; 7; 8], 9).
Proof. reflexivity. Qed.

(** With the standard input at its end the closing [input] call raises: a
    run that has saved its output still ends with exit code 1. *)
Example main_sin_entrada :
  V0.main Ejemplo.entorno
    (Ejemplo.maestro_sin_entrada false (Raise (OtraExcepcion "No such file"))
       (Ok tt))
  = Some {| exit_code := 1; guardado := None |}
  ∧ exit_code (V02.main Ejemplo.entorno
                 (Ejemplo.maestro_sin_entrada true
                    (Ok [("EDU", Ejemplo.filas)]) (Ok tt))) = 1%Z
  ∧ is_Some (guardado (V02.main Ejemplo.entorno
                         (Ejemplo.maestro_sin_entrada true
                            (Ok [("EDU", Ejemplo.filas)]) (Ok tt)))).
Proof. split_and!; [reflexivity|reflexivity|by eexists]. Qed.

(** The call with the row check returns what the loop on the rows gives. *)
Example llamada_del_ejemplo :
  V0.procesar_hoja_o_error Ejemplo.entorno Ejemplo.cwd Ejemplo.hoja
  = Ok <$> V0.procesar_hoja Ejemplo.entorno Ejemplo.cwd Ejemplo.hoja.
Proof. reflexivity. Qed.



(** ** Cells of an in-memory worksheet *)

Section Celdas.
Implicit Types (ws : Worksheet) (k : nat * nat) (v : Value).

Lemma cell_snd ws r c : (cell ws r c).2 = value_at ws r c.
Proof. unfold cell, value_at. by destruct (ws !! (r, c)). Qed.

Lemma cell_lookup ws r c k :
  (cell ws r c).1 !! k
  = if decide (k = (r, c)) then Some (value_at ws r c) else ws !! k.
Proof.
  unfold cell, value_at. destruct (ws !! (r, c)) eqn:H; simpl.
  - case_decide; by subst.
  - case_decide; subst; [by rewrite lookup_insert_eq|by rewrite lookup_insert_ne].
Qed.

Lemma value_at_cell ws r c r' c' :
  value_at (cell ws r c).1 r' c' = value_at ws r' c'.
Proof.
  unfold value_at at 1. rewrite cell_lookup.
  case_decide as H; [by inversion H|done].
Qed.

Lemma cell_set_lookup ws r c v k :
  cell_set ws r c v !! k
  = if decide (k = (r, c))
    then Some (match v with VNone => value_at ws r c | _ => v end)
    else ws !! k.
Proof.
  unfold cell_set.
  destruct v; rewrite ?cell_lookup;
    try (case_decide; subst;
         [by rewrite lookup_insert_eq
         |rewrite lookup_insert_ne, ?cell_lookup; [by rewrite decide_False|done]]).
  done.
Qed.

Lemma value_at_cell_set ws r c v r' c' :
  value_at (cell_set ws r c v) r' c'
  = if decide ((r', c') = (r, c))
    then match v with VNone => value_at ws r c | _ => v end
    else value_at ws r' c'.
Proof. unfold value_at at 1. rewrite cell_set_lookup. by case_decide. Qed.

Lemma cell_insert_ne ws r c k v :
  k ≠ (r, c) →
  (cell (<[k := v]> ws) r c).1 = <[k := v]> (cell ws r c).1.
Proof.
  intros Hk. unfold cell. rewrite lookup_insert_ne by done.
  destruct (ws !! (r, c)); simpl; [done|]. by apply insert_insert_ne.
Qed.

Lemma cell_set_insert_ne ws r c k v w :
  k ≠ (r, c) →
  cell_set (<[k := v]> ws) r c w = <[k := v]> (cell_set ws r c w).
Proof.
  intros Hk. unfold cell_set. rewrite cell_insert_ne by done.
  destruct w; try done; by apply insert_insert_ne.
Qed.
End Celdas.

(** ** The in-place row loop *)

Section BucleProps.
Variable E : Entorno.
Variable cuerpo : Worksheet → nat → string → Worksheet * Estado.

(** What the loop needs of a row body: it writes in its own row only and
    never in the code column, and what it does to its row depends on that
    row only. *)
Hypothesis cuerpo_fuera : ∀ ws fila codigo r c,
  r ≠ fila ∨ c = COL_CODIGO →
  (cuerpo ws fila codigo).1 !! (r, c) = ws !! (r, c).
Hypothesis cuerpo_local : ∀ ws1 ws2 fila codigo,
  (∀ c, ws1 !! (fila, c) = ws2 !! (fila, c)) →
  (∀ c, (cuerpo ws1 fila codigo).1 !! (fila, c)
        = (cuerpo ws2 fila codigo).1 !! (fila, c))
  ∧ (cuerpo ws1 fila codigo).2 = (cuerpo ws2 fila codigo).2.

Lemma mientras_S fuel ws fila :
  EnSitio.mientras E cuerpo (S fuel) ws fila
  = if truthy (value_at ws fila COL_CODIGO) then
      let r := cuerpo (cell ws fila COL_CODIGO).1 fila (codigo_en E ws fila) in
      '(ws', consola, fin) ← EnSitio.mientras E cuerpo fuel r.1 (S fila);
      Some (ws', linea fila (codigo_en E ws fila) r.2 :: consola, fin)
    else Some ((cell ws fila COL_CODIGO).1, [], fila).
Proof.
  simpl. rewrite (surjective_pairing (cell ws fila COL_CODIGO)), cell_snd.
  destruct (truthy _); simpl; [|done].
  unfold codigo_en. by destruct (cuerpo _ _ _).
Qed.

Lemma value_at_cuerpo_codigo ws fila codigo r :
  value_at (cuerpo ws fila codigo).1 r COL_CODIGO = value_at ws r COL_CODIGO.
Proof. unfold value_at. rewrite cuerpo_fuera; auto. Qed.

(** Where the loop breaks and what it leaves alone. *)
Lemma mientras_paro fuel : ∀ ws fila ws' consola fin,
  EnSitio.mientras E cuerpo fuel ws fila = Some (ws', consola, fin) →
  fila ≤ fin
  ∧ truthy (value_at ws fin COL_CODIGO) = false
  ∧ (∀ r, fila ≤ r < fin → truthy (value_at ws r COL_CODIGO) = true)
  ∧ (∀ r c, r < fila ∨ fin < r ∨ (r = fin ∧ c ≠ COL_CODIGO) →
            ws' !! (r, c) = ws !! (r, c))
  ∧ ws' !! (fin, COL_CODIGO) = Some (value_at ws fin COL_CODIGO)
  ∧ map l_fila consola = seq fila (fin - fila).
Proof.
  induction fuel as [|fuel IH]; intros ws fila ws' consola fin; [done|].
  rewrite mientras_S.
  destruct (truthy (value_at ws fila COL_CODIGO)) eqn:Ht; simpl.
  - set (r := cuerpo _ _ _).
    destruct (EnSitio.mientras E cuerpo fuel r.1 (S fila))
      as [[[w l] f]|] eqn:Hrec; [|done].
    simpl. intros [= <- <- <-].
    apply IH in Hrec as (Hle & Hfin & Htr & Hout & Hcod & Hlog).
    assert (Hva : ∀ x, value_at r.1 x COL_CODIGO = value_at ws x COL_CODIGO).
    { intros x. unfold r. by rewrite value_at_cuerpo_codigo, value_at_cell. }
    assert (Hlk : ∀ x c, x ≠ fila → r.1 !! (x, c) = ws !! (x, c)).
    { intros x c Hx. unfold r. rewrite cuerpo_fuera by auto.
      rewrite cell_lookup, decide_False; [done|]. intros [= ? ?]; lia. }
    split_and!.
    + lia.
    + by rewrite <- Hva.
    + intros x Hx. destruct (decide (x = fila)) as [->|]; [done|].
      rewrite <- Hva. apply Htr. lia.
    + intros x c Hx. rewrite Hout by lia. apply Hlk. lia.
    + by rewrite Hcod, Hva.
    + simpl. rewrite Hlog.
      replace (f - fila) with (S (f - S fila)) by lia. done.
  - intros [= <- <- <-]. split_and!; try done.
    + intros r Hr. lia.
    + intros r c Hr. rewrite cell_lookup, decide_False; [done|].
      intros [= ? ?]. lia.
    + by rewrite cell_lookup, decide_True.
    + by rewrite Nat.sub_diag.
Qed.

(** Every row the loop went through holds what the body made of it, and
    has its console line. *)
Lemma mientras_fila fuel : ∀ ws fila ws' consola fin r,
  EnSitio.mientras E cuerpo fuel ws fila = Some (ws', consola, fin) →
  fila ≤ r < fin →
  let res := cuerpo ws r (codigo_en E ws r) in
  (∀ c, ws' !! (r, c) = res.1 !! (r, c))
  ∧ consola !! (r - fila) = Some (linea r (codigo_en E ws r) res.2).
Proof.
  induction fuel as [|fuel IH]; intros ws fila ws' consola fin r; [done|].
  rewrite mientras_S.
  destruct (truthy (value_at ws fila COL_CODIGO)) eqn:Ht; simpl.
  - set (b := cuerpo _ _ _).
    destruct (EnSitio.mientras E cuerpo fuel b.1 (S fila))
      as [[[w l] f]|] eqn:Hrec; [|done].
    simpl. intros [= <- <- <-] Hr.
    assert (Hloc : ∀ c, (cell ws fila COL_CODIGO).1 !! (fila, c)
                        = ws !! (fila, c) ∨ c = COL_CODIGO).
    { intros c. rewrite cell_lookup. case_decide as Hd; [right|by left].
      by inversion Hd. }
    destruct (decide (r = fila)) as [->|Hne].
    + apply mientras_paro in Hrec as (_ & _ & _ & Hout & _ & _).
      split.
      * intros c. rewrite Hout by lia. unfold b.
        destruct (decide (c = COL_CODIGO)) as [->|Hc].
        { rewrite !cuerpo_fuera by auto. rewrite cell_lookup, decide_True by done.
          unfold value_at. destruct (ws !! (fila, COL_CODIGO)) eqn:Hw; [done|].
          simpl in Ht. unfold value_at in Ht. by rewrite Hw in Ht. }
        apply cuerpo_local. intros c'. rewrite cell_lookup.
        case_decide as Hd; [|done]. inversion Hd; subst.
        unfold value_at. destruct (ws !! (fila, COL_CODIGO)) eqn:Hw; [done|].
        unfold value_at in Ht. by rewrite Hw in Ht.
      * rewrite Nat.sub_diag. simpl. f_equal. f_equal. unfold b.
        apply cuerpo_local. intros c'. rewrite cell_lookup.
        case_decide as Hd; [|done]. inversion Hd; subst.
        unfold value_at. destruct (ws !! (fila, COL_CODIGO)) eqn:Hw; [done|].
        unfold value_at in Ht. by rewrite Hw in Ht.
    + assert (Hrow : ∀ c, b.1 !! (r, c) = ws !! (r, c)).
      { intros c. unfold b. rewrite cuerpo_fuera by auto.
        rewrite cell_lookup, decide_False; [done|]. intros [= ? ?]. lia. }
      assert (Hcod : codigo_en E b.1 r = codigo_en E ws r).
      { unfold codigo_en, value_at. by rewrite Hrow. }
      destruct (IH _ _ _ _ _ r Hrec ltac:(lia)) as [H1 H2].
      rewrite Hcod in H1, H2.
      destruct (cuerpo_local b.1 ws r (codigo_en E ws r) Hrow) as [Hl1 Hl2].
      split.
      * intros c. by rewrite H1, Hl1.
      * replace (r - fila) with (S (r - S fila)) by lia. simpl.
        by rewrite H2, Hl2.
  - intros [= <- <- <-] Hr. lia.
Qed.

(** The bound does not show in the result: more turns give the same. *)
Lemma mientras_mas_combustible fuel : ∀ fuel' ws fila res,
  EnSitio.mientras E cuerpo fuel ws fila = Some res →
  fuel ≤ fuel' →
  EnSitio.mientras E cuerpo fuel' ws fila = Some res.
Proof.
  induction fuel as [|fuel IH]; intros fuel' ws fila res; [done|].
  destruct fuel' as [|fuel']; [lia|]. rewrite !mientras_S.
  destruct (truthy (value_at ws fila COL_CODIGO)); [|done]. simpl.
  destruct (EnSitio.mientras E cuerpo fuel _ (S fila))
    as [[[w l] f]|] eqn:Hrec; [|done].
  intros Hres Hle. by rewrite (IH fuel' _ _ _ Hrec) by lia.
Qed.

(** The loop ends: a row with an empty code cell lies ahead. *)
Lemma mientras_termina fuel : ∀ ws fila paro,
  fila ≤ paro →
  truthy (value_at ws paro COL_CODIGO) = false →
  paro - fila < fuel →
  is_Some (EnSitio.mientras E cuerpo fuel ws fila).
Proof.
  induction fuel as [|fuel IH]; intros ws fila paro Hle Hp Hf; [lia|].
  rewrite mientras_S.
  destruct (truthy (value_at ws fila COL_CODIGO)) eqn:Ht; simpl; [|by eexists].
  assert (fila ≠ paro) by (intros ->; congruence).
  destruct (IH (cuerpo (cell ws fila COL_CODIGO).1 fila (codigo_en E ws fila)).1
               (S fila) paro) as [[[w l] f] Hrec]; [lia| |lia|].
  - by rewrite value_at_cuerpo_codigo, value_at_cell.
  - rewrite Hrec. by eexists.
Qed.

Lemma max_row_ge (ws : Worksheet) r c :
  is_Some (ws !! (r, c)) → r ≤ EnSitio.max_row ws.
Proof.
  unfold EnSitio.max_row.
  apply (map_fold_weak_ind
           (λ m (ws : Worksheet), is_Some (ws !! (r, c)) → r ≤ m)).
  - rewrite lookup_empty. by intros [? ?].
  - intros k v m acc Hk IH. rewrite lookup_insert.
    case_decide as Hd; [subst; simpl; lia|]. intros H. apply IH in H. lia.
Qed.

Lemma mientras_combustible ws :
  is_Some (EnSitio.mientras E cuerpo (EnSitio.combustible ws) ws FILA_INICIO).
Proof.
  apply (mientras_termina _ _ _ (FILA_INICIO `max` S (EnSitio.max_row ws))).
  - lia.
  - unfold value_at.
    destruct (ws !! (_, COL_CODIGO)) eqn:Hw; [|done].
    assert (is_Some (ws !! (FILA_INICIO `max` S (EnSitio.max_row ws), COL_CODIGO)))
      as Hs by eauto.
    apply max_row_ge in Hs. lia.
  - unfold EnSitio.combustible, FILA_INICIO. lia.
Qed.

(** A reached row is gone through, and the loop stops further down. *)
Lemma mientras_alcanzada ws r :
  alcanzada ws r →
  ∃ ws' consola fin,
    EnSitio.mientras E cuerpo (EnSitio.combustible ws) ws FILA_INICIO
    = Some (ws', consola, fin)
    ∧ r < fin
    ∧ truthy (value_at ws fin COL_CODIGO) = false
    ∧ (∀ c, ws' !! (r, c) = (cuerpo ws r (codigo_en E ws r)).1 !! (r, c))
    ∧ consola !! (r - FILA_INICIO)
      = Some (linea r (codigo_en E ws r) (cuerpo ws r (codigo_en E ws r)).2).
Proof.
  intros [Hr Hall].
  destruct (mientras_combustible ws) as [[[ws' consola] fin] Hrun].
  exists ws', consola, fin. split; [done|].
  pose proof (mientras_paro _ _ _ _ _ _ Hrun) as (Hle & Hfin & _).
  assert (r < fin) as Hlt.
  { destruct (decide (r < fin)) as [|Hn]; [done|].
    rewrite Hall in Hfin by lia. done. }
  destruct (mientras_fila _ _ _ _ _ _ r Hrun ltac:(lia)) as [H1 H2].
  done.
Qed.

(** The loop breaks at the first row whose code cell is empty, and looks at
    no row below it. *)
Lemma mientras_primera_vacia ws r :
  FILA_INICIO ≤ r →
  (∀ r', FILA_INICIO ≤ r' < r → truthy (value_at ws r' COL_CODIGO) = true) →
  truthy (value_at ws r COL_CODIGO) = false →
  ∃ ws' consola,
    EnSitio.mientras E cuerpo (EnSitio.combustible ws) ws FILA_INICIO
    = Some (ws', consola, r)
    ∧ map l_fila consola = seq FILA_INICIO (r - FILA_INICIO)
    ∧ (∀ r' c, r < r' → ws' !! (r', c) = ws !! (r', c))
    ∧ (∀ c, value_at ws' r c = value_at ws r c).
Proof.
  intros Hr Hall Hv.
  destruct (mientras_combustible ws) as [[[ws' consola] fin] Hrun].
  pose proof (mientras_paro _ _ _ _ _ _ Hrun)
    as (Hle & Hfin & Htr & Hout & Hcod & Hlog).
  assert (fin = r) as ->.
  { destruct (lt_eq_lt_dec fin r) as [[Hlt|]|Hgt]; [|done|].
    - rewrite Hall in Hfin by lia. done.
    - rewrite Htr in Hv by lia. done. }
  exists ws', consola. split_and!; [done|done| |].
  - intros r' c Hr'. apply Hout. lia.
  - intros c. unfold value_at at 1.
    destruct (decide (c = COL_CODIGO)) as [->|Hc]; [by rewrite Hcod|].
    rewrite Hout by auto. done.
Qed.

(** The rows below the one at which the loop breaks play no part: two
    sheets that agree down to that row get the same console and the same
    cells down to that row. *)
Lemma mientras_independiente ws1 ws2 r fuel1 fuel2 w1 l1 w2 l2 :
  (∀ r' c, r' ≤ r → ws1 !! (r', c) = ws2 !! (r', c)) →
  EnSitio.mientras E cuerpo fuel1 ws1 FILA_INICIO = Some (w1, l1, r) →
  EnSitio.mientras E cuerpo fuel2 ws2 FILA_INICIO = Some (w2, l2, r) →
  l1 = l2 ∧ ∀ r' c, r' ≤ r → w1 !! (r', c) = w2 !! (r', c).
Proof.
  intros Heq H1 H2.
  pose proof (mientras_paro _ _ _ _ _ _ H1) as (Hle & _ & _ & Ho1 & Hc1 & Hl1).
  pose proof (mientras_paro _ _ _ _ _ _ H2) as (_ & _ & _ & Ho2 & Hc2 & Hl2).
  assert (∀ r', r' ≤ r → codigo_en E ws1 r' = codigo_en E ws2 r') as Hcod.
  { intros r' Hr'. unfold codigo_en, value_at. by rewrite Heq. }
  assert (∀ r', FILA_INICIO ≤ r' < r →
            (∀ c, w1 !! (r', c) = w2 !! (r', c))
            ∧ l1 !! (r' - FILA_INICIO) = l2 !! (r' - FILA_INICIO)) as Hrows.
  { intros r' Hr'.
    destruct (mientras_fila _ _ _ _ _ _ r' H1 Hr') as [Ha1 Hb1].
    destruct (mientras_fila _ _ _ _ _ _ r' H2 Hr') as [Ha2 Hb2].
    rewrite Hcod in Ha1, Hb1 by lia.
    destruct (cuerpo_local ws1 ws2 r' (codigo_en E ws2 r')) as [Hx Hy].
    { intros c. apply Heq. lia. }
    split.
    - intros c. by rewrite Ha1, Ha2, Hx.
    - by rewrite Hb1, Hb2, Hy. }
  split.
  - apply list_eq. intros i.
    destruct (decide (i < r - FILA_INICIO)) as [Hi|Hi].
    + destruct (Hrows (FILA_INICIO + i) ltac:(lia)) as [_ Hl].
      by replace (FILA_INICIO + i - FILA_INICIO) with i in Hl by lia.
    + rewrite !(proj2 (lookup_ge_None _ _)); [done|..].
      * rewrite <- (length_map l_fila), Hl2, length_seq. lia.
      * rewrite <- (length_map l_fila), Hl1, length_seq. lia.
  - intros r' c Hr'.
    destruct (decide (r' < FILA_INICIO)) as [Hlow|Hlow].
    { rewrite Ho1, Ho2 by lia. by apply Heq. }
    destruct (decide (r' = r)) as [->|Hne].
    + destruct (decide (c = COL_CODIGO)) as [->|Hc].
      * rewrite Hc1, Hc2. unfold value_at. by rewrite Heq.
      * rewrite Ho1, Ho2 by auto. by apply Heq.
    + apply Hrows. lia.
Qed.

Lemma mientras_filas_de_abajo ws r :
  FILA_INICIO ≤ r →
  (∀ r', FILA_INICIO ≤ r' < r → truthy (value_at ws r' COL_CODIGO) = true) →
  truthy (value_at ws r COL_CODIGO) = false →
  ∃ ws' consola,
    EnSitio.mientras E cuerpo (EnSitio.combustible ws) ws FILA_INICIO
    = Some (ws', consola, r)
    ∧ map l_fila consola = seq FILA_INICIO (r - FILA_INICIO)
    ∧ (∀ r' c, r < r' → ws' !! (r', c) = ws !! (r', c))
    ∧ (∀ c, value_at ws' r c = value_at ws r c)
    ∧ (∀ ws2 : Worksheet,
         (∀ r' c, r' ≤ r → ws2 !! (r', c) = ws !! (r', c)) →
         ∃ ws2',
           EnSitio.mientras E cuerpo (EnSitio.combustible ws2) ws2 FILA_INICIO
           = Some (ws2', consola, r)
           ∧ ∀ r' c, r' ≤ r → ws2' !! (r', c) = ws' !! (r', c)).
Proof.
  intros Hr Hall Hv.
  destruct (mientras_primera_vacia ws r Hr Hall Hv)
    as (ws' & consola & Hrun & Hlog & Hbelow & Hrow).
  exists ws', consola. split_and!; [done..|].
  intros ws2 Heq.
  assert (∀ r', r' ≤ r → value_at ws2 r' COL_CODIGO = value_at ws r' COL_CODIGO)
    as Hva by (intros r' Hr'; unfold value_at; by rewrite Heq).
  destruct (mientras_primera_vacia ws2 r Hr)
    as (ws2' & consola2 & Hrun2 & _).
  { intros r' Hr'. rewrite Hva by lia. by apply Hall. }
  { by rewrite Hva. }
  destruct (mientras_independiente ws2 ws r _ _ _ _ _ _ Heq Hrun2 Hrun)
    as [-> Hcells].
  by exists ws2'.
Qed.

(** A body that writes no code cell does not see a code cell of another
    row either. *)
Hypothesis cuerpo_insert : ∀ ws fila codigo r v,
  r ≠ fila →
  cuerpo (<[(r, COL_CODIGO) := v]> ws) fila codigo
  = (<[(r, COL_CODIGO) := v]> (cuerpo ws fila codigo).1,
     (cuerpo ws fila codigo).2).

(** A code cell that tests false may hold anything that tests false: the
    loop does the same. *)
Lemma mientras_celda_falsa r v fuel : ∀ ws fila,
  truthy v = false →
  truthy (value_at ws r COL_CODIGO) = false →
  EnSitio.mientras E cuerpo fuel (<[(r, COL_CODIGO) := v]> ws) fila
  = con_celda r v <$> EnSitio.mientras E cuerpo fuel ws fila.
Proof.
  induction fuel as [|fuel IH]; intros ws fila Hv Hws; [done|].
  rewrite !mientras_S.
  destruct (decide (fila = r)) as [->|Hne].
  - unfold value_at at 1. rewrite lookup_insert_eq. simpl. rewrite Hv, Hws.
    simpl. unfold con_celda. simpl. f_equal. f_equal. f_equal.
    unfold cell. rewrite lookup_insert_eq.
    destruct (ws !! (r, COL_CODIGO)); simpl; [done|].
    by rewrite insert_insert_eq.
  - assert (value_at (<[(r, COL_CODIGO) := v]> ws) fila COL_CODIGO
            = value_at ws fila COL_CODIGO) as Hva.
    { unfold value_at. rewrite lookup_insert_ne; [done|]. by intros [= ?]. }
    assert (codigo_en E (<[(r, COL_CODIGO) := v]> ws) fila = codigo_en E ws fila)
      as Hco by (unfold codigo_en; by rewrite Hva).
    rewrite Hva, Hco, cell_insert_ne by (by intros [= ?]).
    destruct (truthy (value_at ws fila COL_CODIGO)); simpl; [|done].
    rewrite cuerpo_insert by done. simpl.
    rewrite IH; [|done|by rewrite value_at_cuerpo_codigo, value_at_cell].
    by destruct (EnSitio.mientras _ _ _ _ _) as [[[w l] f]|].
Qed.
End BucleProps.

(** ** Writing the destination columns of one row *)

Section Escribir.
Implicit Types (ws : Worksheet) (cols : list (nat * Value)).

Lemma escribir_fuera fila cols : ∀ ws r c,
  r ≠ fila ∨ c ∉ cols.*1 →
  escribir fila cols ws !! (r, c) = ws !! (r, c).
Proof.
  induction cols as [|[c0 v0] cols IH]; intros ws r c H; [done|].
  simpl. rewrite IH.
  - rewrite cell_set_lookup, decide_False; [done|].
    intros [= -> ->]. destruct H as [?|H]; [done|]. apply H. simpl. left.
  - destruct H as [?|H]; [by left|right]. intros Hc. apply H. simpl. by right.
Qed.

Lemma escribir_local fila cols : ∀ ws1 ws2,
  (∀ c, ws1 !! (fila, c) = ws2 !! (fila, c)) →
  ∀ c, escribir fila cols ws1 !! (fila, c)
       = escribir fila cols ws2 !! (fila, c).
Proof.
  induction cols as [|[c0 v0] cols IH]; intros ws1 ws2 H c; [by simpl|].
  simpl. apply IH. intros c'. rewrite !cell_set_lookup.
  case_decide; [|done]. unfold value_at. by rewrite H.
Qed.

Lemma escribir_en fila cols : ∀ ws c v,
  NoDup cols.*1 → (c, v) ∈ cols →
  escribir fila cols ws !! (fila, c)
  = Some (match v with VNone => value_at ws fila c | _ => v end).
Proof.
  induction cols as [|[c0 v0] cols IH]; intros ws c v Hnd Hin.
  - by apply elem_of_nil in Hin.
  - simpl in *. apply NoDup_cons in Hnd as [Hc0 Hnd].
    apply elem_of_cons in Hin as [[= -> ->]|Hin].
    + rewrite escribir_fuera by auto.
      by rewrite cell_set_lookup, decide_True.
    + rewrite (IH _ c v) by done.
      assert (c ≠ c0).
      { intros ->. apply Hc0. apply list_elem_of_fmap. by exists (c0, v). }
      rewrite value_at_cell_set, decide_False; [done|]. by intros [= ?].
Qed.

Lemma escribir_insert_ne fila cols : ∀ ws k v,
  k.1 ≠ fila ∨ k.2 ∉ cols.*1 →
  escribir fila cols (<[k := v]> ws) = <[k := v]> (escribir fila cols ws).
Proof.
  induction cols as [|[c0 v0] cols IH]; intros ws k v H; [done|].
  simpl. rewrite cell_set_insert_ne.
  - apply IH. destruct H as [?|H]; [by left|right].
    intros Hc. apply H. simpl. by right.
  - intros ->. destruct H as [?|H]; [done|]. apply H. simpl. left.
Qed.
End Escribir.

Lemma NoDup_columnas_destino : NoDup columnas_destino.
Proof. compute_done. Qed.

Lemma COL_CODIGO_no_destino : COL_CODIGO ∉ columnas_destino.
Proof. compute_done. Qed.

(** ** The row bodies of the in-place scripts *)

Section Cuerpos.
Variable E : Entorno.

Lemma copiar_escribir wb fila ws :
  V0.copiar wb fila ws = escribir fila (valores_v0 wb) ws.
Proof. reflexivity. Qed.

Lemma enlazar_escribir codigo fila ws :
  V1.enlazar E codigo fila ws = escribir fila (formulas_v1 E codigo) ws.
Proof. reflexivity. Qed.

Lemma valores_v0_columnas wb : (valores_v0 wb).*1 = columnas_destino.
Proof. reflexivity. Qed.

Lemma formulas_v1_columnas codigo : (formulas_v1 E codigo).*1 = columnas_destino.
Proof. reflexivity. Qed.

Lemma V0_cuerpo_fuera ruta ws fila codigo r c :
  r ≠ fila ∨ c = COL_CODIGO →
  (V0.cuerpo E ruta ws fila codigo).1 !! (r, c) = ws !! (r, c).
Proof.
  intros H. unfold V0.cuerpo.
  destruct (isfile _ _); [|done]. destruct (load_workbook _ _); [|done].
  simpl. rewrite copiar_escribir. apply escribir_fuera.
  rewrite valores_v0_columnas.
  destruct H as [?| ->]; [by left|right; apply COL_CODIGO_no_destino].
Qed.

Lemma V0_cuerpo_local ruta ws1 ws2 fila codigo :
  (∀ c, ws1 !! (fila, c) = ws2 !! (fila, c)) →
  (∀ c, (V0.cuerpo E ruta ws1 fila codigo).1 !! (fila, c)
        = (V0.cuerpo E ruta ws2 fila codigo).1 !! (fila, c))
  ∧ (V0.cuerpo E ruta ws1 fila codigo).2
    = (V0.cuerpo E ruta ws2 fila codigo).2.
Proof.
  intros H. unfold V0.cuerpo.
  destruct (isfile _ _); [|done]. destruct (load_workbook _ _); [|done].
  simpl. split; [|done]. intros c. rewrite !copiar_escribir.
  by apply escribir_local.
Qed.

Lemma V1_cuerpo_fuera ws fila codigo r c :
  r ≠ fila ∨ c = COL_CODIGO →
  (V1.cuerpo E ws fila codigo).1 !! (r, c) = ws !! (r, c).
Proof.
  intros H. unfold V1.cuerpo. simpl. rewrite enlazar_escribir.
  apply escribir_fuera. rewrite formulas_v1_columnas.
  destruct H as [?| ->]; [by left|right; apply COL_CODIGO_no_destino].
Qed.

Lemma V1_cuerpo_local ws1 ws2 fila codigo :
  (∀ c, ws1 !! (fila, c) = ws2 !! (fila, c)) →
  (∀ c, (V1.cuerpo E ws1 fila codigo).1 !! (fila, c)
        = (V1.cuerpo E ws2 fila codigo).1 !! (fila, c))
  ∧ (V1.cuerpo E ws1 fila codigo).2 = (V1.cuerpo E ws2 fila codigo).2.
Proof.
  intros H. unfold V1.cuerpo. simpl. split; [|done].
  intros c. rewrite !enlazar_escribir. by apply escribir_local.
Qed.

Lemma V0_cuerpo_insert ruta ws fila codigo r v :
  r ≠ fila →
  V0.cuerpo E ruta (<[(r, COL_CODIGO) := v]> ws) fila codigo
  = (<[(r, COL_CODIGO) := v]> (V0.cuerpo E ruta ws fila codigo).1,
     (V0.cuerpo E ruta ws fila codigo).2).
Proof.
  intros Hr. unfold V0.cuerpo.
  destruct (isfile _ _); [|done]. destruct (load_workbook _ _); [|done].
  simpl. rewrite !copiar_escribir, escribir_insert_ne; [done|by left].
Qed.

Lemma V1_cuerpo_insert ws fila codigo r v :
  r ≠ fila →
  V1.cuerpo E (<[(r, COL_CODIGO) := v]> ws) fila codigo
  = (<[(r, COL_CODIGO) := v]> (V1.cuerpo E ws fila codigo).1,
     (V1.cuerpo E ws fila codigo).2).
Proof.
  intros Hr. unfold V1.cuerpo. simpl.
  rewrite !enlazar_escribir, escribir_insert_ne; [done|by left].
Qed.

(** What the value-copy body leaves in a row: a destination column takes
    the value read unless that value is [None]; then, and in every other
    column, the cell reads as before. *)
Lemma V0_cuerpo_copiado ruta ws fila codigo wb :
  isfile E (join (os_path E) ruta (codigo +:+ ".xlsx")) = true →
  load_workbook E (join (os_path E) ruta (codigo +:+ ".xlsx")) = Ok wb →
  (V0.cuerpo E ruta ws fila codigo).2 = Copiado
  ∧ (∀ col_letra celda, (col_letra, celda) ∈ V0.COLUMNAS_DESTINO →
       value_at (V0.cuerpo E ruta ws fila codigo).1 fila
                (column_index_from_string col_letra)
       = match V0.cargar_valor wb celda with
         | VNone => value_at ws fila (column_index_from_string col_letra)
         | v => v
         end)
  ∧ (∀ c, c ∉ columnas_destino →
       (V0.cuerpo E ruta ws fila codigo).1 !! (fila, c) = ws !! (fila, c)).
Proof.
  intros Hf Hl. unfold V0.cuerpo. rewrite Hf, Hl. simpl.
  split_and!; [done|..].
  - intros col celda Hin. unfold value_at at 1.
    rewrite copiar_escribir.
    rewrite (escribir_en _ _ _ _ (V0.cargar_valor wb celda));
      [simpl; by destruct (V0.cargar_valor wb celda)
      |apply NoDup_columnas_destino|].
    unfold valores_v0. apply list_elem_of_fmap. by exists (col, celda).
  - intros c Hc. rewrite copiar_escribir. apply escribir_fuera. by right.
Qed.

Lemma V1_cuerpo_formulas ws fila codigo :
  (V1.cuerpo E ws fila codigo).2
  = (if isfile E (V1.ruta_absoluta_archivo_codigo E codigo)
     then FormulaAnadida else NoEncontradoConFormula)
  ∧ (∀ col_letra ref, (col_letra, ref) ∈ V1.COLUMNAS_DESTINO →
       (V1.cuerpo E ws fila codigo).1
         !! (fila, column_index_from_string col_letra)
       = Some (VStr (V1.formula_enlace E codigo ref)))
  ∧ (∀ c, c ∉ columnas_destino →
       (V1.cuerpo E ws fila codigo).1 !! (fila, c) = ws !! (fila, c)).
Proof.
  unfold V1.cuerpo. simpl. split_and!; [done|..].
  - intros col ref Hin. rewrite enlazar_escribir.
    rewrite (escribir_en _ _ _ _ (VStr (V1.formula_enlace E codigo ref)));
      [done|apply NoDup_columnas_destino|].
    unfold formulas_v1. apply list_elem_of_fmap. by exists (col, ref).
  - intros c Hc. rewrite enlazar_escribir. apply escribir_fuera. by right.
Qed.
End Cuerpos.


(** ** The loop with the row check of [ws.cell] *)

Lemma MAX_ROW_valor : MAX_ROW = Z.to_nat 1048576.
Proof. unfold MAX_ROW. lia. Qed.

Lemma ws_cell_en_rango (ws : Worksheet) (row column : nat) :
  1 ≤ row ≤ MAX_ROW → ws_cell ws row column = Ok (cell ws row column).
Proof.
  intros [H1 H2]. unfold ws_cell.
  by rewrite (proj2 (Nat.leb_le 1 row) H1), (proj2 (Nat.leb_le row MAX_ROW) H2).
Qed.

Lemma ws_cell_fuera (ws : Worksheet) (row column : nat) :
  MAX_ROW < row → ws_cell ws row column = Raise (error_de_fila row).
Proof.
  intros H. unfold ws_cell.
  rewrite (proj2 (Nat.leb_gt row MAX_ROW) H). by rewrite andb_false_r.
Qed.

Section BucleOpenpyxl.
Variable E : Entorno.
Variable cuerpo : Worksheet → nat → string → Worksheet * Estado.

(** [bucle] against [mientras]: when the loop on the rows of the sheet
    stops within the rows a sheet can have, the call returns that result;
    when it stops past them, the call has raised at the row after the
    last. *)
Lemma bucle_mientras fuel : ∀ ws fila res,
  1 ≤ fila →
  EnSitio.mientras E cuerpo fuel ws fila = Some res →
  fila ≤ res.2
  ∧ (res.2 ≤ MAX_ROW →
     EnSitio.bucle E cuerpo fuel ws fila = Some (Ok res))
  ∧ (MAX_ROW < res.2 → fila ≤ S MAX_ROW →
     EnSitio.bucle E cuerpo fuel ws fila
     = Some (Raise (error_de_fila (S MAX_ROW)))).
Proof.
  induction fuel as [|fuel IH]; intros ws fila res Hfila Hrun; [done|].
  cbn [EnSitio.mientras EnSitio.bucle] in Hrun |- *.
  destruct (cell ws fila COL_CODIGO) as [ws1 codigo] eqn:Hcell.
  destruct (truthy codigo) eqn:Hcod; cbn [negb] in Hrun.
  - destruct (cuerpo ws1 fila (strip (str (repr_float E) codigo)))
      as [ws2 estado] eqn:Hcuerpo.
    destruct (EnSitio.mientras E cuerpo fuel ws2 (S fila))
      as [[[w l] f]|] eqn:Hsub; [|done].
    cbn [mbind option_bind] in Hrun. injection Hrun as <-.
    destruct (IH ws2 (S fila) (w, l, f) ltac:(lia) Hsub)
      as (Hle & Hok & Hfallo).
    cbn [snd] in Hle, Hok, Hfallo |- *.
    split_and!; [lia| |].
    + intros Hf. rewrite ws_cell_en_rango, Hcell by lia.
      rewrite Hcod. cbn [negb]. rewrite Hcuerpo.
      by rewrite (Hok Hf).
    + intros Hf Hlim. destruct (decide (fila ≤ MAX_ROW)) as [Hin|Hout].
      * rewrite ws_cell_en_rango, Hcell by lia.
        rewrite Hcod. cbn [negb]. rewrite Hcuerpo.
        by rewrite (Hfallo Hf ltac:(lia)).
      * assert (fila = S MAX_ROW) as -> by lia.
        by rewrite ws_cell_fuera by lia.
  - injection Hrun as <-. cbn [snd].
    split_and!; [done| |].
    + intros Hf. rewrite ws_cell_en_rango, Hcell by lia.
      by rewrite Hcod.
    + intros Hf Hlim. assert (fila = S MAX_ROW) as -> by lia.
      by rewrite ws_cell_fuera by lia.
Qed.

Hypothesis cuerpo_fuera : ∀ ws fila codigo r c,
  r ≠ fila ∨ c = COL_CODIGO →
  (cuerpo ws fila codigo).1 !! (r, c) = ws !! (r, c).

(** A sheet with a false code cell within its rows: the call returns what
    the loop on the rows gives, and the loop stops at or above that cell. *)
Lemma bucle_con_paro (ws : Worksheet) :
  con_paro ws →
  ∃ ws' consola fin,
    EnSitio.mientras E cuerpo (EnSitio.combustible ws) ws FILA_INICIO
    = Some (ws', consola, fin)
    ∧ EnSitio.bucle E cuerpo (EnSitio.combustible ws) ws FILA_INICIO
      = Some (Ok (ws', consola, fin))
    ∧ fin ≤ MAX_ROW.
Proof.
  intros (r0 & Hr0 & Hfalso).
  destruct (mientras_combustible E cuerpo cuerpo_fuera ws)
    as [[[ws' consola] fin] Hrun].
  pose proof (mientras_paro E cuerpo cuerpo_fuera _ _ _ _ _ _ Hrun)
    as (Hle & _ & Htr & _).
  assert (fin ≤ r0) as Hfin.
  { destruct (decide (fin ≤ r0)) as [|Hgt]; [done|].
    rewrite Htr in Hfalso by lia. done. }
  exists ws', consola, fin. split_and!; [done| |lia].
  apply (bucle_mientras _ _ _ (ws', consola, fin)); [|done|cbn [snd]; lia].
  unfold FILA_INICIO. lia.
Qed.

(** A sheet whose column D is filled to the last row: the call raises when
    the loop asks for the row after it. *)
Lemma bucle_sin_paro (ws : Worksheet) :
  (∀ r, FILA_INICIO ≤ r ≤ MAX_ROW →
        truthy (value_at ws r COL_CODIGO) = true) →
  EnSitio.bucle E cuerpo (EnSitio.combustible ws) ws FILA_INICIO
  = Some (Raise (error_de_fila (S MAX_ROW))).
Proof.
  intros Hllena.
  destruct (mientras_combustible E cuerpo cuerpo_fuera ws)
    as [[[ws' consola] fin] Hrun].
  pose proof (mientras_paro E cuerpo cuerpo_fuera _ _ _ _ _ _ Hrun)
    as (Hle & Hfalso & _).
  assert (MAX_ROW < fin) as Hfin.
  { destruct (decide (MAX_ROW < fin)) as [|Hin]; [done|].
    rewrite Hllena in Hfalso by lia. done. }
  apply (bucle_mientras _ _ _ (ws', consola, fin)); [|done|done|].
  - unfold FILA_INICIO. lia.
  - unfold FILA_INICIO, MAX_ROW. lia.
Qed.
End BucleOpenpyxl.


(** ** Sheets by name, and the in-place [main] on a workbook *)

Section Hojas.
Context {A : Type}.
Implicit Types (wb : list (string * A)) (n m : string) (ws : A).

Lemma hoja_de_cons wb n m ws :
  EnSitio.hoja_de ((n, ws) :: wb) m
  = if decide (n = m) then Some ws else EnSitio.hoja_de wb m.
Proof.
  cbn [EnSitio.hoja_de].
  destruct (String.eqb_spec n m) as [->|Hne];
    [by rewrite decide_True|by rewrite decide_False].
Qed.

Lemma hoja_de_None wb m : EnSitio.hoja_de wb m = None ↔ m ∉ wb.*1.
Proof.
  induction wb as [|[n ws] wb IH].
  { split; [intros _; apply not_elem_of_nil|done]. }
  rewrite hoja_de_cons, fmap_cons, not_elem_of_cons. cbn [fst].
  case_decide as Hnm.
  - split; [done|]. intros [Hne _]. by destruct Hne.
  - rewrite IH. split; [intros Hm; split; [congruence|done]|by intros [_ ?]].
Qed.

Lemma hoja_de_app wb1 wb2 m :
  EnSitio.hoja_de (wb1 ++ wb2) m
  = match EnSitio.hoja_de wb1 m with
    | Some ws => Some ws
    | None => EnSitio.hoja_de wb2 m
    end.
Proof.
  induction wb1 as [|[n ws] wb1 IH]; [done|].
  rewrite <- app_comm_cons, !hoja_de_cons. by case_decide.
Qed.

Lemma fst_poner_hoja wb n ws : (EnSitio.poner_hoja wb n ws).*1 = wb.*1.
Proof.
  induction wb as [|[m ws0] wb IH]; [done|]. cbn [EnSitio.poner_hoja].
  destruct (String.eqb m n); [done|]. rewrite !fmap_cons. by rewrite IH.
Qed.

Lemma hoja_de_poner_hoja wb n ws m :
  EnSitio.hoja_de (EnSitio.poner_hoja wb n ws) m
  = if decide (n = m) then (λ _, ws) <$> EnSitio.hoja_de wb n
    else EnSitio.hoja_de wb m.
Proof.
  induction wb as [|[k ws0] wb IH]; [by case_decide|].
  cbn [EnSitio.poner_hoja]. destruct (String.eqb_spec k n) as [->|Hkn].
  - rewrite !hoja_de_cons. repeat case_decide; simplify_eq; done.
  - rewrite !hoja_de_cons, IH. repeat case_decide; simplify_eq; done.
Qed.
End Hojas.

(** Column D of the sheet is filled from the first data row to the last row
    a sheet can have. *)
Lemma con_paro_o_llena (ws : Worksheet) :
  con_paro ws
  ∨ ∀ r, FILA_INICIO ≤ r ≤ MAX_ROW →
         truthy (value_at ws r COL_CODIGO) = true.
Proof.
  set (filas := seq FILA_INICIO (S MAX_ROW - FILA_INICIO)).
  destruct (decide (Exists (λ r, truthy (value_at ws r COL_CODIGO) = false)
                           filas)) as [Hex|Hno].
  - left. apply Exists_exists in Hex as (r & Hr & Hf).
    apply elem_of_seq in Hr. exists r. split; [lia|done].
  - right. intros r Hr.
    destruct (truthy (value_at ws r COL_CODIGO)) eqn:Ht; [done|].
    destruct Hno. apply Exists_exists. exists r. split; [|done].
    apply elem_of_seq. lia.
Qed.

Section LibroEnSitio.
Variable procesar_hoja : Worksheet → option (Worksheet * list Linea * nat).
Variable llamada : Worksheet → option (Exc (Worksheet * list Linea * nat)).
Hypothesis llamada_con_paro : ∀ ws,
  con_paro ws →
  ∃ ws' consola fin,
    procesar_hoja ws = Some (ws', consola, fin)
    ∧ llamada ws = Some (Ok (ws', consola, fin))
    ∧ fin ≤ MAX_ROW.
Hypothesis llamada_llena : ∀ ws,
  (∀ r, FILA_INICIO ≤ r ≤ MAX_ROW →
        truthy (value_at ws r COL_CODIGO) = true) →
  ∃ e, llamada ws = Some (Raise e).

Lemma procesar_hojas_forma hojas :
  NoDup hojas →
  ∀ wb : EnSitio.Libro,
  (∀ n ws, n ∈ hojas → EnSitio.hoja_de wb n = Some ws → con_paro ws) →
  ∃ wb',
    EnSitio.procesar_hojas llamada hojas wb = Some (Ok wb')
    ∧ wb'.*1 = wb.*1
    ∧ (∀ n, n ∉ hojas → EnSitio.hoja_de wb' n = EnSitio.hoja_de wb n)
    ∧ (∀ n ws, n ∈ hojas → EnSitio.hoja_de wb n = Some ws →
         ∃ ws' consola fin,
           procesar_hoja ws = Some (ws', consola, fin)
           ∧ fin ≤ MAX_ROW
           ∧ EnSitio.hoja_de wb' n = Some ws').
Proof.
  induction 1 as [|hoja resto Hno Hnd IH]; intros wb Hparo.
  { exists wb. split_and!; [done..|]. intros n ws Hn. by inversion Hn. }
  cbn [EnSitio.procesar_hojas].
  destruct (EnSitio.hoja_de wb hoja) as [ws|] eqn:Hhoja.
  - destruct (llamada_con_paro ws) as (ws1 & l1 & f1 & Hws & Hllam & Hf1).
    { apply (Hparo hoja); [left|done]. }
    rewrite Hllam. cbn [mbind option_bind].
    destruct (IH (EnSitio.poner_hoja wb hoja ws1))
      as (wb' & -> & Hnames & Hotras & Hobj).
    { intros n ws2 Hn. rewrite hoja_de_poner_hoja.
      case_decide as Hnh; [by subst n|].
      apply Hparo. by right. }
    exists wb'. split_and!; [done|by rewrite Hnames, fst_poner_hoja| |].
    + intros n [Hne Hn]%not_elem_of_cons.
      rewrite Hotras, hoja_de_poner_hoja by done.
      by rewrite decide_False by done.
    + intros n ws2 Hn Hn2.
      destruct (decide (n = hoja)) as [->|Hne].
      * exists ws1, l1, f1. split_and!; [congruence|done|].
        rewrite Hotras, hoja_de_poner_hoja by done.
        rewrite decide_True by done. by rewrite Hhoja.
      * apply elem_of_cons in Hn as [?|Hn]; [done|].
        apply Hobj; [done|]. rewrite hoja_de_poner_hoja.
        by rewrite decide_False by done.
  - destruct (IH wb) as (wb' & -> & Hnames & Hotras & Hobj).
    { intros n ws2 Hn. apply Hparo. by right. }
    exists wb'. split_and!; [done..| |].
    + intros n [Hne Hn]%not_elem_of_cons. by apply Hotras.
    + intros n ws2 Hn Hn2.
      apply elem_of_cons in Hn as [->|Hn]; [congruence|]. by apply Hobj.
Qed.

(** One target sheet with column D filled to the last row is enough for
    the loop over the target sheets to be left by an exception, at that
    sheet or at one before it. *)
Lemma procesar_hojas_llena hojas :
  NoDup hojas →
  ∀ (wb : EnSitio.Libro) n ws,
  n ∈ hojas → EnSitio.hoja_de wb n = Some ws →
  (∀ r, FILA_INICIO ≤ r ≤ MAX_ROW →
        truthy (value_at ws r COL_CODIGO) = true) →
  ∃ e, EnSitio.procesar_hojas llamada hojas wb = Some (Raise e).
Proof.
  induction 1 as [|hoja resto Hno Hnd IH]; intros wb n ws Hn Hws Hllena.
  { by inversion Hn. }
  cbn [EnSitio.procesar_hojas].
  destruct (EnSitio.hoja_de wb hoja) as [ws0|] eqn:Hhoja.
  - destruct (con_paro_o_llena ws0) as [Hparo|Hllena0].
    + destruct (llamada_con_paro ws0 Hparo)
        as (ws1 & l1 & f1 & _ & Hllam & _).
      rewrite Hllam. cbn [mbind option_bind].
      destruct (decide (n = hoja)) as [->|Hne].
      * assert (ws0 = ws) as -> by congruence.
        destruct Hparo as (r & Hr & Hf). rewrite Hllena in Hf by done.
        done.
      * apply (IH _ n ws); [|by rewrite hoja_de_poner_hoja, decide_False
                             |done].
        apply elem_of_cons in Hn as [?|Hn]; done.
    + destruct (llamada_llena ws0 Hllena0) as [e He].
      rewrite He. cbn [mbind option_bind]. by exists e.
  - apply (IH wb n ws); [|done|done].
    apply elem_of_cons in Hn as [->|Hn]; [congruence|done].
Qed.

(** [main] ends: each call returns or raises. *)
Lemma procesar_hojas_total hojas :
  ∀ wb : EnSitio.Libro,
  is_Some (EnSitio.procesar_hojas llamada hojas wb).
Proof.
  induction hojas as [|hoja resto IH]; intros wb; [by eexists|].
  cbn [EnSitio.procesar_hojas].
  destruct (EnSitio.hoja_de wb hoja) as [ws|]; [|apply IH].
  destruct (con_paro_o_llena ws) as [Hparo|Hllena].
  - destruct (llamada_con_paro ws Hparo) as (ws1 & l1 & f1 & _ & -> & _).
    cbn [mbind option_bind]. apply IH.
  - destruct (llamada_llena ws Hllena) as [e ->].
    cbn [mbind option_bind]. by eexists.
Qed.
End LibroEnSitio.

Lemma V0_llamada_con_paro (E : Entorno) (ruta : string) (ws : Worksheet) :
  con_paro ws →
  ∃ ws' consola fin,
    V0.procesar_hoja E ruta ws = Some (ws', consola, fin)
    ∧ V0.procesar_hoja_o_error E ruta ws = Some (Ok (ws', consola, fin))
    ∧ fin ≤ MAX_ROW.
Proof.
  apply bucle_con_paro. intros. by apply V0_cuerpo_fuera.
Qed.

Lemma V1_llamada_con_paro (E : Entorno) (ws : Worksheet) :
  con_paro ws →
  ∃ ws' consola fin,
    V1.procesar_hoja E ws = Some (ws', consola, fin)
    ∧ V1.procesar_hoja_o_error E ws = Some (Ok (ws', consola, fin))
    ∧ fin ≤ MAX_ROW.
Proof.
  apply bucle_con_paro. intros. by apply V1_cuerpo_fuera.
Qed.

Lemma V0_llamada_llena (E : Entorno) (ruta : string) (ws : Worksheet) :
  (∀ r, FILA_INICIO ≤ r ≤ MAX_ROW →
        truthy (value_at ws r COL_CODIGO) = true) →
  V0.procesar_hoja_o_error E ruta ws
  = Some (Raise (error_de_fila (S MAX_ROW))).
Proof.
  apply bucle_sin_paro. intros. by apply V0_cuerpo_fuera.
Qed.

Lemma V1_llamada_llena (E : Entorno) (ws : Worksheet) :
  (∀ r, FILA_INICIO ≤ r ≤ MAX_ROW →
        truthy (value_at ws r COL_CODIGO) = true) →
  V1.procesar_hoja_o_error E ws = Some (Raise (error_de_fila (S MAX_ROW))).
Proof.
  apply bucle_sin_paro. intros. by apply V1_cuerpo_fuera.
Qed.

Lemma hoja_llena_llena (r : nat) :
  FILA_INICIO ≤ r ≤ MAX_ROW →
  truthy (value_at Ejemplo2.hoja_llena r COL_CODIGO) = true.
Proof.
  intros Hr.
  assert (Ejemplo2.hoja_llena !! (r, COL_CODIGO) = Some (VStr "A100")) as Hc.
  { unfold Ejemplo2.hoja_llena. apply elem_of_list_to_map_1.
    - rewrite <- list_fmap_compose.
      apply NoDup_fmap_2; [|apply NoDup_seq].
      intros x y Hxy. by injection Hxy.
    - apply list_elem_of_fmap. exists r. split; [reflexivity|].
      apply elem_of_seq. unfold FILA_INICIO, MAX_ROW in *. lia. }
  unfold value_at. rewrite Hc. reflexivity.
Qed.


(** ** Strings *)

Lemma append_cons c (a b : string) : String c a +:+ b = String c (a +:+ b).
Proof. done. Qed.

Lemma append_nil_r (s : string) : s +:+ "" = s.
Proof. induction s as [|c s IH]; [done|]. by rewrite append_cons, IH. Qed.


Lemma endswith_refl (s : string) : endswith s s = true.
Proof. destruct s; simpl; by rewrite ?Ascii.eqb_refl, ?String.eqb_refl. Qed.

Lemma endswith_app (a b : string) : endswith (a +:+ b) b = true.
Proof.
  induction a as [|c a IH].
  - apply endswith_refl.
  - rewrite append_cons. simpl. rewrite IH. apply orb_true_r.
Qed.

Lemma endswith_length (s suf : string) :
  endswith s suf = true → String.length suf ≤ String.length s.
Proof.
  induction s as [|c s IH].
  - destruct suf; simpl; [lia|done].
  - intros H.
    change (String.eqb (String c s) suf || endswith s suf = true) in H.
    apply orb_true_iff in H as [H%String.eqb_eq|H]; [by subst|].
    apply IH in H. simpl. lia.
Qed.

Lemma lstrip_solo_espacios (s : string) :
  solo_espacios s = true → lstrip s = "".
Proof.
  induction s as [|c s IH]; simpl; [done|].
  intros [Hc Hs]%andb_true_iff. rewrite Hc. auto.
Qed.

Lemma strip_solo_espacios (s : string) :
  solo_espacios s = true → strip s = "".
Proof. intros H. unfold strip. by rewrite lstrip_solo_espacios. Qed.

(** ** The streaming loop *)

Section Flujo.
Variable E : Entorno.
Variable ruta_base : string.

Local Abbreviation recorrer := (V02.recorrer E ruta_base).

Lemma recorrer_cons r_idx row resto out consola :
  recorrer r_idx (row :: resto) out consola
  = match turno E ruta_base r_idx row with
    | Raise e => (out, consola, Raise e)
    | Ok (fila, lineas) =>
        recorrer (S r_idx) resto (out ++ [fila]) (consola ++ lineas)
    end.
Proof.
  unfold turno. cbn [V02.recorrer].
  destruct (r_idx + 1 <? V02.FILA_INICIO_DATOS); [by rewrite app_nil_r|].
  destruct (getitem row (COL_CODIGO - 1)) as [codigo_cell|e]; [|done].
  destruct (negb _); [by rewrite app_nil_r|].
  by destruct (V02.fila_con_codigo _ _ _ _).
Qed.

Lemma recorrer_app pre : ∀ r_idx post out consola,
  recorrer r_idx (pre ++ post) out consola
  = match recorrer r_idx pre out consola with
    | (out', consola', Ok _) =>
        recorrer (r_idx + length pre) post out' consola'
    | fallo => fallo
    end.
Proof.
  induction pre as [|row pre IH]; intros r_idx post out consola.
  - simpl. by rewrite Nat.add_0_r.
  - rewrite <- app_comm_cons, !recorrer_cons.
    destruct (turno E ruta_base r_idx row) as [[fila lineas]|e]; [|done].
    rewrite IH. simpl length.
    by replace (S r_idx + length pre) with (r_idx + S (length pre)) by lia.
Qed.

(** Rows already appended stay, in place; each turn appends one. *)
Lemma recorrer_prefijo filas : ∀ r_idx out consola,
  ∃ mas, (recorrer r_idx filas out consola).1.1 = out ++ mas
         ∧ length mas ≤ length filas
         ∧ ((recorrer r_idx filas out consola).2 = Ok tt →
            length mas = length filas).
Proof.
  induction filas as [|row filas IH]; intros r_idx out consola.
  - exists []. simpl. by rewrite app_nil_r.
  - rewrite recorrer_cons.
    destruct (turno E ruta_base r_idx row) as [[fila lineas]|e].
    + destruct (IH (S r_idx) (out ++ [fila]) (consola ++ lineas))
        as (mas & -> & Hlen & Hok).
      exists (fila :: mas). rewrite <- app_assoc. simpl.
      split_and!; [done|lia|]. intros H. by rewrite Hok.
    + exists []. simpl. rewrite app_nil_r. split_and!; [done|lia|done].
Qed.

Lemma turno_ok r_idx row :
  (V02.FILA_INICIO_DATOS ≤ r_idx + 1 → COL_CODIGO ≤ length row) →
  ∃ fila lineas, turno E ruta_base r_idx row = Ok (fila, lineas).
Proof.
  intros H. unfold turno.
  destruct (r_idx + 1 <? V02.FILA_INICIO_DATOS) eqn:Hh; [by eauto|].
  apply Nat.ltb_ge in Hh. specialize (H Hh).
  unfold getitem.
  destruct (row !! (COL_CODIGO - 1)) eqn:Hr.
  - destruct (negb _); eauto.
  - apply lookup_ge_None in Hr. unfold COL_CODIGO in *. lia.
Qed.

(** When the code cell of every data row can be read, the loop runs to the
    end of the sheet and appends one row for each source row, in order. *)
Lemma recorrer_una_por_fila filas : ∀ r_idx out consola,
  filas_anchas r_idx filas →
  ∃ nuevas consola',
    recorrer r_idx filas out consola = (out ++ nuevas, consola', Ok tt)
    ∧ length nuevas = length filas
    ∧ ∀ i fila, filas !! i = Some fila →
        ∃ lineas, turno E ruta_base (r_idx + i) fila = Ok (nuevas !!! i, lineas).
Proof.
  induction filas as [|row filas IH]; intros r_idx out consola Hw.
  - exists [], consola. simpl. rewrite app_nil_r. split_and!; try done.
  - rewrite recorrer_cons.
    destruct (turno_ok r_idx row) as (fila & lineas & Ht).
    { intros Hd. apply (Hw 0 row); [done|lia]. }
    rewrite Ht.
    destruct (IH (S r_idx) (out ++ [fila]) (consola ++ lineas))
      as (nuevas & consola' & Hrec & Hlen & Hrows).
    { intros i f Hi Hd. apply (Hw (S i) f); [done|lia]. }
    exists (fila :: nuevas), consola'. rewrite Hrec, <- app_assoc. simpl.
    split_and!; [done|by rewrite Hlen|].
    intros [|i] f Hi; simpl in *.
    + inversion Hi; subst. rewrite Nat.add_0_r. eauto.
    + replace (r_idx + S i) with (S r_idx + i) by lia. eauto.
Qed.

(** The turn on the row that follows a prefix the loop went through. *)
Lemma recorrer_en pre row post out consola fila lineas :
  recorrer 0 pre [] [] = (out, consola, Ok tt) →
  turno E ruta_base (length pre) row = Ok (fila, lineas) →
  V02.procesar_hoja E ruta_base (pre ++ row :: post) []
  = recorrer (S (length pre)) post (out ++ [fila]) (consola ++ lineas)
  ∧ length out = length pre
  ∧ (V02.procesar_hoja E ruta_base (pre ++ row :: post) []).1.1
      !! length pre = Some fila.
Proof.
  intros Hpre Ht. unfold V02.procesar_hoja.
  rewrite recorrer_app, Hpre. simpl "+". rewrite recorrer_cons, Ht.
  destruct (recorrer_prefijo pre 0 [] []) as (mas & Hm & _ & Hl).
  rewrite Hpre in Hm, Hl. simpl in Hm, Hl. subst mas.
  specialize (Hl eq_refl).
  split_and!; [done|done|].
  destruct (recorrer_prefijo post (S (length pre)) (out ++ [fila])
                             (consola ++ lineas)) as (mas & -> & _).
  rewrite <- app_assoc. rewrite lookup_app_r by lia.
  by rewrite Hl, Nat.sub_diag.
Qed.
End Flujo.


(** ** The destination columns of a streamed row *)

Section Copiar.
Implicit Types (crv : V02.Fila) (cols : list (nat * string)).

Lemma rellenar_aux_spec k : ∀ col crv,
  col - length crv ≤ k →
  V02.rellenar_aux k col crv = crv ++ replicate (col - length crv) VNone.
Proof.
  induction k as [|k IH]; intros col crv Hk; simpl.
  - replace (col - length crv) with 0 by lia. by rewrite app_nil_r.
  - case_decide as Hlt.
    + rewrite IH by (rewrite length_app; simpl; lia).
      rewrite length_app. simpl.
      replace (col - length crv) with (S (col - (length crv + 1))) by lia.
      by rewrite <- app_assoc.
    + replace (col - length crv) with 0 by lia. by rewrite app_nil_r.
Qed.

Lemma rellenar_spec col crv :
  V02.rellenar col crv = crv ++ replicate (col - length crv) VNone.
Proof. unfold V02.rellenar. by apply rellenar_aux_spec. Qed.

Lemma length_rellenar col crv :
  length (V02.rellenar col crv) = length crv `max` col.
Proof. rewrite rellenar_spec, length_app, length_replicate. lia. Qed.

Lemma lookup_rellenar col crv i :
  V02.rellenar col crv !! i = celda_o_vacia crv col i.
Proof.
  rewrite rellenar_spec. unfold celda_o_vacia. case_decide.
  - by rewrite lookup_app_l.
  - rewrite lookup_app_r by lia. case_decide.
    + apply lookup_replicate_2. lia.
    + apply lookup_ge_None. rewrite length_replicate. lia.
Qed.

Lemma length_poner col v crv :
  length (poner col v crv) = length crv `max` col.
Proof. unfold poner. by rewrite length_insert, length_rellenar. Qed.

Lemma lookup_poner col v crv i :
  1 ≤ col →
  poner col v crv !! i
  = if decide (i = col - 1) then Some v else celda_o_vacia crv col i.
Proof.
  intros Hc. unfold poner. case_decide as Hi.
  - subst. apply list_lookup_insert_eq. rewrite length_rellenar. lia.
  - rewrite list_lookup_insert_ne by done. apply lookup_rellenar.
Qed.

(** The padding makes the assignment land inside the list: the [for] loop
    of the row body raises nothing. *)
Lemma copiar_poner wb cols : ∀ crv,
  Forall (λ c, 1 ≤ c) cols.*1 →
  V02.copiar wb cols crv
  = (foldl (λ crv '(col, ref),
             poner col (V02.cargar_valor_desde_origen wb ref) crv) crv cols,
     Ok tt).
Proof.
  induction cols as [|[col ref] cols IH]; intros crv Hc; [done|].
  apply Forall_cons in Hc as [Hcol Hc]. cbv beta in Hcol. simpl in *.
  unfold setitem. rewrite decide_True by (rewrite length_rellenar; lia).
  by rewrite IH.
Qed.

Lemma poner_todos_length (vals : list (nat * Value)) : ∀ crv,
  length (foldl (λ crv '(col, v), poner col v crv) crv vals)
  = length crv `max` max_list vals.*1.
Proof.
  induction vals as [|[col v] vals IH]; intros crv; simpl; [lia|].
  rewrite IH, length_poner.
  change (list_fmap _ _ fst vals) with (vals.*1). lia.
Qed.

Lemma poner_todos_fuera (vals : list (nat * Value)) : ∀ crv i,
  Forall (λ c, 1 ≤ c) vals.*1 →
  S i ∉ vals.*1 →
  foldl (λ crv '(col, v), poner col v crv) crv vals !! i
  = celda_o_vacia crv (max_list vals.*1) i.
Proof.
  induction vals as [|[col v] vals IH]; intros crv i Hc Hi.
  - simpl. unfold celda_o_vacia. repeat case_decide; try lia; try done.
    apply lookup_ge_None. lia.
  - rewrite fmap_cons in Hc, Hi. cbn [fst] in Hc, Hi.
    apply Forall_cons in Hc as [Hcol Hc]. cbv beta in Hcol.
    apply not_elem_of_cons in Hi as [Hi1 Hi2].
    cbn [foldl]. rewrite IH by done.
    rewrite fmap_cons. cbn [fst max_list].
    unfold celda_o_vacia at 1. rewrite length_poner, lookup_poner by done.
    unfold celda_o_vacia, id.
    repeat case_decide; try lia; done.
Qed.

Lemma poner_todos_en (vals : list (nat * Value)) : ∀ crv col v,
  Forall (λ c, 1 ≤ c) vals.*1 →
  NoDup vals.*1 → (col, v) ∈ vals →
  foldl (λ crv '(col, v), poner col v crv) crv vals !! (col - 1) = Some v.
Proof.
  induction vals as [|[c0 v0] vals IH]; intros crv col v Hc Hnd Hin.
  - by apply elem_of_nil in Hin.
  - rewrite fmap_cons in Hc, Hnd. cbn [fst] in Hc, Hnd.
    apply Forall_cons in Hc as [Hc0 Hc]. cbv beta in Hc0.
    apply NoDup_cons in Hnd as [Hn0 Hnd].
    cbn [foldl].
    apply elem_of_cons in Hin as [[= -> ->]|Hin].
    + rewrite poner_todos_fuera; [|done|].
      * unfold celda_o_vacia. rewrite length_poner.
        rewrite decide_True by lia.
        by rewrite lookup_poner, decide_True.
      * by replace (S (c0 - 1)) with c0 by lia.
    + by apply IH.
Qed.
End Copiar.

Lemma copiar_destinos wb crv :
  V02.copiar wb V02.COL_INDICES_DESTINO crv
  = (foldl (λ crv '(col, v), poner col v crv) crv (valores_v02 wb), Ok tt).
Proof. rewrite copiar_poner; [done|]. compute_done. Qed.

(** A data row whose per-entity workbook loads: every destination column
    holds the value read, the row is padded to thirteen cells, and the other
    cells are as they were. *)
Lemma fila_con_codigo_copiado E ruta codigo wb crv :
  isfile E (join (os_path E) ruta (codigo +:+ ".xlsx")) = true →
  load_workbook E (join (os_path E) ruta (codigo +:+ ".xlsx")) = Ok wb →
  ∃ crv', V02.fila_con_codigo E ruta codigo crv = (crv', Copiado)
    ∧ length crv' = length crv `max` 13
    ∧ (∀ col ref, (col, ref) ∈ V02.COL_INDICES_DESTINO →
         crv' !! (col - 1) = Some (V02.cargar_valor_desde_origen wb ref))
    ∧ (∀ i, S i ∉ columnas_destino → crv' !! i = celda_o_vacia crv 13 i).
Proof.
  intros Hf Hl. unfold V02.fila_con_codigo. rewrite Hf, Hl, copiar_destinos.
  eexists. split_and!; [done|..].
  - by rewrite poner_todos_length.
  - intros col ref Hin. apply poner_todos_en; [compute_done|compute_done|].
    unfold valores_v02. apply list_elem_of_fmap. by exists (col, ref).
  - intros i Hi. by rewrite poner_todos_fuera; [|compute_done|].
Qed.


(** ** The loops of the two in-place scripts *)

Lemma truthy_VStr (s : string) : truthy (VStr s) = false ↔ s = "".
Proof. by destruct s. Qed.

Lemma alcanzada_bool (ws : Worksheet) (r : nat) :
  FILA_INICIO ≤ r →
  forallb (λ r', truthy (value_at ws r' COL_CODIGO))
          (seq FILA_INICIO (S r - FILA_INICIO)) = true →
  alcanzada ws r.
Proof.
  intros Hr Hall. split; [done|]. intros r' Hr'.
  rewrite forallb_forall in Hall. apply Hall, in_seq. lia.
Qed.

(** On a concrete sheet the rows down to [r] are checked by evaluation. *)
Ltac alcanzada_por_calculo :=
  apply alcanzada_bool; [unfold FILA_INICIO; lia | reflexivity].

Lemma V0_alcanzada E ruta ws r :
  alcanzada ws r →
  ∃ ws' consola fin,
    V0.procesar_hoja E ruta ws = Some (ws', consola, fin)
    ∧ r < fin
    ∧ truthy (value_at ws fin COL_CODIGO) = false
    ∧ (∀ c, ws' !! (r, c)
            = (V0.cuerpo E ruta ws r (codigo_en E ws r)).1 !! (r, c))
    ∧ consola !! (r - FILA_INICIO)
      = Some (linea r (codigo_en E ws r)
                    (V0.cuerpo E ruta ws r (codigo_en E ws r)).2).
Proof.
  apply mientras_alcanzada.
  - intros. by apply V0_cuerpo_fuera.
  - intros. by apply V0_cuerpo_local.
Qed.

Lemma V1_alcanzada E ws r :
  alcanzada ws r →
  ∃ ws' consola fin,
    V1.procesar_hoja E ws = Some (ws', consola, fin)
    ∧ r < fin
    ∧ truthy (value_at ws fin COL_CODIGO) = false
    ∧ (∀ c, ws' !! (r, c)
            = (V1.cuerpo E ws r (codigo_en E ws r)).1 !! (r, c))
    ∧ consola !! (r - FILA_INICIO)
      = Some (linea r (codigo_en E ws r)
                    (V1.cuerpo E ws r (codigo_en E ws r)).2).
Proof.
  apply mientras_alcanzada.
  - intros. by apply V1_cuerpo_fuera.
  - intros. by apply V1_cuerpo_local.
Qed.

(** Both loops end on every sheet. *)
Lemma V0_procesar_hoja_total E ruta ws : is_Some (V0.procesar_hoja E ruta ws).
Proof.
  apply mientras_combustible. intros. by apply V0_cuerpo_fuera.
Qed.

Lemma V1_procesar_hoja_total E ws : is_Some (V1.procesar_hoja E ws).
Proof.
  apply mientras_combustible. intros. by apply V1_cuerpo_fuera.
Qed.

(** ** Turns of the streaming loop *)

Lemma turno_encabezado E ruta r_idx row :
  r_idx + 1 < V02.FILA_INICIO_DATOS →
  turno E ruta r_idx row = Ok (row, []).
Proof.
  intros H. unfold turno.
  by destruct (Nat.ltb_spec (r_idx + 1) V02.FILA_INICIO_DATOS); [|lia].
Qed.

Lemma turno_sin_codigo E ruta r_idx row v :
  row !! (COL_CODIGO - 1) = Some v →
  V02.codigo_de E v = "" →
  turno E ruta r_idx row = Ok (row, []).
Proof.
  intros Hv Hc. unfold turno, getitem.
  destruct (_ <? _); [done|]. by rewrite Hv, Hc.
Qed.

Lemma turno_con_codigo E ruta r_idx row v :
  V02.FILA_INICIO_DATOS ≤ r_idx + 1 →
  row !! (COL_CODIGO - 1) = Some v →
  V02.codigo_de E v ≠ "" →
  turno E ruta r_idx row
  = Ok ((V02.fila_con_codigo E ruta (V02.codigo_de E v) row).1,
        [linea (r_idx + 1) (V02.codigo_de E v)
               (V02.fila_con_codigo E ruta (V02.codigo_de E v) row).2]).
Proof.
  intros Hd Hv Hc. unfold turno, getitem.
  destruct (Nat.ltb_spec (r_idx + 1) V02.FILA_INICIO_DATOS); [lia|].
  rewrite Hv.
  destruct (truthy (VStr (V02.codigo_de E v))) eqn:Ht; [done|].
  by apply truthy_VStr in Ht.
Qed.

Lemma turno_fila_corta E ruta r_idx row :
  V02.FILA_INICIO_DATOS ≤ r_idx + 1 →
  length row < COL_CODIGO →
  turno E ruta r_idx row = Raise IndexError.
Proof.
  intros Hd Hl. unfold turno, getitem.
  destruct (Nat.ltb_spec (r_idx + 1) V02.FILA_INICIO_DATOS); [lia|].
  rewrite (proj2 (lookup_ge_None _ _)); [done|]. unfold COL_CODIGO in *. lia.
Qed.

(** A sheet all of whose rows reach the code column. *)
Lemma filas_anchas_Forall (r_idx : nat) (filas : list V02.Fila) :
  Forall (λ fila, COL_CODIGO ≤ length fila) filas → filas_anchas r_idx filas.
Proof.
  intros H i fila Hi _. rewrite Forall_lookup in H. by apply (H i).
Qed.

(** ** The text of a link formula *)


Lemma formula_enlace_forma E codigo ref :
  V1.formula_enlace E codigo ref
  = "='" +:+ V1.path_para_formula E codigo
         +:+ "[" +:+ V1.nombre_archivo_base E codigo +:+ "]Hoja1'!" +:+ ref.
Proof. reflexivity. Qed.


(** * The properties of the specification, C1 to C10 *)

(** ** Rows whose per-entity workbook loads *)

(** In place: after the run each destination column of the row holds the
    value read from its source cell when that value is not [None]; when it is
    [None] the column still holds what it held before. *)
Lemma V0_copiado_en_hoja E ruta ws r wb :
  alcanzada ws r →
  isfile E (join (os_path E) ruta (codigo_en E ws r +:+ ".xlsx")) = true →
  load_workbook E (join (os_path E) ruta (codigo_en E ws r +:+ ".xlsx"))
  = Ok wb →
  ∃ ws' consola fin,
    V0.procesar_hoja E ruta ws = Some (ws', consola, fin)
    ∧ r < fin
    ∧ consola !! (r - FILA_INICIO) = Some (linea r (codigo_en E ws r) Copiado)
    ∧ (∀ col_letra celda, (col_letra, celda) ∈ V0.COLUMNAS_DESTINO →
         value_at ws' r (column_index_from_string col_letra)
         = match V0.cargar_valor wb celda with
           | VNone => value_at ws r (column_index_from_string col_letra)
           | v => v
           end)
    ∧ (∀ c, c ∉ columnas_destino → ws' !! (r, c) = ws !! (r, c)).
Proof.
  intros Hr Hf Hl.
  destruct (V0_alcanzada E ruta ws r Hr)
    as (ws' & consola & fin & Hrun & Hlt & _ & Hrow & Hlin).
  destruct (V0_cuerpo_copiado E ruta ws r _ wb Hf Hl) as (Hest & Hval & Hotras).
  exists ws', consola, fin. split_and!; [done|done|by rewrite Hlin, Hest|..].
  - intros col celda Hin. rewrite <- (Hval col celda Hin).
    unfold value_at. by rewrite Hrow.
  - intros c Hc. rewrite Hrow. by apply Hotras.
Qed.

(** Streaming: the appended row holds the value read in each destination
    column, [None] included. *)
Lemma V02_copiado_en_hoja E ruta pre fila post out consola v wb :
  V02.recorrer E ruta 0 pre [] [] = (out, consola, Ok tt) →
  V02.FILA_INICIO_DATOS ≤ length pre + 1 →
  fila !! (COL_CODIGO - 1) = Some v →
  V02.codigo_de E v ≠ "" →
  isfile E (join (os_path E) ruta (V02.codigo_de E v +:+ ".xlsx")) = true →
  load_workbook E (join (os_path E) ruta (V02.codigo_de E v +:+ ".xlsx"))
  = Ok wb →
  ∃ fila',
    (V02.procesar_hoja E ruta (pre ++ fila :: post) []).1.1 !! length pre
    = Some fila'
    ∧ V02.procesar_hoja E ruta (pre ++ fila :: post) []
      = V02.recorrer E ruta (S (length pre)) post (out ++ [fila'])
          (consola ++ [linea (length pre + 1) (V02.codigo_de E v) Copiado])
    ∧ length fila' = length fila `max` 13
    ∧ (∀ col ref, (col, ref) ∈ V02.COL_INDICES_DESTINO →
         fila' !! (col - 1) = Some (V02.cargar_valor_desde_origen wb ref))
    ∧ (∀ i, S i ∉ columnas_destino → fila' !! i = celda_o_vacia fila 13 i).
Proof.
  intros Hpre Hd Hv Hc Hf Hl.
  destruct (fila_con_codigo_copiado E ruta _ wb fila Hf Hl)
    as (fila' & Hfc & Hlen & Hdest & Hotras).
  exists fila'.
  destruct (recorrer_en E ruta pre fila post out consola fila'
              [linea (length pre + 1) (V02.codigo_de E v) Copiado] Hpre)
    as (H1 & _ & H2).
  { rewrite (turno_con_codigo _ _ _ _ v) by done. by rewrite Hfc. }
  done.
Qed.

(** C1. Extraction on a row whose per-entity file loads.  On the example
    sheet, row 6 has the code A100, 99 in F and 5 in K; [A100.xlsx] loads,
    holds 42 in N21 and nothing in N153.  Both scripts print the copied
    status for the row and store 42 in F.  In K the streaming script stores
    the empty value that was read, while the in-place script leaves 5: its
    [ws.cell(row, column, value=None)] assigns nothing. *)
Theorem C1_valor_vacio_no_copiado :
  V0.cargar_valor Ejemplo.libro_A100 "N153" = VNone
  ∧ value_at Ejemplo.hoja 6 (column_index_from_string "K") = VInt 5
  ∧ (∃ ws' consola fin,
       V0.procesar_hoja Ejemplo.entorno Ejemplo.cwd Ejemplo.hoja
       = Some (ws', consola, fin)
       ∧ consola !! 0 = Some (linea 6 "A100" Copiado)
       ∧ value_at ws' 6 (column_index_from_string "F") = VInt 42
       ∧ value_at ws' 6 (column_index_from_string "K") = VInt 5)
  ∧ (∃ fila,
       (V02.procesar_hoja Ejemplo.entorno Ejemplo.cwd Ejemplo.filas []).1.1 !! 5
       = Some fila
       ∧ fila !! (column_index_from_string "F" - 1) = Some (VInt 42)
       ∧ fila !! (column_index_from_string "K" - 1) = Some VNone).
Proof.
  split_and!; [reflexivity|reflexivity|..].
  - destruct (V0_copiado_en_hoja Ejemplo.entorno Ejemplo.cwd Ejemplo.hoja 6
                Ejemplo.libro_A100)
      as (ws' & consola & fin & Hrun & _ & Hlin & Hval & _).
    + alcanzada_por_calculo.
    + reflexivity.
    + reflexivity.
    + exists ws', consola, fin. split_and!; [done|done|..].
      * apply (Hval "F" "N21"). apply elem_of_cons; left. reflexivity.
      * apply (Hval "K" "N153"). do 3 (apply elem_of_cons; right).
        apply elem_of_cons; left. reflexivity.
  - eexists. split_and!; [vm_compute; reflexivity|reflexivity..].
Qed.


(** ** One output row for each source row *)

(** When the code cell of every data row can be read, the streaming script
    appends exactly one row for each source row of the sheet, in order: the
    row itself for a header row and for a row without code, the row the body
    made of it otherwise. *)
Lemma V02_una_por_fila E ruta filas :
  filas_anchas 0 filas →
  ∃ salida consola,
    V02.procesar_hoja E ruta filas [] = (salida, consola, Ok tt)
    ∧ length salida = length filas
    ∧ ∀ i fila, filas !! i = Some fila →
        ∃ lineas, turno E ruta i fila = Ok (salida !!! i, lineas).
Proof.
  intros Hw. unfold V02.procesar_hoja.
  destruct (recorrer_una_por_fila E ruta filas 0 [] [] Hw)
    as (nuevas & consola' & Hrun & Hlen & Hrows).
  exists nuevas, consola'. done.
Qed.

(** A data row with fewer than four cells ends the loop with [IndexError]:
    neither that row nor any row after it is appended. *)
Lemma V02_fila_corta E ruta pre fila post out consola :
  V02.recorrer E ruta 0 pre [] [] = (out, consola, Ok tt) →
  V02.FILA_INICIO_DATOS ≤ length pre + 1 →
  length fila < COL_CODIGO →
  V02.procesar_hoja E ruta (pre ++ fila :: post) []
  = (out, consola, Raise IndexError)
  ∧ length out = length pre.
Proof.
  intros Hpre Hd Hl. unfold V02.procesar_hoja.
  rewrite recorrer_app, Hpre. simpl "+".
  rewrite recorrer_cons, turno_fila_corta by (done || lia).
  split; [done|].
  destruct (recorrer_prefijo E ruta pre 0 [] []) as (mas & Hm & _ & Hk).
  rewrite Hpre in Hm, Hk. simpl in Hm, Hk. subst mas. by apply Hk.
Qed.

(** C2. One appended row for each source row, in streaming mode.  The
    example sheet has seven rows of three cells each.  The five header rows
    are appended; at row 6, the first data row, reading the code cell
    [row_data[COL_CODIGO - 1]] raises [IndexError], and the loop is left:
    rows 6 and 7 get no output row. *)
Theorem C2_filas_sin_fila_de_salida :
  length Ejemplo.filas_cortas = 7
  ∧ V02.procesar_hoja Ejemplo.entorno Ejemplo.cwd Ejemplo.filas_cortas []
    = (take 5 Ejemplo.filas_cortas, [], Raise IndexError)
  ∧ length (V02.procesar_hoja Ejemplo.entorno Ejemplo.cwd
              Ejemplo.filas_cortas []).1.1 = 5.
Proof. split_and!; reflexivity. Qed.


Lemma todas_bool (ws : Worksheet) (r : nat) :
  forallb (λ r', truthy (value_at ws r' COL_CODIGO))
          (seq FILA_INICIO (r - FILA_INICIO)) = true →
  ∀ r', FILA_INICIO ≤ r' < r → truthy (value_at ws r' COL_CODIGO) = true.
Proof.
  intros Hall r' Hr'. rewrite forallb_forall in Hall. apply Hall, in_seq. lia.
Qed.

(** An empty code cell at or below the first data row.  In place (value
    copy and link formulas alike) the loop breaks at the first such row: the
    console has the rows above it and no other, no cell below it is touched
    or created, and whatever the rows below it hold, the console and the
    cells down to that row come out the same.  Streaming, when the row has a
    cell in column D: the row is appended as it is, nothing is printed for
    it, and the loop goes on with the next source row; when the code cells
    of the remaining rows can be read, it runs to the last source row. *)
Lemma celda_de_codigo_vacia (E : Entorno) :
  (∀ ruta ws r,
     FILA_INICIO ≤ r →
     (∀ r', FILA_INICIO ≤ r' < r →
            truthy (value_at ws r' COL_CODIGO) = true) →
     truthy (value_at ws r COL_CODIGO) = false →
     ∃ ws' consola,
       V0.procesar_hoja E ruta ws = Some (ws', consola, r)
       ∧ map l_fila consola = seq FILA_INICIO (r - FILA_INICIO)
       ∧ (∀ r' c, r < r' → ws' !! (r', c) = ws !! (r', c))
       ∧ (∀ c, value_at ws' r c = value_at ws r c)
       ∧ (∀ ws2 : Worksheet,
            (∀ r' c, r' ≤ r → ws2 !! (r', c) = ws !! (r', c)) →
            ∃ ws2',
              V0.procesar_hoja E ruta ws2 = Some (ws2', consola, r)
              ∧ ∀ r' c, r' ≤ r → ws2' !! (r', c) = ws' !! (r', c)))
  ∧ (∀ ws r,
       FILA_INICIO ≤ r →
       (∀ r', FILA_INICIO ≤ r' < r →
              truthy (value_at ws r' COL_CODIGO) = true) →
       truthy (value_at ws r COL_CODIGO) = false →
       ∃ ws' consola,
         V1.procesar_hoja E ws = Some (ws', consola, r)
         ∧ map l_fila consola = seq FILA_INICIO (r - FILA_INICIO)
         ∧ (∀ r' c, r < r' → ws' !! (r', c) = ws !! (r', c))
         ∧ (∀ c, value_at ws' r c = value_at ws r c)
         ∧ (∀ ws2 : Worksheet,
              (∀ r' c, r' ≤ r → ws2 !! (r', c) = ws !! (r', c)) →
              ∃ ws2',
                V1.procesar_hoja E ws2 = Some (ws2', consola, r)
                ∧ ∀ r' c, r' ≤ r → ws2' !! (r', c) = ws' !! (r', c)))
  ∧ (∀ ruta pre fila post out consola v,
       V02.recorrer E ruta 0 pre [] [] = (out, consola, Ok tt) →
       V02.FILA_INICIO_DATOS ≤ length pre + 1 →
       fila !! (COL_CODIGO - 1) = Some v →
       truthy v = false →
       V02.procesar_hoja E ruta (pre ++ fila :: post) []
       = V02.recorrer E ruta (S (length pre)) post (out ++ [fila]) consola
       ∧ (V02.procesar_hoja E ruta (pre ++ fila :: post) []).1.1
           !! length pre = Some fila
       ∧ (filas_anchas (S (length pre)) post →
          ∃ nuevas consola',
            V02.procesar_hoja E ruta (pre ++ fila :: post) []
            = ((out ++ [fila]) ++ nuevas, consola', Ok tt)
            ∧ length nuevas = length post
            ∧ ∀ i f, post !! i = Some f →
                ∃ lineas, turno E ruta (S (length pre) + i) f
                          = Ok (nuevas !!! i, lineas))).
Proof.
  split_and!.
  - intros ruta ws r. apply mientras_filas_de_abajo.
    + intros. by apply V0_cuerpo_fuera.
    + intros. by apply V0_cuerpo_local.
  - intros ws r. apply mientras_filas_de_abajo.
    + intros. by apply V1_cuerpo_fuera.
    + intros. by apply V1_cuerpo_local.
  - intros ruta pre fila post out consola v Hpre Hd Hv Ht.
    destruct (recorrer_en E ruta pre fila post out consola fila [] Hpre)
      as (H1 & _ & H2).
    { apply (turno_sin_codigo _ _ _ _ v); [done|].
      unfold V02.codigo_de. by rewrite Ht. }
    rewrite app_nil_r in H1. split_and!; [done|done|].
    intros Hw. rewrite H1.
    apply (recorrer_una_por_fila E ruta post (S (length pre))). done.
Qed.

Example celda_de_codigo_vacia_ejemplo :
  (∃ ws' consola,
     V0.procesar_hoja Ejemplo.entorno Ejemplo.cwd Ejemplo.hoja
     = Some (ws', consola, 9)
     ∧ map l_fila consola = [6; 7; 8]
     ∧ ws' !! (10, 6) = Some (VInt 3))
  ∧ (∃ ws' consola,
       V1.procesar_hoja Ejemplo.entorno Ejemplo.hoja = Some (ws', consola, 9)
       ∧ map l_fila consola = [6; 7; 8]
       ∧ ws' !! (10, 6) = Some (VInt 3))
  ∧ (V02.procesar_hoja Ejemplo.entorno Ejemplo.cwd Ejemplo.filas []).1.1 !! 8
    = Ejemplo.filas !! 8.
Proof.
  destruct (celda_de_codigo_vacia Ejemplo.entorno) as (H0 & H1 & H02).
  split_and!.
  - destruct (H0 Ejemplo.cwd Ejemplo.hoja 9) as (ws' & consola & Hrun & Hc & Hb & _ & _).
    + unfold FILA_INICIO. lia.
    + apply todas_bool. reflexivity.
    + reflexivity.
    + exists ws', consola. split_and!; [done|done|].
      rewrite Hb by lia. reflexivity.
  - destruct (H1 Ejemplo.hoja 9) as (ws' & consola & Hrun & Hc & Hb & _ & _).
    + unfold FILA_INICIO. lia.
    + apply todas_bool. reflexivity.
    + reflexivity.
    + exists ws', consola. split_and!; [done|done|].
      rewrite Hb by lia. reflexivity.
  - refine (proj1 (proj2 (H02 Ejemplo.cwd (take 8 Ejemplo.filas)
                       (Ejemplo.fila_de Ejemplo.hoja 13 9)
                       (drop 9 Ejemplo.filas) _ _ VNone
                       eq_refl _ eq_refl eq_refl))).
    vm_compute. lia.
Qed.

(** C3. The two modes on an empty code cell.  The sheet has five header
    rows, row 6 with an empty code cell, row 7 with three cells and row 8
    with the code A100.  The streaming loop appends row 6 as it is and
    prints nothing for it, and goes on to row 7; there reading the code
    cell [row_data[COL_CODIGO - 1]] raises [IndexError] and the loop is
    left: six rows are appended for eight source rows, row 8 is never
    evaluated, and [main] leaves through [sys.exit(1)] without saving.  The
    traversal has not ended at the source row count. *)
Theorem C3_vacia_y_luego_corta :
  length Ejemplo2.filas_vacia_y_corta = 8
  ∧ turno Ejemplo.entorno Ejemplo.cwd 5 [VStr "Centro"; VNone; VNone; VNone]
    = Ok ([VStr "Centro"; VNone; VNone; VNone], [])
  ∧ turno Ejemplo.entorno Ejemplo.cwd 6 [VStr "x"; VStr "y"; VInt 7]
    = Raise IndexError
  ∧ V02.procesar_hoja Ejemplo.entorno Ejemplo.cwd
      Ejemplo2.filas_vacia_y_corta []
    = (take 6 Ejemplo2.filas_vacia_y_corta, [], Raise IndexError)
  ∧ V02.main Ejemplo.entorno
      (Ejemplo.maestro true (Ok [("EDU", Ejemplo2.filas_vacia_y_corta)])
         (Ok tt))
    = {| exit_code := 1; guardado := None |}.
Proof. split_and!; reflexivity. Qed.


(** C4. A data row with a non-empty code whose per-entity file does not
    exist: the in-place value copy leaves every cell of the row as it was and
    goes on to the next row; the streaming value copy appends the row
    unchanged; the link script still writes, in each of the five destination
    columns, the formula that names the resolved path of the missing file:
    the text ='<dir>[<base>]Hoja1'!<ref>, where <base> is the base name and
    <dir> the directory (with the separator appended when it is not empty
    and does not end in it) of the very path that [os.path.isfile] has just
    refused, the absolute path of <code>.xlsx under the fixed root, and
    <ref> is the absolute reference of the column.  Each script prints its
    not-found line for the row. *)
Theorem C4_archivo_no_encontrado (E : Entorno) :
  (∀ ruta ws r,
     alcanzada ws r →
     isfile E (join (os_path E) ruta (codigo_en E ws r +:+ ".xlsx")) = false →
     ∃ ws' consola fin,
       V0.procesar_hoja E ruta ws = Some (ws', consola, fin)
       ∧ r < fin
       ∧ (∀ c, ws' !! (r, c) = ws !! (r, c))
       ∧ consola !! (r - FILA_INICIO)
         = Some (linea r (codigo_en E ws r) ArchivoNoEncontrado))
  ∧ (∀ ruta pre fila post out consola v,
       V02.recorrer E ruta 0 pre [] [] = (out, consola, Ok tt) →
       V02.FILA_INICIO_DATOS ≤ length pre + 1 →
       fila !! (COL_CODIGO - 1) = Some v →
       V02.codigo_de E v ≠ "" →
       isfile E (join (os_path E) ruta (V02.codigo_de E v +:+ ".xlsx"))
       = false →
       V02.procesar_hoja E ruta (pre ++ fila :: post) []
       = V02.recorrer E ruta (S (length pre)) post (out ++ [fila])
           (consola ++ [linea (length pre + 1) (V02.codigo_de E v)
                              ArchivoNoEncontrado])
       ∧ (V02.procesar_hoja E ruta (pre ++ fila :: post) []).1.1
           !! length pre = Some fila)
  ∧ (∀ ws r,
       alcanzada ws r →
       let ruta := abspath (os_path E)
                     (join (os_path E) "C:\presupuestos"
                           (codigo_en E ws r +:+ ".xlsx")) in
       let d := dirname (os_path E) ruta in
       let dir := if truthy (VStr d) && negb (endswith d (sep (os_path E)))
                  then d +:+ sep (os_path E) else d in
       isfile E ruta = false →
       ∃ ws' consola fin,
         V1.procesar_hoja E ws = Some (ws', consola, fin)
         ∧ r < fin
         ∧ (∀ col_letra ref,
              (col_letra, ref) ∈ [("F", "$N$21"); ("G", "$N$25");
                                  ("I", "$N$49"); ("K", "$N$153");
                                  ("M", "$N$161")] →
              ws' !! (r, column_index_from_string col_letra)
              = Some (VStr ("='" +:+ dir +:+ "["
                                 +:+ basename (os_path E) ruta
                                 +:+ "]Hoja1'!" +:+ ref)))
         ∧ (d ≠ "" → endswith dir (sep (os_path E)) = true)
         ∧ consola !! (r - FILA_INICIO)
           = Some (linea r (codigo_en E ws r) NoEncontradoConFormula)).
Proof.
  split_and!.
  - intros ruta ws r Hr Hf.
    destruct (V0_alcanzada E ruta ws r Hr)
      as (ws' & consola & fin & Hrun & Hlt & _ & Hrow & Hlin).
    exists ws', consola, fin. unfold V0.cuerpo in Hrow, Hlin.
    rewrite Hf in Hrow, Hlin. done.
  - intros ruta pre fila post out consola v Hpre Hd Hv Hc Hf.
    destruct (recorrer_en E ruta pre fila post out consola fila
                [linea (length pre + 1) (V02.codigo_de E v)
                       ArchivoNoEncontrado] Hpre) as (H1 & _ & H2); [|done].
    rewrite (turno_con_codigo _ _ _ _ v) by done.
    unfold V02.fila_con_codigo. by rewrite Hf.
  - intros ws r Hr ruta d dir Hf.
    destruct (V1_alcanzada E ws r Hr)
      as (ws' & consola & fin & Hrun & Hlt & _ & Hrow & Hlin).
    exists ws', consola, fin.
    destruct (V1_cuerpo_formulas E ws r (codigo_en E ws r))
      as (Hest & Hform & _).
    change (V1.ruta_absoluta_archivo_codigo E (codigo_en E ws r))
      with ruta in Hest.
    rewrite Hest, Hf in Hlin.
    split_and!; [done|done| | |done].
    + intros col ref Hin. rewrite Hrow. rewrite (Hform col ref Hin).
      by rewrite formula_enlace_forma.
    + intros Hd. unfold dir.
      destruct (truthy (VStr d)) eqn:Ht.
      * destruct (endswith d (sep (os_path E))) eqn:He; cbn [andb negb];
          [done|apply endswith_app].
      * by apply truthy_VStr in Ht.
Qed.

Lemma C4_witness :
  (∃ ws' consola fin,
     V0.procesar_hoja Ejemplo.entorno Ejemplo.cwd Ejemplo.hoja
     = Some (ws', consola, fin)
     ∧ 7 < fin
     ∧ (∀ c, ws' !! (7, c) = Ejemplo.hoja !! (7, c))
     ∧ consola !! (7 - FILA_INICIO)
       = Some (linea 7 "B200" ArchivoNoEncontrado))
  ∧ (V02.procesar_hoja Ejemplo.entorno Ejemplo.cwd Ejemplo.filas []).1.1 !! 6
    = Ejemplo.filas !! 6
  ∧ (∃ ws' consola fin,
       V1.procesar_hoja Ejemplo.entorno Ejemplo.hoja = Some (ws', consola, fin)
       ∧ 7 < fin
       ∧ ws' !! (7, 6)
         = Some (VStr "='/home/u/C:\presupuestos/[B200.xlsx]Hoja1'!$N$21")).
Proof.
  destruct (C4_archivo_no_encontrado Ejemplo.entorno) as (H0 & H02 & H1).
  split_and!.
  - apply (H0 Ejemplo.cwd Ejemplo.hoja 7).
    + alcanzada_por_calculo.
    + reflexivity.
  - refine (proj2 (H02 Ejemplo.cwd (take 6 Ejemplo.filas)
                       (Ejemplo.fila_de Ejemplo.hoja 13 7)
                       (drop 7 Ejemplo.filas) _ _ (VStr "B200")
                       eq_refl _ eq_refl _ eq_refl)).
    + vm_compute. lia.
    + discriminate.
  - destruct (H1 Ejemplo.hoja 7) as (ws' & consola & fin & Hrun & Hlt & Hf & _).
    + alcanzada_por_calculo.
    + reflexivity.
    + exists ws', consola, fin. split_and!; [done|done|].
      exact (Hf "F" "$N$21" ltac:(left)).
Defined.


(** C5. A data row with a non-empty code whose per-entity file exists but
    whose loading raises: the row gets the read-error line carrying the
    fault, no cell of the row changes, and the loop goes on to the rows
    below (in place: it stops further down, at a row with an empty code cell;
    streaming: the row is appended as it was and the rows after it are
    processed). *)
Theorem C5_error_al_leer (E : Entorno) :
  (∀ ruta ws r e,
     alcanzada ws r →
     isfile E (join (os_path E) ruta (codigo_en E ws r +:+ ".xlsx")) = true →
     load_workbook E (join (os_path E) ruta (codigo_en E ws r +:+ ".xlsx"))
     = Raise e →
     ∃ ws' consola fin,
       V0.procesar_hoja E ruta ws = Some (ws', consola, fin)
       ∧ r < fin
       ∧ truthy (value_at ws fin COL_CODIGO) = false
       ∧ (∀ c, ws' !! (r, c) = ws !! (r, c))
       ∧ consola !! (r - FILA_INICIO)
         = Some (linea r (codigo_en E ws r) (ErrorAlLeer e)))
  ∧ (∀ ruta pre fila post out consola v e,
       V02.recorrer E ruta 0 pre [] [] = (out, consola, Ok tt) →
       V02.FILA_INICIO_DATOS ≤ length pre + 1 →
       fila !! (COL_CODIGO - 1) = Some v →
       V02.codigo_de E v ≠ "" →
       isfile E (join (os_path E) ruta (V02.codigo_de E v +:+ ".xlsx"))
       = true →
       load_workbook E (join (os_path E) ruta (V02.codigo_de E v +:+ ".xlsx"))
       = Raise e →
       V02.procesar_hoja E ruta (pre ++ fila :: post) []
       = V02.recorrer E ruta (S (length pre)) post (out ++ [fila])
           (consola ++ [linea (length pre + 1) (V02.codigo_de E v)
                              (ErrorAlLeer e)])
       ∧ (V02.procesar_hoja E ruta (pre ++ fila :: post) []).1.1
           !! length pre = Some fila).
Proof.
  split.
  - intros ruta ws r e Hr Hf Hl.
    destruct (V0_alcanzada E ruta ws r Hr)
      as (ws' & consola & fin & Hrun & Hlt & Hfin & Hrow & Hlin).
    exists ws', consola, fin. unfold V0.cuerpo in Hrow, Hlin.
    rewrite Hf, Hl in Hrow, Hlin. done.
  - intros ruta pre fila post out consola v e Hpre Hd Hv Hc Hf Hl.
    destruct (recorrer_en E ruta pre fila post out consola fila
                [linea (length pre + 1) (V02.codigo_de E v) (ErrorAlLeer e)]
                Hpre) as (H1 & _ & H2); [|done].
    rewrite (turno_con_codigo _ _ _ _ v) by done.
    unfold V02.fila_con_codigo. by rewrite Hf, Hl.
Qed.

Lemma C5_witness :
  (∃ ws' consola fin,
     V0.procesar_hoja Ejemplo.entorno Ejemplo.cwd Ejemplo.hoja
     = Some (ws', consola, fin)
     ∧ 8 < fin
     ∧ truthy (value_at Ejemplo.hoja fin COL_CODIGO) = false
     ∧ (∀ c, ws' !! (8, c) = Ejemplo.hoja !! (8, c))
     ∧ consola !! (8 - FILA_INICIO)
       = Some (linea 8 "C300"
                 (ErrorAlLeer (OtraExcepcion "File is not a zip file"))))
  ∧ (V02.procesar_hoja Ejemplo.entorno Ejemplo.cwd Ejemplo.filas []).1.1 !! 7
    = Ejemplo.filas !! 7.
Proof.
  destruct (C5_error_al_leer Ejemplo.entorno) as (H0 & H02).
  split.
  - apply (H0 Ejemplo.cwd Ejemplo.hoja 8).
    + alcanzada_por_calculo.
    + reflexivity.
    + reflexivity.
  - refine (proj2 (H02 Ejemplo.cwd (take 7 Ejemplo.filas)
                       (Ejemplo.fila_de Ejemplo.hoja 13 8)
                       (drop 8 Ejemplo.filas) _ _ (VStr "C300") _
                       eq_refl _ eq_refl _ eq_refl eq_refl)).
    + vm_compute. lia.
    + discriminate.
Defined.


(** A destination row shorter than thirteen cells is padded before the
    assignments. *)
Example fila_de_cuatro_celdas :
  V02.fila_con_codigo Ejemplo.entorno Ejemplo.cwd "A100"
    [VNone; VNone; VNone; VStr "A100"]
  = ([VNone; VNone; VNone; VStr "A100"; VNone; VInt 42; VInt 7; VNone;
      VStr "ok"; VNone; VNone; VNone; VInt 1], Copiado).
Proof. reflexivity. Qed.

(** C6. Rows shorter than a referenced column.  The assignment side holds:
    a row of four cells is padded to thirteen before the destination columns
    are assigned.  The read side does not: on a data row of three cells
    [row_data[COL_CODIGO - 1]] raises [IndexError], the turn of the loop
    fails, and [main], run on a master whose sheet EDU has such a row, leaves
    through [sys.exit(1)] without saving anything. *)
Theorem C6_lectura_del_codigo_fuera_de_rango :
  length (V02.fila_con_codigo Ejemplo.entorno Ejemplo.cwd "A100"
            [VNone; VNone; VNone; VStr "A100"]).1 = 13
  ∧ getitem [VStr "a"; VStr "b"; VInt 6] (COL_CODIGO - 1) = Raise IndexError
  ∧ turno Ejemplo.entorno Ejemplo.cwd 5 [VStr "a"; VStr "b"; VInt 6]
    = Raise IndexError
  ∧ V02.main Ejemplo.entorno
      (Ejemplo.maestro true (Ok [("EDU", Ejemplo.filas_cortas)]) (Ok tt))
    = {| exit_code := 1; guardado := None |}.
Proof. split_and!; reflexivity. Qed.


(** ** The link formulas *)





(** ** The exit code *)

Section SalidaEnSitio.
Variable procesar_hoja : Worksheet → option (Worksheet * list Linea * nat).
Variable llamada : Worksheet → option (Exc (Worksheet * list Linea * nat)).
Hypothesis llamada_con_paro : ∀ ws,
  con_paro ws →
  ∃ ws' consola fin,
    procesar_hoja ws = Some (ws', consola, fin)
    ∧ llamada ws = Some (Ok (ws', consola, fin))
    ∧ fin ≤ MAX_ROW.
Hypothesis llamada_llena : ∀ ws,
  (∀ r, FILA_INICIO ≤ r ≤ MAX_ROW →
        truthy (value_at ws r COL_CODIGO) = true) →
  ∃ e, llamada ws = Some (Raise e).

Lemma en_sitio_main_salida (M : Maestro EnSitio.Libro) :
  ∃ s,
    EnSitio.main llamada M = Some s
    ∧ ((∃ e, entrada M = Raise e)
       ∨ (existe M = true
          ∧ ∃ wb n ws,
              cargar M = Ok wb ∧ n ∈ HOJAS_OBJETIVO
              ∧ EnSitio.hoja_de wb n = Some ws
              ∧ ∀ r, FILA_INICIO ≤ r ≤ MAX_ROW →
                     truthy (value_at ws r COL_CODIGO) = true) →
       exit_code s = 1%Z)
    ∧ ((∃ l, entrada M = Ok l) →
       (existe M = true →
        ∀ wb n ws, cargar M = Ok wb → n ∈ HOJAS_OBJETIVO →
                   EnSitio.hoja_de wb n = Some ws → con_paro ws) →
       exit_code s = 0%Z).
Proof.
  unfold EnSitio.main.
  destruct (existe M) eqn:Hex; cbn [negb].
  2:{ eexists. split; [done|]. cbn [exit_code]. split.
      - intros [[e ->]|[? _]]; done.
      - by intros [l ->] _. }
  destruct (cargar M) as [wb|e0] eqn:Hload.
  2:{ eexists. split; [done|]. cbn [exit_code]. split.
      - intros [[e ->]|(_ & wb & n & ws & ? & _)]; done.
      - by intros [l ->] _. }
  destruct (procesar_hojas_total procesar_hoja llamada llamada_con_paro
              llamada_llena HOJAS_OBJETIVO wb) as [r Hr].
  rewrite Hr. cbn [mbind option_bind].
  destruct r as [wb'|e1].
  - assert (∃ s, (match guardar M with
                  | Ok _ => Some {| exit_code := tras_input (entrada M);
                                    guardado := Some wb' |}
                  | Raise _ => Some {| exit_code := tras_input (entrada M);
                                       guardado := None |}
                  end) = Some s
                 ∧ exit_code s = tras_input (entrada M)) as (s & -> & Hs).
    { destruct (guardar M); by eexists. }
    exists s. split; [done|]. rewrite Hs. split.
    + intros [[e ->]|(_ & wb2 & n & ws & Hwb & Hn & Hws & Hllena)]; [done|].
      assert (wb2 = wb) as -> by congruence.
      destruct (procesar_hojas_llena procesar_hoja llamada llamada_con_paro
                  llamada_llena HOJAS_OBJETIVO ltac:(compute_done)
                  wb n ws Hn Hws Hllena) as [e He].
      congruence.
    + by intros [l ->] _.
  - eexists. split; [done|]. cbn [exit_code]. split; [done|].
    intros _ Hparo.
    destruct (procesar_hojas_forma procesar_hoja llamada llamada_con_paro
                HOJAS_OBJETIVO ltac:(compute_done) wb) as (wb' & Hok & _).
    { intros n ws. by apply Hparo. }
    congruence.
Qed.
End SalidaEnSitio.

(** The target sheets are processed without exception when the code cell of
    each of their data rows can be read. *)
Lemma procesar_objetivos_ok E ruta (wb_lectura : V02.Libro) hojas :
  (∀ nombre filas, nombre ∈ hojas →
     EnSitio.hoja_de wb_lectura nombre = Some filas → filas_anchas 0 filas) →
  ∀ wb_salida,
    (V02.procesar_objetivos E ruta hojas wb_lectura wb_salida).2 = Ok tt.
Proof.
  induction hojas as [|nombre hojas IH]; intros Hw wb_salida; [done|].
  simpl.
  destruct (EnSitio.hoja_de wb_lectura nombre) as [filas|] eqn:Hh.
  - assert (filas_anchas 0 filas) as Hf
        by (apply (Hw nombre); [left|done]).
    unfold V02.procesar_hoja.
    destruct (recorrer_una_por_fila E ruta filas 0
                (default [] (EnSitio.hoja_de wb_salida nombre)) [] Hf)
      as (nuevas & consola' & -> & _).
    apply IH. intros n f Hn. apply Hw. by right.
  - apply IH. intros n f Hn. apply Hw. by right.
Qed.

(** C8 as amended.  The two in-place scripts never call [sys.exit]: their
    exit code does not tell a fatal path from success.  On every path on
    which [main] returns (master missing, master unreadable, output not
    saved, or all saved) the code is 0 when the closing [input] call
    returns; it is 1 only when an exception escapes [main], that is when the
    [input] call raises or when a target sheet has column D filled to the
    last row, so that [procesar_hoja] raises.  The streaming script, when the
    master file exists, ends with exit code 1 and saves nothing if the master
    does not load, if processing a target sheet raises, or if the output
    cannot be saved; otherwise the output is saved, and the code is 0 when
    the closing [input] call returns and 1 when it raises.  Processing raises
    nothing when the code cell of every data row of the target sheets can be
    read. *)
Theorem C8_codigo_de_salida (E : Entorno) :
  (∀ M : Maestro EnSitio.Libro,
     ∃ s,
       V0.main E M = Some s
       ∧ ((∃ e, entrada M = Raise e)
          ∨ (existe M = true
             ∧ ∃ wb n ws,
                 cargar M = Ok wb ∧ n ∈ HOJAS_OBJETIVO
                 ∧ EnSitio.hoja_de wb n = Some ws
                 ∧ ∀ r, FILA_INICIO ≤ r ≤ MAX_ROW →
                        truthy (value_at ws r COL_CODIGO) = true) →
          exit_code s = 1%Z)
       ∧ ((∃ l, entrada M = Ok l) →
          (existe M = true →
           ∀ wb n ws, cargar M = Ok wb → n ∈ HOJAS_OBJETIVO →
                      EnSitio.hoja_de wb n = Some ws → con_paro ws) →
          exit_code s = 0%Z))
  ∧ (∀ M : Maestro EnSitio.Libro,
       ∃ s,
         V1.main E M = Some s
         ∧ ((∃ e, entrada M = Raise e)
            ∨ (existe M = true
               ∧ ∃ wb n ws,
                   cargar M = Ok wb ∧ n ∈ HOJAS_OBJETIVO
                   ∧ EnSitio.hoja_de wb n = Some ws
                   ∧ ∀ r, FILA_INICIO ≤ r ≤ MAX_ROW →
                          truthy (value_at ws r COL_CODIGO) = true) →
            exit_code s = 1%Z)
         ∧ ((∃ l, entrada M = Ok l) →
            (existe M = true →
             ∀ wb n ws, cargar M = Ok wb → n ∈ HOJAS_OBJETIVO →
                        EnSitio.hoja_de wb n = Some ws → con_paro ws) →
            exit_code s = 0%Z))
  ∧ (∀ M : Maestro V02.Libro,
       existe M = true →
       ((∃ e, cargar M = Raise e)
        ∨ (∃ wb e, cargar M = Ok wb
                   ∧ (V02.procesar_objetivos E (getcwd E) HOJAS_OBJETIVO
                                             wb []).2 = Raise e)
        ∨ (∃ e, guardar M = Raise e) →
        exit_code (V02.main E M) = 1%Z ∧ guardado (V02.main E M) = None)
       ∧ (∀ wb, cargar M = Ok wb →
            (∀ nombre filas, nombre ∈ HOJAS_OBJETIVO →
               EnSitio.hoja_de wb nombre = Some filas →
               filas_anchas 0 filas) →
            guardar M = Ok tt →
            is_Some (guardado (V02.main E M))
            ∧ ((∃ l, entrada M = Ok l) → exit_code (V02.main E M) = 0%Z)
            ∧ ((∃ e, entrada M = Raise e) →
               exit_code (V02.main E M) = 1%Z))).
Proof.
  split_and!.
  - intros M.
    apply (en_sitio_main_salida (V0.procesar_hoja E (getcwd E))).
    + intros ws. apply V0_llamada_con_paro.
    + intros ws Hllena. eexists. by apply V0_llamada_llena.
  - intros M. apply (en_sitio_main_salida (V1.procesar_hoja E)).
    + intros ws. apply V1_llamada_con_paro.
    + intros ws Hllena. eexists. by apply V1_llamada_llena.
  - intros M Hex. unfold V02.main. rewrite Hex. cbn [negb].
    destruct (cargar M) as [wb|e] eqn:Hc.
    + destruct (V02.procesar_objetivos E (getcwd E) HOJAS_OBJETIVO wb [])
        as [wb_salida [[]|e]] eqn:Hp.
      * destruct (guardar M) as [[]|e] eqn:Hg; cbn [exit_code guardado].
        -- split.
           ++ intros [[e ?]|[(w & e & ? & He)|[e ?]]]; try done.
              simplify_eq. by rewrite Hp in He.
           ++ intros w _ _ _. split_and!; [by eexists|..].
              ** by intros [l ->].
              ** by intros [e ->].
        -- split; [done|]. intros; simplify_eq.
      * cbn [exit_code guardado]. split; [done|].
        intros w [= <-] Hw _.
        pose proof (procesar_objetivos_ok E (getcwd E) wb HOJAS_OBJETIVO
                      Hw []) as Hok.
        by rewrite Hp in Hok.
    + cbn [exit_code guardado]. split; [done|]. intros; simplify_eq.
Qed.

Lemma C8_witness :
  (∃ s, V0.main Ejemplo.entorno
          (Ejemplo.maestro true (Ok [("EDU", Ejemplo.hoja)])
             (Raise (OtraExcepcion "Permission denied")))
        = Some s
        ∧ exit_code s = 0%Z)
  ∧ (∃ s, V0.main Ejemplo.entorno
            (Ejemplo.maestro true (Ok [("EDU", Ejemplo2.hoja_llena)])
               (Ok tt))
          = Some s
          ∧ exit_code s = 1%Z)
  ∧ exit_code (V02.main Ejemplo.entorno
                 (Ejemplo.maestro true (Ok [("EDU", Ejemplo.filas)]) (Ok tt)))
    = 0%Z
  ∧ is_Some (guardado (V02.main Ejemplo.entorno
               (Ejemplo.maestro true (Ok [("EDU", Ejemplo.filas)]) (Ok tt))))
  ∧ exit_code (V02.main Ejemplo.entorno
                 (Ejemplo.maestro_sin_entrada true
                    (Ok [("EDU", Ejemplo.filas)]) (Ok tt)))
    = 1%Z.
Proof.
  destruct (C8_codigo_de_salida Ejemplo.entorno) as (H0 & _ & H).
  assert (∀ nombre filas, nombre ∈ HOJAS_OBJETIVO →
            EnSitio.hoja_de [("EDU", Ejemplo.filas)] nombre = Some filas →
            filas_anchas 0 filas) as Hanchas.
  { intros nombre filas _ Hh.
    cbn [EnSitio.hoja_de] in Hh.
    destruct (String.eqb "EDU" nombre); [|done]. injection Hh as <-.
    apply filas_anchas_Forall. compute_done. }
  split_and!.
  - destruct (H0 (Ejemplo.maestro true (Ok [("EDU", Ejemplo.hoja)])
                    (Raise (OtraExcepcion "Permission denied"))))
      as (s & Hs & _ & Hcero).
    exists s. split; [done|]. apply Hcero; [by eexists|].
    intros _ wb n ws [= <-] _ Hh.
    cbn [EnSitio.hoja_de] in Hh.
    destruct (String.eqb "EDU" n); [|done]. injection Hh as <-.
    exists 9. split; [unfold FILA_INICIO, MAX_ROW; lia|reflexivity].
  - destruct (H0 (Ejemplo.maestro true (Ok [("EDU", Ejemplo2.hoja_llena)])
                    (Ok tt)))
      as (s & Hs & Huno & _).
    exists s. split; [done|]. apply Huno. right. split; [reflexivity|].
    exists [("EDU", Ejemplo2.hoja_llena)], "EDU", Ejemplo2.hoja_llena.
    split_and!; [reflexivity|left|reflexivity|exact hoja_llena_llena].
  - destruct (H (Ejemplo.maestro true (Ok [("EDU", Ejemplo.filas)]) (Ok tt))
                eq_refl) as (_ & Hok).
    destruct (Hok [("EDU", Ejemplo.filas)] eq_refl Hanchas eq_refl)
      as (_ & Hcero & _).
    apply Hcero. by eexists.
  - destruct (H (Ejemplo.maestro true (Ok [("EDU", Ejemplo.filas)]) (Ok tt))
                eq_refl) as (_ & Hok).
    by destruct (Hok [("EDU", Ejemplo.filas)] eq_refl Hanchas eq_refl)
      as (Hg & _ & _).
  - destruct (H (Ejemplo.maestro_sin_entrada true
                   (Ok [("EDU", Ejemplo.filas)]) (Ok tt)) eq_refl)
      as (_ & Hok).
    destruct (Hok [("EDU", Ejemplo.filas)] eq_refl Hanchas eq_refl)
      as (_ & _ & Huno).
    apply Huno. by eexists.
Defined.

(** C8 as stated fails in the in-place scripts: with the master file missing,
    and with an output that cannot be saved, they end with exit code 0. *)
Lemma C8_contraejemplo :
  V0.main Ejemplo.entorno
    (Ejemplo.maestro false (Raise (OtraExcepcion "No such file")) (Ok tt))
  = Some {| exit_code := 0; guardado := None |}
  ∧ V1.main Ejemplo.entorno
      (Ejemplo.maestro true (Ok [("EDU", Ejemplo.hoja)])
         (Raise (OtraExcepcion "Permission denied")))
    = Some {| exit_code := 0; guardado := None |}.
Proof. split; reflexivity. Qed.


Lemma valores_falsos_truthy (v : Value) : v ∈ valores_falsos → truthy v = false.
Proof.
  unfold valores_falsos. rewrite !elem_of_cons, elem_of_nil.
  intros H. destruct_or!; by subst.
Qed.

(** A row whose code cell tests false has no console line, and the loop
    does not get past it. *)
Lemma mientras_fila_falsa E cuerpo fuel ws ws' consola fin r :
  (∀ ws fila codigo r c,
     r ≠ fila ∨ c = COL_CODIGO →
     (cuerpo ws fila codigo).1 !! (r, c) = ws !! (r, c)) →
  EnSitio.mientras E cuerpo fuel ws FILA_INICIO = Some (ws', consola, fin) →
  truthy (value_at ws r COL_CODIGO) = false →
  (r ∉ map l_fila consola) ∧ (FILA_INICIO ≤ r → fin ≤ r).
Proof.
  intros Hcuerpo Hrun Hv.
  pose proof (mientras_paro E cuerpo Hcuerpo _ _ _ _ _ _ Hrun)
    as (Hle & Hfin & Htr & _ & _ & Hlog).
  assert (¬ (FILA_INICIO ≤ r < fin)) as Hno.
  { intros Hr. rewrite Htr in Hv by done. done. }
  split; [|lia].
  rewrite Hlog. intros Hin%list_elem_of_In%in_seq. lia.
Qed.

(** C9. In the in-place scripts the emptiness test of the code cell is
    Python's truth test of the raw value.  A code cell that holds [None], 0,
    0.0 (of either sign), [False] or the empty string tests false; on a sheet
    with such a cell in row [r] both loops do what they do when the cell is
    absent (same console, same stopping row, same sheet but for that cell),
    they stop at row [r] at the latest, and they print no line for row [r]:
    its value never becomes a file name. *)
Theorem C9_codigo_falso (E : Entorno) (v : Value) :
  v ∈ valores_falsos →
  truthy v = false
  ∧ (∀ ruta ws r fuel,
       V0.procesar_hoja_fuel E ruta fuel (<[(r, COL_CODIGO) := v]> ws)
       = con_celda r v
           <$> V0.procesar_hoja_fuel E ruta fuel (delete (r, COL_CODIGO) ws))
  ∧ (∀ ws r fuel,
       V1.procesar_hoja_fuel E fuel (<[(r, COL_CODIGO) := v]> ws)
       = con_celda r v
           <$> V1.procesar_hoja_fuel E fuel (delete (r, COL_CODIGO) ws))
  ∧ (∀ ruta ws r,
       ∃ ws' consola fin,
         V0.procesar_hoja E ruta (<[(r, COL_CODIGO) := v]> ws)
         = Some (ws', consola, fin)
         ∧ (r ∉ map l_fila consola)
         ∧ (FILA_INICIO ≤ r → fin ≤ r))
  ∧ (∀ ws r,
       ∃ ws' consola fin,
         V1.procesar_hoja E (<[(r, COL_CODIGO) := v]> ws)
         = Some (ws', consola, fin)
         ∧ (r ∉ map l_fila consola)
         ∧ (FILA_INICIO ≤ r → fin ≤ r)).
Proof.
  intros Hv%valores_falsos_truthy.
  assert (∀ (ws : Worksheet) r,
            truthy (value_at (delete (r, COL_CODIGO) ws) r COL_CODIGO) = false)
    as Hdel.
  { intros ws r. unfold value_at. by rewrite lookup_delete_eq. }
  assert (∀ (ws : Worksheet) r,
            truthy (value_at (<[(r, COL_CODIGO) := v]> ws) r COL_CODIGO) = false)
    as Hins.
  { intros ws r. unfold value_at. by rewrite lookup_insert_eq. }
  split_and!; [done|..].
  - intros ruta ws r fuel. unfold V0.procesar_hoja_fuel.
    rewrite <- (insert_delete_eq ws).
    apply mientras_celda_falsa; [|by apply V0_cuerpo_insert|done|done].
    intros. by apply V0_cuerpo_fuera.
  - intros ws r fuel. unfold V1.procesar_hoja_fuel.
    rewrite <- (insert_delete_eq ws).
    apply mientras_celda_falsa; [|by apply V1_cuerpo_insert|done|done].
    intros. by apply V1_cuerpo_fuera.
  - intros ruta ws r.
    destruct (V0_procesar_hoja_total E ruta (<[(r, COL_CODIGO) := v]> ws))
      as [[[ws' consola] fin] Hrun].
    exists ws', consola, fin. split; [done|].
    eapply mientras_fila_falsa; [|exact Hrun|done].
    intros. by apply V0_cuerpo_fuera.
  - intros ws r.
    destruct (V1_procesar_hoja_total E (<[(r, COL_CODIGO) := v]> ws))
      as [[[ws' consola] fin] Hrun].
    exists ws', consola, fin. split; [done|].
    eapply mientras_fila_falsa; [|exact Hrun|done].
    intros. by apply V1_cuerpo_fuera.
Qed.

Lemma C9_witness :
  truthy (VInt 0) = false
  ∧ V0.procesar_hoja_fuel Ejemplo.entorno Ejemplo.cwd 5
      (<[(8, COL_CODIGO) := VInt 0]> Ejemplo.hoja)
    = con_celda 8 (VInt 0)
        <$> V0.procesar_hoja_fuel Ejemplo.entorno Ejemplo.cwd 5
              (delete (8, COL_CODIGO) Ejemplo.hoja)
  ∧ ∃ ws' consola fin,
      V1.procesar_hoja Ejemplo.entorno
        (<[(8, COL_CODIGO) := VInt 0]> Ejemplo.hoja)
      = Some (ws', consola, fin)
      ∧ (8 ∉ map l_fila consola)
      ∧ (FILA_INICIO ≤ 8 → fin ≤ 8).
Proof.
  destruct (C9_codigo_falso Ejemplo.entorno (VInt 0))
    as (Ht & H0 & _ & _ & H1).
  - unfold valores_falsos. apply elem_of_cons; right. apply elem_of_cons; left. reflexivity.
  - split_and!; [exact Ht|apply H0|apply H1].
Defined.


Lemma solo_espacios_truthy (s : string) : s ≠ "" → truthy (VStr s) = true.
Proof. by destruct s. Qed.

(** C10. A code cell that holds white space only.  The in-place scripts test
    the raw value, which is a non-empty string, and strip it afterwards: the
    row is processed with the empty code, so the file [.xlsx] is looked up
    (under the working directory for the value copy, under the fixed root for
    the link formulas) and decides the row's status, and the loop goes on
    below the row.  The streaming script strips before it tests: the code is
    empty, the row is appended as it is, nothing is printed and the loop goes
    on with the next row. *)
Theorem C10_codigo_en_blanco (E : Entorno) (s : string) :
  s ≠ "" → solo_espacios s = true →
  truthy (VStr s) = true
  ∧ strip s = ""
  ∧ V02.codigo_de E (VStr s) = ""
  ∧ (∀ ruta ws r,
       alcanzada ws r →
       value_at ws r COL_CODIGO = VStr s →
       ∃ ws' consola fin,
         V0.procesar_hoja E ruta ws = Some (ws', consola, fin)
         ∧ r < fin
         ∧ (∀ c, ws' !! (r, c) = (V0.cuerpo E ruta ws r "").1 !! (r, c))
         ∧ consola !! (r - FILA_INICIO)
           = Some (linea r ""
                (if isfile E (join (os_path E) ruta ".xlsx") then
                   match load_workbook E (join (os_path E) ruta ".xlsx") with
                   | Ok _ => Copiado
                   | Raise e => ErrorAlLeer e
                   end
                 else ArchivoNoEncontrado)))
  ∧ (∀ ws r,
       alcanzada ws r →
       value_at ws r COL_CODIGO = VStr s →
       ∃ ws' consola fin,
         V1.procesar_hoja E ws = Some (ws', consola, fin)
         ∧ r < fin
         ∧ (∀ col_letra ref, (col_letra, ref) ∈ V1.COLUMNAS_DESTINO →
              ws' !! (r, column_index_from_string col_letra)
              = Some (VStr (V1.formula_enlace E "" ref)))
         ∧ consola !! (r - FILA_INICIO)
           = Some (linea r ""
                (if isfile E (abspath (os_path E)
                                (join (os_path E) V1.RUTA_ARCHIVOS_ORIGEN
                                      ".xlsx"))
                 then FormulaAnadida else NoEncontradoConFormula)))
  ∧ (∀ ruta pre fila post out consola,
       V02.recorrer E ruta 0 pre [] [] = (out, consola, Ok tt) →
       fila !! (COL_CODIGO - 1) = Some (VStr s) →
       V02.procesar_hoja E ruta (pre ++ fila :: post) []
       = V02.recorrer E ruta (S (length pre)) post (out ++ [fila]) consola
       ∧ (V02.procesar_hoja E ruta (pre ++ fila :: post) []).1.1
           !! length pre = Some fila).
Proof.
  intros Hne Hs.
  pose proof (solo_espacios_truthy s Hne) as Ht.
  pose proof (strip_solo_espacios s Hs) as Hstrip.
  assert (V02.codigo_de E (VStr s) = "") as Hcod.
  { unfold V02.codigo_de. by rewrite Ht. }
  split_and!; [done|done|done|..].
  - intros ruta ws r Hr Hv.
    destruct (V0_alcanzada E ruta ws r Hr)
      as (ws' & consola & fin & Hrun & Hlt & _ & Hrow & Hlin).
    assert (codigo_en E ws r = "") as Hc.
    { unfold codigo_en. by rewrite Hv. }
    rewrite Hc in Hrow, Hlin.
    exists ws', consola, fin. split_and!; [done|done|done|].
    rewrite Hlin. f_equal. f_equal. unfold V0.cuerpo.
    change ("" +:+ ".xlsx") with ".xlsx".
    destruct (isfile _ _); [|done]. by destruct (load_workbook _ _).
  - intros ws r Hr Hv.
    destruct (V1_alcanzada E ws r Hr)
      as (ws' & consola & fin & Hrun & Hlt & _ & Hrow & Hlin).
    assert (codigo_en E ws r = "") as Hc.
    { unfold codigo_en. by rewrite Hv. }
    rewrite Hc in Hrow, Hlin.
    destruct (V1_cuerpo_formulas E ws r "") as (Hest & Hform & _).
    exists ws', consola, fin. split_and!; [done|done| |].
    + intros col ref Hin. rewrite Hrow. by apply Hform.
    + by rewrite Hlin, Hest.
  - intros ruta pre fila post out consola Hpre Hv.
    destruct (recorrer_en E ruta pre fila post out consola fila [] Hpre)
      as (H1 & _ & H2).
    { by apply (turno_sin_codigo _ _ _ _ (VStr s)). }
    rewrite app_nil_r in H1. done.
Qed.

Lemma C10_witness :
  strip "  " = ""
  ∧ (∃ ws' consola fin,
       V0.procesar_hoja Ejemplo.entorno Ejemplo.cwd Ejemplo.hoja_blanco
       = Some (ws', consola, fin)
       ∧ 6 < fin
       ∧ consola !! 0 = Some (linea 6 "" ArchivoNoEncontrado))
  ∧ (∃ ws' consola fin,
       V1.procesar_hoja Ejemplo.entorno Ejemplo.hoja_blanco
       = Some (ws', consola, fin)
       ∧ 6 < fin
       ∧ ws' !! (6, 6)
         = Some (VStr "='/home/u/C:\presupuestos/[.xlsx]Hoja1'!$N$21"))
  ∧ (V02.procesar_hoja Ejemplo.entorno Ejemplo.cwd Ejemplo.filas_blanco []).1.1
      !! 5 = Ejemplo.filas_blanco !! 5.
Proof.
  destruct (C10_codigo_en_blanco Ejemplo.entorno "  ")
    as (_ & Hs & _ & H0 & H1 & H02); [discriminate|reflexivity|].
  split_and!; [exact Hs|..].
  - destruct (H0 Ejemplo.cwd Ejemplo.hoja_blanco 6)
      as (ws' & consola & fin & Hrun & Hlt & _ & Hlin).
    + alcanzada_por_calculo.
    + reflexivity.
    + exists ws', consola, fin. split_and!; [done|done|exact Hlin].
  - destruct (H1 Ejemplo.hoja_blanco 6)
      as (ws' & consola & fin & Hrun & Hlt & Hf & _).
    + alcanzada_por_calculo.
    + reflexivity.
    + exists ws', consola, fin. split_and!; [done|done|].
      apply (Hf "F" "$N$21"). apply elem_of_cons; left. reflexivity.
  - refine (proj2 (H02 Ejemplo.cwd (take 5 Ejemplo.filas_blanco)
                       (Ejemplo.fila_de Ejemplo.hoja_blanco 13 6)
                       (drop 6 Ejemplo.filas_blanco) _ _ eq_refl eq_refl)).
Defined.


(** * Further properties of the three scripts *)


(** X1. In-place value copy, row whose per-entity workbook loads: the row is
    reported as copied; each destination column holds the value read from
    its source cell when that value is not [None], and what it held before
    when it is; no other cell of the row changes. *)
Theorem X1_copia_en_sitio E ruta ws r wb :
  alcanzada ws r →
  isfile E (join (os_path E) ruta (codigo_en E ws r +:+ ".xlsx")) = true →
  load_workbook E (join (os_path E) ruta (codigo_en E ws r +:+ ".xlsx"))
  = Ok wb →
  ∃ ws' consola fin,
    V0.procesar_hoja E ruta ws = Some (ws', consola, fin)
    ∧ r < fin
    ∧ consola !! (r - FILA_INICIO) = Some (linea r (codigo_en E ws r) Copiado)
    ∧ (∀ col_letra celda, (col_letra, celda) ∈ V0.COLUMNAS_DESTINO →
         value_at ws' r (column_index_from_string col_letra)
         = match V0.cargar_valor wb celda with
           | VNone => value_at ws r (column_index_from_string col_letra)
           | v => v
           end)
    ∧ (∀ c, c ∉ columnas_destino → ws' !! (r, c) = ws !! (r, c)).
Proof. apply V0_copiado_en_hoja. Qed.

Lemma X1_witness :
  ∃ ws' consola fin,
    V0.procesar_hoja Ejemplo.entorno Ejemplo.cwd Ejemplo.hoja
    = Some (ws', consola, fin)
    ∧ value_at ws' 6 (column_index_from_string "G") = VInt 7
    ∧ value_at ws' 6 (column_index_from_string "K") = VInt 5
    ∧ ws' !! (6, 4) = Some (VStr " A100 ").
Proof.
  destruct (X1_copia_en_sitio Ejemplo.entorno Ejemplo.cwd Ejemplo.hoja 6
              Ejemplo.libro_A100)
    as (ws' & consola & fin & Hrun & _ & _ & Hval & Hotras).
  - alcanzada_por_calculo.
  - reflexivity.
  - reflexivity.
  - exists ws', consola, fin. split; [exact Hrun|]. split; [|split].
    + apply (Hval "G" "N25"). apply elem_of_cons; right.
      apply elem_of_cons; left. reflexivity.
    + apply (Hval "K" "N153"). do 3 (apply elem_of_cons; right).
      apply elem_of_cons; left. reflexivity.
    + rewrite Hotras; [reflexivity|]. unfold columnas_destino.
      rewrite !elem_of_cons, elem_of_nil. lia.
Defined.


(** X2. Streaming value copy, data row whose per-entity workbook loads: the
    row appended for it is the source row padded with empty cells to thirteen
    cells, with each of the five destination cells replaced by the value read
    from its source cell, [None] included; the row is reported as copied and
    the loop goes on with the next row. *)
Theorem X2_copia_en_flujo E ruta pre fila post out consola v wb :
  V02.recorrer E ruta 0 pre [] [] = (out, consola, Ok tt) →
  V02.FILA_INICIO_DATOS ≤ length pre + 1 →
  fila !! (COL_CODIGO - 1) = Some v →
  V02.codigo_de E v ≠ "" →
  isfile E (join (os_path E) ruta (V02.codigo_de E v +:+ ".xlsx")) = true →
  load_workbook E (join (os_path E) ruta (V02.codigo_de E v +:+ ".xlsx"))
  = Ok wb →
  ∃ fila',
    (V02.procesar_hoja E ruta (pre ++ fila :: post) []).1.1 !! length pre
    = Some fila'
    ∧ V02.procesar_hoja E ruta (pre ++ fila :: post) []
      = V02.recorrer E ruta (S (length pre)) post (out ++ [fila'])
          (consola ++ [linea (length pre + 1) (V02.codigo_de E v) Copiado])
    ∧ length fila' = length fila `max` 13
    ∧ (∀ col ref, (col, ref) ∈ V02.COL_INDICES_DESTINO →
         fila' !! (col - 1) = Some (V02.cargar_valor_desde_origen wb ref))
    ∧ (∀ i, S i ∉ columnas_destino → fila' !! i = celda_o_vacia fila 13 i).
Proof. apply V02_copiado_en_hoja. Qed.

Lemma X2_witness :
  ∃ fila',
    (V02.procesar_hoja Ejemplo.entorno Ejemplo.cwd
       (take 5 Ejemplo.filas ++ [VNone; VNone; VNone; VStr "A100"] :: []) []).1.1
      !! 5 = Some fila'
    ∧ length fila' = 13
    ∧ fila' !! 10 = Some VNone
    ∧ fila' !! 12 = Some (VInt 1).
Proof.
  destruct (X2_copia_en_flujo Ejemplo.entorno Ejemplo.cwd
              (take 5 Ejemplo.filas) [VNone; VNone; VNone; VStr "A100"] []
              (take 5 Ejemplo.filas) [] (VStr "A100") Ejemplo.libro_A100)
    as (fila' & Hrow & _ & Hlen & Hdest & _).
  - reflexivity.
  - vm_compute. lia.
  - reflexivity.
  - vm_compute. discriminate.
  - reflexivity.
  - reflexivity.
  - exists fila'. split; [exact Hrow|]. split; [exact Hlen|]. split.
    + apply (Hdest 11 "N153"). vm_compute.
      do 3 (apply elem_of_cons; right). apply elem_of_cons; left. reflexivity.
    + apply (Hdest 13 "N161"). vm_compute.
      do 4 (apply elem_of_cons; right). apply elem_of_cons; left. reflexivity.
Defined.

(** X3. Streaming, sheet in which every data row has a cell in the code
    column: the loop ends without exception and has appended exactly one row
    for each source row, in order; the row appended for a source row is what
    one turn of the loop makes of that row at its position. *)
Theorem X3_una_fila_por_fila E ruta filas :
  filas_anchas 0 filas →
  ∃ salida consola,
    V02.procesar_hoja E ruta filas [] = (salida, consola, Ok tt)
    ∧ length salida = length filas
    ∧ ∀ i fila, filas !! i = Some fila →
        ∃ lineas, turno E ruta i fila = Ok (salida !!! i, lineas).
Proof. apply V02_una_por_fila. Qed.

Lemma X3_witness :
  ∃ salida consola,
    V02.procesar_hoja Ejemplo.entorno Ejemplo.cwd Ejemplo.filas []
    = (salida, consola, Ok tt)
    ∧ length salida = 10.
Proof.
  destruct (X3_una_fila_por_fila Ejemplo.entorno Ejemplo.cwd Ejemplo.filas)
    as (salida & consola & Hrun & Hlen & _).
  - apply filas_anchas_Forall. vm_compute.
    repeat (apply Forall_cons; split; [lia|]). apply Forall_nil_2.
  - exists salida, consola. split; [exact Hrun|exact Hlen].
Defined.

(** X4. Streaming, data row with fewer than four cells: reading its code
    cell raises [IndexError]; the sheet is left with the rows appended so
    far, one for each row above, and neither that row nor any row below it
    is appended. *)
Theorem X4_fila_corta E ruta pre fila post out consola :
  V02.recorrer E ruta 0 pre [] [] = (out, consola, Ok tt) →
  V02.FILA_INICIO_DATOS ≤ length pre + 1 →
  length fila < COL_CODIGO →
  V02.procesar_hoja E ruta (pre ++ fila :: post) []
  = (out, consola, Raise IndexError)
  ∧ length out = length pre.
Proof. apply V02_fila_corta. Qed.

Lemma X4_witness :
  V02.procesar_hoja Ejemplo.entorno Ejemplo.cwd
    (take 7 Ejemplo.filas ++ [VStr "x"] :: drop 8 Ejemplo.filas) []
  = ((V02.procesar_hoja Ejemplo.entorno Ejemplo.cwd
        (take 7 Ejemplo.filas) []).1.1,
     (V02.procesar_hoja Ejemplo.entorno Ejemplo.cwd
        (take 7 Ejemplo.filas) []).1.2,
     Raise IndexError).
Proof.
  refine (proj1 (X4_fila_corta Ejemplo.entorno Ejemplo.cwd
                   (take 7 Ejemplo.filas) [VStr "x"] (drop 8 Ejemplo.filas)
                   _ _ eq_refl _ _)).
  - vm_compute. lia.
  - vm_compute. lia.
Defined.


Lemma recorrer_encabezados E ruta filas : ∀ r_idx out consola,
  ∃ mas,
    (V02.recorrer E ruta r_idx filas out consola).1.1 = out ++ mas
    ∧ take (V02.FILA_INICIO_DATOS - 1 - r_idx) mas
      = take (V02.FILA_INICIO_DATOS - 1 - r_idx) filas
    ∧ (length filas < V02.FILA_INICIO_DATOS - r_idx →
       V02.recorrer E ruta r_idx filas out consola
       = (out ++ filas, consola, Ok tt)).
Proof.
  induction filas as [|row filas IH]; intros r_idx out consola.
  - exists []. simpl. rewrite app_nil_r. by rewrite !take_nil.
  - rewrite recorrer_cons.
    destruct (decide (r_idx + 1 < V02.FILA_INICIO_DATOS)) as [Hh|Hd].
    + rewrite turno_encabezado by done.
      destruct (IH (S r_idx) (out ++ [row]) (consola ++ []))
        as (mas & Hm & Ht & Hs).
      exists (row :: mas). rewrite Hm, <- app_assoc. split; [done|].
      remember (V02.FILA_INICIO_DATOS - 1 - S r_idx) as n eqn:Hn.
      replace (V02.FILA_INICIO_DATOS - 1 - r_idx) with (S n) by lia.
      cbn [take]. rewrite Ht. split; [done|].
      intros Hl. rewrite Hs by (simpl in Hl; lia).
      by rewrite <- app_assoc, app_nil_r.
    + replace (V02.FILA_INICIO_DATOS - 1 - r_idx) with 0 by lia.
      destruct (recorrer_prefijo E ruta (row :: filas) r_idx out consola)
        as (mas & Hm & _).
      rewrite recorrer_cons in Hm. exists mas.
      split; [done|]. split; [done|]. simpl. lia.
Qed.

(** X5. Streaming, header rows: whatever the sheet and the files, the first
    five rows appended to the output are the first five source rows as they
    are (fewer if the sheet has fewer), also when a later row makes the loop
    fail; a sheet of at most five rows is copied whole, without a console
    line and without exception, even if its rows have fewer than four
    cells. *)
Theorem X5_encabezados E ruta filas :
  take 5 (V02.procesar_hoja E ruta filas []).1.1 = take 5 filas
  ∧ (length filas ≤ 5 →
     V02.procesar_hoja E ruta filas [] = (filas, [], Ok tt)).
Proof.
  unfold V02.procesar_hoja.
  destruct (recorrer_encabezados E ruta filas 0 [] []) as (mas & Hm & Ht & Hs).
  split.
  - rewrite Hm. exact Ht.
  - intros Hl. apply Hs. unfold V02.FILA_INICIO_DATOS. lia.
Qed.

Lemma X5_witness :
  V02.procesar_hoja Ejemplo.entorno Ejemplo.cwd (take 5 Ejemplo.filas_cortas) []
  = (take 5 Ejemplo.filas_cortas, [], Ok tt).
Proof.
  apply (proj2 (X5_encabezados Ejemplo.entorno Ejemplo.cwd
                  (take 5 Ejemplo.filas_cortas))).
  vm_compute. lia.
Defined.


(** ** What the in-place loops do to any sheet *)

Section EnSitioGeneral.
Variable E : Entorno.
Variable cuerpo : Worksheet → nat → string → Worksheet * Estado.
Hypothesis cuerpo_fuera : ∀ ws fila codigo r c,
  r ≠ fila ∨ c = COL_CODIGO →
  (cuerpo ws fila codigo).1 !! (r, c) = ws !! (r, c).
Hypothesis cuerpo_local : ∀ ws1 ws2 fila codigo,
  (∀ c, ws1 !! (fila, c) = ws2 !! (fila, c)) →
  (∀ c, (cuerpo ws1 fila codigo).1 !! (fila, c)
        = (cuerpo ws2 fila codigo).1 !! (fila, c))
  ∧ (cuerpo ws1 fila codigo).2 = (cuerpo ws2 fila codigo).2.
Hypothesis cuerpo_otras : ∀ ws fila codigo c,
  c ∉ columnas_destino →
  (cuerpo ws fila codigo).1 !! (fila, c) = ws !! (fila, c).

Lemma mientras_marco (ws : Worksheet) :
  ∃ ws' consola fin,
    EnSitio.mientras E cuerpo (EnSitio.combustible ws) ws FILA_INICIO
    = Some (ws', consola, fin)
    ∧ ∀ r c, r < FILA_INICIO ∨ fin ≤ r ∨ c ∉ columnas_destino →
             value_at ws' r c = value_at ws r c.
Proof.
  destruct (mientras_combustible E cuerpo cuerpo_fuera ws)
    as [[[ws' consola] fin] Hrun].
  exists ws', consola, fin. split; [done|].
  pose proof (mientras_paro E cuerpo cuerpo_fuera _ _ _ _ _ _ Hrun)
    as (Hle & _ & _ & Hout & Hcod & _).
  intros r c Hrc. unfold value_at at 1.
  destruct (decide (r < FILA_INICIO ∨ fin < r)) as [Hr|Hr].
  { rewrite Hout; [done|]. destruct Hr; auto. }
  destruct (decide (r = fin)) as [->|Hne].
  { destruct (decide (c = COL_CODIGO)) as [->|Hc]; [by rewrite Hcod|].
    by rewrite Hout by auto. }
  destruct Hrc as [?|[?|Hc]]; [lia|lia|].
  destruct (mientras_fila E cuerpo cuerpo_fuera cuerpo_local
              _ _ _ _ _ _ r Hrun ltac:(lia)) as [Hrow _].
  by rewrite Hrow, cuerpo_otras.
Qed.

Lemma mientras_fin (ws : Worksheet) :
  ∃ ws' consola fin,
    EnSitio.mientras E cuerpo (EnSitio.combustible ws) ws FILA_INICIO
    = Some (ws', consola, fin)
    ∧ FILA_INICIO ≤ fin
    ∧ truthy (value_at ws fin COL_CODIGO) = false
    ∧ (∀ r, FILA_INICIO ≤ r < fin →
            truthy (value_at ws r COL_CODIGO) = true)
    ∧ map l_fila consola = seq FILA_INICIO (fin - FILA_INICIO)
    ∧ map l_codigo consola
      = map (codigo_en E ws) (seq FILA_INICIO (fin - FILA_INICIO))
    ∧ ∀ fuel, EnSitio.combustible ws ≤ fuel →
        EnSitio.mientras E cuerpo fuel ws FILA_INICIO
        = Some (ws', consola, fin).
Proof.
  destruct (mientras_combustible E cuerpo cuerpo_fuera ws)
    as [[[ws' consola] fin] Hrun].
  exists ws', consola, fin. split; [done|].
  pose proof (mientras_paro E cuerpo cuerpo_fuera _ _ _ _ _ _ Hrun)
    as (Hle & Hfin & Htr & _ & _ & Hlog).
  split_and!; [done..| |].
  - apply list_eq. intros i. rewrite !list_lookup_fmap.
    destruct (decide (i < fin - FILA_INICIO)) as [Hi|Hi].
    + destruct (mientras_fila E cuerpo cuerpo_fuera cuerpo_local
                  _ _ _ _ _ _ (FILA_INICIO + i) Hrun ltac:(lia)) as [_ Hl].
      replace (FILA_INICIO + i - FILA_INICIO) with i in Hl by lia.
      rewrite Hl, lookup_seq_lt by done. done.
    + rewrite lookup_seq_ge by lia.
      rewrite (proj2 (lookup_ge_None consola i)); [done|].
      rewrite <- (length_map l_fila), Hlog, length_seq. lia.
  - intros fuel Hf.
    by apply (mientras_mas_combustible E cuerpo (EnSitio.combustible ws)).
Qed.

(** The same for the call with the row check, on a sheet with a false code
    cell within its rows. *)
Lemma bucle_marco (ws : Worksheet) :
  con_paro ws →
  ∃ ws' consola fin,
    EnSitio.bucle E cuerpo (EnSitio.combustible ws) ws FILA_INICIO
    = Some (Ok (ws', consola, fin))
    ∧ fin ≤ MAX_ROW
    ∧ ∀ r c, r < FILA_INICIO ∨ fin ≤ r ∨ c ∉ columnas_destino →
             value_at ws' r c = value_at ws r c.
Proof.
  intros Hparo.
  destruct (bucle_con_paro E cuerpo cuerpo_fuera ws Hparo)
    as (ws' & consola & fin & Hrun & Hllam & Hfin).
  destruct (mientras_marco ws) as (ws2 & consola2 & fin2 & Hrun2 & Hmarco).
  rewrite Hrun in Hrun2. injection Hrun2 as <- <- <-.
  by exists ws', consola, fin.
Qed.

Lemma bucle_fin (ws : Worksheet) :
  con_paro ws →
  ∃ ws' consola fin,
    EnSitio.bucle E cuerpo (EnSitio.combustible ws) ws FILA_INICIO
    = Some (Ok (ws', consola, fin))
    ∧ EnSitio.mientras E cuerpo (EnSitio.combustible ws) ws FILA_INICIO
      = Some (ws', consola, fin)
    ∧ FILA_INICIO ≤ fin ≤ MAX_ROW
    ∧ truthy (value_at ws fin COL_CODIGO) = false
    ∧ (∀ r, FILA_INICIO ≤ r < fin →
            truthy (value_at ws r COL_CODIGO) = true)
    ∧ map l_fila consola = seq FILA_INICIO (fin - FILA_INICIO)
    ∧ map l_codigo consola
      = map (codigo_en E ws) (seq FILA_INICIO (fin - FILA_INICIO))
    ∧ ∀ fuel, EnSitio.combustible ws ≤ fuel →
        EnSitio.bucle E cuerpo fuel ws FILA_INICIO
        = Some (Ok (ws', consola, fin)).
Proof.
  intros Hparo.
  destruct (bucle_con_paro E cuerpo cuerpo_fuera ws Hparo)
    as (ws' & consola & fin & Hrun & Hllam & Hfin).
  destruct (mientras_fin ws)
    as (ws2 & consola2 & fin2 & Hrun2 & Hle & Hfalso & Htr & Hfilas
        & Hcod & Hmas).
  rewrite Hrun in Hrun2. injection Hrun2 as <- <- <-.
  exists ws', consola, fin. split_and!; [done..|].
  intros fuel Hfuel.
  apply (bucle_mientras E cuerpo fuel ws FILA_INICIO (ws', consola, fin));
    [unfold FILA_INICIO; lia|by apply Hmas|done].
Qed.
End EnSitioGeneral.

Lemma V0_cuerpo_otras E ruta ws fila codigo c :
  c ∉ columnas_destino →
  (V0.cuerpo E ruta ws fila codigo).1 !! (fila, c) = ws !! (fila, c).
Proof.
  intros Hc. unfold V0.cuerpo.
  destruct (isfile _ _); [|done]. destruct (load_workbook _ _); [|done].
  simpl. rewrite copiar_escribir. apply escribir_fuera. by right.
Qed.

Lemma V1_cuerpo_otras E ws fila codigo c :
  c ∉ columnas_destino →
  (V1.cuerpo E ws fila codigo).1 !! (fila, c) = ws !! (fila, c).
Proof.
  intros Hc. unfold V1.cuerpo. simpl. rewrite enlazar_escribir.
  apply escribir_fuera. by right.
Qed.

(** X6. The in-place scripts, on a sheet whose column D has a cell that
    tests false between row 6 and the last row a sheet can have (1048576):
    the call of [procesar_hoja] returns, and the only cells whose value can
    differ afterwards are those of the destination columns F, G, I, K, M in
    the rows from row 6 down to the row above the one where the loop
    stopped.  Header rows, the code column, every other column, and every
    row from the stopping row on read as before. *)
Theorem X6_solo_columnas_destino E :
  (∀ ruta ws,
     con_paro ws →
     ∃ ws' consola fin,
       V0.procesar_hoja_o_error E ruta ws = Some (Ok (ws', consola, fin))
       ∧ fin ≤ MAX_ROW
       ∧ ∀ r c, r < FILA_INICIO ∨ fin ≤ r ∨ c ∉ columnas_destino →
                value_at ws' r c = value_at ws r c)
  ∧ (∀ ws,
       con_paro ws →
       ∃ ws' consola fin,
         V1.procesar_hoja_o_error E ws = Some (Ok (ws', consola, fin))
         ∧ fin ≤ MAX_ROW
         ∧ ∀ r c, r < FILA_INICIO ∨ fin ≤ r ∨ c ∉ columnas_destino →
                  value_at ws' r c = value_at ws r c).
Proof.
  split.
  - intros ruta ws. apply bucle_marco.
    + intros. by apply V0_cuerpo_fuera.
    + intros. by apply V0_cuerpo_local.
    + intros. by apply V0_cuerpo_otras.
  - intros ws. apply bucle_marco.
    + intros. by apply V1_cuerpo_fuera.
    + intros. by apply V1_cuerpo_local.
    + intros. by apply V1_cuerpo_otras.
Qed.

Lemma X6_witness :
  (∃ ws' consola fin,
     V0.procesar_hoja_o_error Ejemplo.entorno Ejemplo.cwd Ejemplo.hoja
     = Some (Ok (ws', consola, fin))
     ∧ fin ≤ MAX_ROW
     ∧ ∀ r c, r < FILA_INICIO ∨ fin ≤ r ∨ c ∉ columnas_destino →
              value_at ws' r c = value_at Ejemplo.hoja r c)
  ∧ (∃ ws' consola fin,
       V1.procesar_hoja_o_error Ejemplo.entorno Ejemplo.hoja
       = Some (Ok (ws', consola, fin))
       ∧ fin ≤ MAX_ROW
       ∧ ∀ r c, r < FILA_INICIO ∨ fin ≤ r ∨ c ∉ columnas_destino →
                value_at ws' r c = value_at Ejemplo.hoja r c).
Proof.
  assert (con_paro Ejemplo.hoja) as Hparo.
  { exists 9. split; [unfold FILA_INICIO, MAX_ROW; lia|reflexivity]. }
  destruct (X6_solo_columnas_destino Ejemplo.entorno) as [H0 H1].
  split; [exact (H0 Ejemplo.cwd Ejemplo.hoja Hparo)
         |exact (H1 Ejemplo.hoja Hparo)].
Defined.

(** X7. How the [while True] loop of the in-place scripts ends.  On a sheet
    whose column D has a cell that tests false between row 6 and the last
    row a sheet can have (1048576), the call returns: the loop stops at the
    first such row, it has printed exactly one line for each row from row 6
    to the row above the stopping row, in order, each with the stripped text
    of the row's code cell; the loop on the rows of the sheet gives the same
    sheet, console and stopping row, and so does running the call for more
    turns than the bound used here.  On a sheet whose column D tests true
    from row 6 to row 1048576, the loop asks [ws.cell] for row 1048577 and
    the call is left by the [ValueError] raised there. *)
Theorem X7_el_bucle_termina E :
  (∀ ruta ws,
     (con_paro ws →
      ∃ ws' consola fin,
        V0.procesar_hoja_o_error E ruta ws = Some (Ok (ws', consola, fin))
        ∧ V0.procesar_hoja E ruta ws = Some (ws', consola, fin)
        ∧ FILA_INICIO ≤ fin ≤ MAX_ROW
        ∧ truthy (value_at ws fin COL_CODIGO) = false
        ∧ (∀ r, FILA_INICIO ≤ r < fin →
                truthy (value_at ws r COL_CODIGO) = true)
        ∧ map l_fila consola = seq FILA_INICIO (fin - FILA_INICIO)
        ∧ map l_codigo consola
          = map (codigo_en E ws) (seq FILA_INICIO (fin - FILA_INICIO))
        ∧ ∀ fuel, EnSitio.combustible ws ≤ fuel →
            EnSitio.bucle E (V0.cuerpo E ruta) fuel ws FILA_INICIO
            = Some (Ok (ws', consola, fin)))
     ∧ ((∀ r, FILA_INICIO ≤ r ≤ MAX_ROW →
              truthy (value_at ws r COL_CODIGO) = true) →
        V0.procesar_hoja_o_error E ruta ws
        = Some (Raise (error_de_fila (S MAX_ROW)))))
  ∧ (∀ ws,
       (con_paro ws →
        ∃ ws' consola fin,
          V1.procesar_hoja_o_error E ws = Some (Ok (ws', consola, fin))
          ∧ V1.procesar_hoja E ws = Some (ws', consola, fin)
          ∧ FILA_INICIO ≤ fin ≤ MAX_ROW
          ∧ truthy (value_at ws fin COL_CODIGO) = false
          ∧ (∀ r, FILA_INICIO ≤ r < fin →
                  truthy (value_at ws r COL_CODIGO) = true)
          ∧ map l_fila consola = seq FILA_INICIO (fin - FILA_INICIO)
          ∧ map l_codigo consola
            = map (codigo_en E ws) (seq FILA_INICIO (fin - FILA_INICIO))
          ∧ ∀ fuel, EnSitio.combustible ws ≤ fuel →
              EnSitio.bucle E (V1.cuerpo E) fuel ws FILA_INICIO
              = Some (Ok (ws', consola, fin)))
       ∧ ((∀ r, FILA_INICIO ≤ r ≤ MAX_ROW →
                truthy (value_at ws r COL_CODIGO) = true) →
          V1.procesar_hoja_o_error E ws
          = Some (Raise (error_de_fila (S MAX_ROW))))).
Proof.
  split.
  - intros ruta ws. split.
    + apply bucle_fin.
      * intros. by apply V0_cuerpo_fuera.
      * intros. by apply V0_cuerpo_local.
    + apply V0_llamada_llena.
  - intros ws. split.
    + apply bucle_fin.
      * intros. by apply V1_cuerpo_fuera.
      * intros. by apply V1_cuerpo_local.
    + apply V1_llamada_llena.
Qed.

Lemma X7_witness :
  (∃ ws' consola,
     V0.procesar_hoja_o_error Ejemplo.entorno Ejemplo.cwd Ejemplo.hoja
     = Some (Ok (ws', consola, 9))
     ∧ V0.procesar_hoja Ejemplo.entorno Ejemplo.cwd Ejemplo.hoja
       = Some (ws', consola, 9)
     ∧ map l_fila consola = [6; 7; 8]
     ∧ map l_codigo consola = ["A100"; "B200"; "C300"])
  ∧ V1.procesar_hoja_o_error Ejemplo.entorno Ejemplo2.hoja_llena
    = Some (Raise (error_de_fila (S MAX_ROW))).
Proof.
  destruct (X7_el_bucle_termina Ejemplo.entorno) as [H0 H1].
  split; [|exact (proj2 (H1 Ejemplo2.hoja_llena) hoja_llena_llena)].
  destruct (proj1 (H0 Ejemplo.cwd Ejemplo.hoja))
    as (ws' & consola & fin & Hllam & Hrun & Hfin & Hfalso & Htr & Hfilas
        & Hcod & _).
  { exists 9. split; [unfold FILA_INICIO, MAX_ROW; lia|reflexivity]. }
  assert (fin = 9) as ->.
  { destruct (decide (fin = 9)) as [|Hne]; [done|].
    destruct (decide (fin < 9)) as [Hlt|Hge].
    - assert (fin = 6 ∨ fin = 7 ∨ fin = 8) as [-> |[-> | ->]]
        by (unfold FILA_INICIO in Hfin; lia); by vm_compute in Hfalso.
    - specialize (Htr 9 ltac:(unfold FILA_INICIO; lia)).
      by vm_compute in Htr. }
  exists ws', consola. split_and!; [done|done|exact Hfilas|exact Hcod].
Defined.


(** ** The link script and the file system *)

Lemma mientras_misma_hoja E1 E2 cuerpo1 cuerpo2 :
  repr_float E1 = repr_float E2 →
  (∀ ws fila codigo, (cuerpo1 ws fila codigo).1 = (cuerpo2 ws fila codigo).1) →
  ∀ fuel ws fila,
    match EnSitio.mientras E1 cuerpo1 fuel ws fila,
          EnSitio.mientras E2 cuerpo2 fuel ws fila with
    | Some (w1, l1, f1), Some (w2, l2, f2) =>
        w1 = w2 ∧ f1 = f2 ∧ filas_y_codigos l1 = filas_y_codigos l2
    | None, None => True
    | _, _ => False
    end.
Proof.
  intros Hrepr Hcuerpo. induction fuel as [|fuel IH]; intros ws fila; [done|].
  simpl. destruct (cell ws fila COL_CODIGO) as [ws1 v].
  destruct (truthy v); simpl; [|done].
  rewrite Hrepr.
  specialize (Hcuerpo ws1 fila (strip (str (repr_float E2) v))).
  destruct (cuerpo1 ws1 fila _) as [wa ea], (cuerpo2 ws1 fila _) as [wb eb].
  simpl in Hcuerpo. subst wb.
  specialize (IH wa (S fila)).
  destruct (EnSitio.mientras E1 cuerpo1 fuel wa (S fila)) as [[[w1 l1] f1]|],
           (EnSitio.mientras E2 cuerpo2 fuel wa (S fila)) as [[[w2 l2] f2]|];
    simpl; try done.
  destruct IH as (-> & -> & Hl). split_and!; [done|done|].
  unfold filas_y_codigos in *. simpl. by rewrite Hl.
Qed.

Lemma V1_cuerpo_misma_hoja E1 E2 ws fila codigo :
  os_path E1 = os_path E2 →
  (V1.cuerpo E1 ws fila codigo).1 = (V1.cuerpo E2 ws fila codigo).1.
Proof.
  intros Hos. unfold V1.cuerpo, V1.enlazar, V1.formula_enlace,
    V1.path_para_formula, V1.nombre_archivo_base,
    V1.ruta_absoluta_archivo_codigo.
  simpl. by rewrite Hos.
Qed.

(** X8. The link script never reads a per-entity file: with the same path
    functions and the same printing of floats, the sheet it produces, the row
    where it stops and the rows and codes of its console are the same
    whatever files exist and whatever loading them gives.  The status of a
    line is the only thing that tells whether the file exists. *)
Theorem X8_enlaces_sin_archivos E1 E2 ws :
  os_path E1 = os_path E2 →
  repr_float E1 = repr_float E2 →
  ∃ ws' consola1 consola2 fin,
    V1.procesar_hoja E1 ws = Some (ws', consola1, fin)
    ∧ V1.procesar_hoja E2 ws = Some (ws', consola2, fin)
    ∧ filas_y_codigos consola1 = filas_y_codigos consola2
    ∧ (∀ l, l ∈ consola1 →
         l_estado l
         = if isfile E1 (V1.ruta_absoluta_archivo_codigo E1 (l_codigo l))
           then FormulaAnadida else NoEncontradoConFormula).
Proof.
  intros Hos Hrepr.
  pose proof (mientras_misma_hoja E1 E2 (V1.cuerpo E1) (V1.cuerpo E2) Hrepr
                (λ ws fila codigo, V1_cuerpo_misma_hoja E1 E2 ws fila codigo Hos)
                (EnSitio.combustible ws) ws FILA_INICIO) as Hsame.
  destruct (V1_procesar_hoja_total E1 ws) as [[[w1 l1] f1] H1].
  unfold V1.procesar_hoja, V1.procesar_hoja_fuel in *.
  rewrite H1 in Hsame.
  destruct (EnSitio.mientras E2 _ _ _ _) as [[[w2 l2] f2]|]; [|done].
  destruct Hsame as (<- & <- & Hl).
  exists w1, l1, l2, f1. split_and!; [done..|].
  intros l Hin. apply list_elem_of_lookup in Hin as [i Hi].
  pose proof (mientras_paro E1 (V1.cuerpo E1)
                (λ ws fila codigo r c, V1_cuerpo_fuera E1 ws fila codigo r c)
                _ _ _ _ _ _ H1) as (Hle & _ & _ & _ & _ & Hlog).
  assert (i < f1 - FILA_INICIO) as Hlt.
  { apply lookup_lt_Some in Hi.
    rewrite <- (length_map l_fila), Hlog, length_seq in Hi. done. }
  destruct (mientras_fila E1 (V1.cuerpo E1)
              (λ ws fila codigo r c, V1_cuerpo_fuera E1 ws fila codigo r c)
              (λ ws1 ws2 fila codigo, V1_cuerpo_local E1 ws1 ws2 fila codigo)
              _ _ _ _ _ _ (FILA_INICIO + i) H1 ltac:(lia)) as [_ Hline].
  replace (FILA_INICIO + i - FILA_INICIO) with i in Hline by lia.
  rewrite Hi in Hline. injection Hline as ->. done.
Qed.

Lemma X8_witness :
  ∃ ws' consola1 consola2 fin,
    V1.procesar_hoja Ejemplo.entorno Ejemplo.hoja = Some (ws', consola1, fin)
    ∧ V1.procesar_hoja Ejemplo2.entorno_lleno Ejemplo.hoja
      = Some (ws', consola2, fin)
    ∧ filas_y_codigos consola1 = filas_y_codigos consola2.
Proof.
  destruct (X8_enlaces_sin_archivos Ejemplo.entorno Ejemplo2.entorno_lleno
              Ejemplo.hoja eq_refl eq_refl)
    as (ws' & consola1 & consola2 & fin & H1 & H2 & Hl & _).
  exists ws', consola1, consola2, fin. split; [exact H1|]. split; [exact H2|].
  exact Hl.
Defined.


Lemma destino_V0 (c : nat) :
  c ∈ columnas_destino →
  ∃ col_letra celda,
    (col_letra, celda) ∈ V0.COLUMNAS_DESTINO
    ∧ column_index_from_string col_letra = c.
Proof.
  unfold columnas_destino. rewrite !elem_of_cons, elem_of_nil.
  intros [->|[->|[->|[->|[->|[]]]]]].
  - exists "F", "N21". split; [|done]. apply elem_of_cons; by left.
  - exists "G", "N25". split; [|done]. do 1 (apply elem_of_cons; right).
    apply elem_of_cons; by left.
  - exists "I", "N49". split; [|done]. do 2 (apply elem_of_cons; right).
    apply elem_of_cons; by left.
  - exists "K", "N153". split; [|done]. do 3 (apply elem_of_cons; right).
    apply elem_of_cons; by left.
  - exists "M", "N161". split; [|done]. do 4 (apply elem_of_cons; right).
    apply elem_of_cons; by left.
Qed.

Lemma destino_V02 (c : nat) :
  c ∈ columnas_destino → ∃ ref, (c, ref) ∈ V02.COL_INDICES_DESTINO.
Proof.
  unfold columnas_destino. rewrite !elem_of_cons, elem_of_nil.
  intros [->|[->|[->|[->|[->|[]]]]]].
  - exists "N21". apply elem_of_cons; by left.
  - exists "N25". do 1 (apply elem_of_cons; right). apply elem_of_cons; by left.
  - exists "N49". do 2 (apply elem_of_cons; right). apply elem_of_cons; by left.
  - exists "N153". do 3 (apply elem_of_cons; right). apply elem_of_cons; by left.
  - exists "N161". do 4 (apply elem_of_cons; right). apply elem_of_cons; by left.
Qed.

(** X9. A per-entity workbook that loads but has no active sheet: the safe
    read gives [None] for every cell and no fault reaches the row.  The row
    is reported as copied in both value-copy scripts; in place no cell of the
    row changes, while the streaming script pads the row to thirteen cells
    and empties its five destination cells. *)
Theorem X9_libro_sin_hoja_activa E ruta wb :
  active wb = None →
  (∀ celda, V0.cargar_valor wb celda = VNone
            ∧ V02.cargar_valor_desde_origen wb celda = VNone)
  ∧ (∀ ws r,
       alcanzada ws r →
       isfile E (join (os_path E) ruta (codigo_en E ws r +:+ ".xlsx")) = true →
       load_workbook E (join (os_path E) ruta (codigo_en E ws r +:+ ".xlsx"))
       = Ok wb →
       ∃ ws' consola fin,
         V0.procesar_hoja E ruta ws = Some (ws', consola, fin)
         ∧ consola !! (r - FILA_INICIO)
           = Some (linea r (codigo_en E ws r) Copiado)
         ∧ ∀ c, value_at ws' r c = value_at ws r c)
  ∧ (∀ pre fila post out consola v,
       V02.recorrer E ruta 0 pre [] [] = (out, consola, Ok tt) →
       V02.FILA_INICIO_DATOS ≤ length pre + 1 →
       fila !! (COL_CODIGO - 1) = Some v →
       V02.codigo_de E v ≠ "" →
       isfile E (join (os_path E) ruta (V02.codigo_de E v +:+ ".xlsx"))
       = true →
       load_workbook E (join (os_path E) ruta (V02.codigo_de E v +:+ ".xlsx"))
       = Ok wb →
       ∃ fila',
         V02.procesar_hoja E ruta (pre ++ fila :: post) []
         = V02.recorrer E ruta (S (length pre)) post (out ++ [fila'])
             (consola ++ [linea (length pre + 1) (V02.codigo_de E v) Copiado])
         ∧ length fila' = length fila `max` 13
         ∧ (∀ i, S i ∈ columnas_destino → fila' !! i = Some VNone)
         ∧ (∀ i, S i ∉ columnas_destino →
                 fila' !! i = celda_o_vacia fila 13 i)).
Proof.
  intros Hact.
  assert (∀ celda, V0.cargar_valor wb celda = VNone
                   ∧ V02.cargar_valor_desde_origen wb celda = VNone) as Hnone.
  { intros celda.
    unfold V0.cargar_valor, V02.cargar_valor_desde_origen, active_value.
    by rewrite Hact. }
  split_and!; [done|..].
  - intros ws r Hr Hf Hl.
    destruct (V0_copiado_en_hoja E ruta ws r wb Hr Hf Hl)
      as (ws' & consola & fin & Hrun & _ & Hlin & Hval & Hotras).
    exists ws', consola, fin. split_and!; [done|done|].
    intros c. destruct (decide (c ∈ columnas_destino)) as [Hc|Hc].
    + destruct (destino_V0 c Hc) as (col & celda & Hin & <-).
      rewrite (Hval col celda Hin). by rewrite (proj1 (Hnone celda)).
    + unfold value_at. by rewrite Hotras.
  - intros pre fila post out consola v Hpre Hd Hv Hc Hf Hl.
    destruct (V02_copiado_en_hoja E ruta pre fila post out consola v wb
                Hpre Hd Hv Hc Hf Hl)
      as (fila' & _ & Hrun & Hlen & Hdest & Hotras).
    exists fila'. split_and!; [done|done| |done].
    intros i Hi. destruct (destino_V02 (S i) Hi) as (ref & Hin).
    specialize (Hdest (S i) ref Hin). simpl in Hdest.
    rewrite Nat.sub_0_r in Hdest.
    by rewrite Hdest, (proj2 (Hnone ref)).
Qed.

Lemma X9_witness :
  (∃ ws' consola fin,
     V0.procesar_hoja Ejemplo2.entorno_sin_hoja Ejemplo.cwd Ejemplo.hoja
     = Some (ws', consola, fin)
     ∧ consola !! 0 = Some (linea 6 "A100" Copiado)
     ∧ ∀ c, value_at ws' 6 c = value_at Ejemplo.hoja 6 c)
  ∧ V0.cargar_valor Ejemplo2.libro_sin_hoja "N21" = VNone.
Proof.
  destruct (X9_libro_sin_hoja_activa Ejemplo2.entorno_sin_hoja Ejemplo.cwd
              Ejemplo2.libro_sin_hoja eq_refl) as (Hn & H0 & _).
  split; [|exact (proj1 (Hn "N21"))].
  apply (H0 Ejemplo.hoja 6).
  - alcanzada_por_calculo.
  - reflexivity.
  - reflexivity.
Defined.


(** ** The two value-copy scripts on the same row *)

Lemma lookup_fila_de (ws : Worksheet) r n i :
  map (value_at ws r) (seq 1 n) !! i
  = if decide (i < n) then Some (value_at ws r (S i)) else None.
Proof.
  change (map (value_at ws r) (seq 1 n)) with (value_at ws r <$> seq 1 n).
  rewrite list_lookup_fmap. case_decide.
  - by rewrite lookup_seq_lt.
  - by rewrite lookup_seq_ge by lia.
Qed.

Lemma celda_o_vacia_fila_de (ws : Worksheet) (r n m c : nat) :
  1 ≤ c →
  (∀ c, n < c → value_at ws r c = VNone) →
  default VNone (celda_o_vacia (map (value_at ws r) (seq 1 n)) m (c - 1))
  = value_at ws r c.
Proof.
  intros Hc Hancho. unfold celda_o_vacia.
  change (map (value_at ws r) (seq 1 n)) with (value_at ws r <$> seq 1 n).
  rewrite length_fmap, length_seq.
  change (value_at ws r <$> seq 1 n) with (map (value_at ws r) (seq 1 n)).
  case_decide.
  - rewrite lookup_fila_de, decide_True by done. simpl. f_equal. lia.
  - rewrite Hancho by lia. by case_decide.
Qed.

Lemma destinos_iguales col_letra celda :
  (col_letra, celda) ∈ V0.COLUMNAS_DESTINO →
  (column_index_from_string col_letra, celda) ∈ V02.COL_INDICES_DESTINO.
Proof.
  intros Hin. unfold V02.COL_INDICES_DESTINO.
  apply list_elem_of_fmap. by exists (col_letra, celda).
Qed.

Lemma Ejemplo_hoja_ancho r c : 13 < c → value_at Ejemplo.hoja r c = VNone.
Proof.
  intros Hc. unfold value_at.
  destruct (Ejemplo.hoja !! (r, c)) as [v|] eqn:Hl; [|done].
  unfold Ejemplo.hoja in Hl. apply elem_of_list_to_map_2 in Hl.
  rewrite !elem_of_cons, elem_of_nil in Hl.
  destruct_or!; simplify_eq; lia.
Qed.

(** X10. The in-place and the streaming value copy on the same data row.
    Take a row the in-place loop reaches, whose stripped code is not empty,
    and the same row as the read-only reader yields it for a sheet [n]
    columns wide ([n] at least 4).  Both scripts print the same status for
    it, and the in-place sheet holds in every column of the row what the
    streamed row holds there, except in a destination column where the
    streamed row holds [None]: there the in-place sheet keeps its old
    value. *)
Theorem X10_los_dos_modos (E : Entorno) (ruta : string) (ws : Worksheet)
  (r n : nat) :
  alcanzada ws r →
  COL_CODIGO ≤ n →
  (∀ c, n < c → value_at ws r c = VNone) →
  codigo_en E ws r ≠ "" →
  let fila := map (value_at ws r) (seq 1 n) in
  let res := V02.fila_con_codigo E ruta (codigo_en E ws r) fila in
  turno E ruta (r - 1) fila = Ok (res.1, [linea r (codigo_en E ws r) res.2])
  ∧ ∃ ws' consola fin,
      V0.procesar_hoja E ruta ws = Some (ws', consola, fin)
      ∧ consola !! (r - FILA_INICIO) = Some (linea r (codigo_en E ws r) res.2)
      ∧ ∀ c, 1 ≤ c →
          c ∉ columnas_destino ∨ default VNone (res.1 !! (c - 1)) ≠ VNone →
          value_at ws' r c = default VNone (res.1 !! (c - 1)).
Proof.
  intros Hr Hn Hancho Hcod fila res.
  assert (Hr' := Hr). destruct Hr' as [Hr6 Hall].
  assert (truthy (value_at ws r COL_CODIGO) = true) as Ht by (apply Hall; lia).
  assert (V02.codigo_de E (value_at ws r COL_CODIGO) = codigo_en E ws r) as Hcd.
  { unfold V02.codigo_de, codigo_en. by rewrite Ht. }
  assert (∀ c, 1 ≤ c →
            default VNone (fila !! (c - 1)) = value_at ws r c) as Hfila.
  { intros c Hc. unfold fila. rewrite lookup_fila_de. case_decide.
    - simpl. f_equal. lia.
    - simpl. symmetry. apply Hancho. lia. }
  split.
  { rewrite (turno_con_codigo E ruta (r - 1) fila (value_at ws r COL_CODIGO)).
    - rewrite Hcd. by replace (r - 1 + 1) with r by (unfold FILA_INICIO in *; lia).
    - unfold V02.FILA_INICIO_DATOS, FILA_INICIO in *. lia.
    - unfold fila. rewrite lookup_fila_de.
      rewrite decide_True by (unfold COL_CODIGO in *; lia). done.
    - by rewrite Hcd. }
  destruct (V0_alcanzada E ruta ws r Hr)
    as (ws' & consola & fin & Hrun & _ & _ & Hrow & Hlin).
  exists ws', consola, fin. split; [done|].
  unfold res, V02.fila_con_codigo. unfold V0.cuerpo in Hrow, Hlin.
  destruct (isfile E _) eqn:Hf.
  - destruct (load_workbook E _) as [wb|e] eqn:Hl.
    + destruct (fila_con_codigo_copiado E ruta _ wb fila Hf Hl)
        as (fila' & Hfc & Hlen & Hdest & Hotras).
      unfold V02.fila_con_codigo in Hfc. rewrite Hf, Hl in Hfc.
      rewrite Hfc. simpl. split; [done|].
      destruct (V0_cuerpo_copiado E ruta ws r _ wb Hf Hl) as (_ & Hval & Hfuera).
      unfold V0.cuerpo in Hval, Hfuera. rewrite Hf, Hl in Hval, Hfuera.
      simpl in Hval, Hfuera, Hrow.
      intros c Hc Hcase.
      destruct (decide (c ∈ columnas_destino)) as [Hin|Hout].
      * destruct Hcase as [?|Hv]; [done|].
        destruct (destino_V0 c Hin) as (col & celda & Hcol & <-).
        specialize (Hdest _ _ (destinos_iguales col celda Hcol)).
        rewrite Hdest in Hv |- *. simpl in Hv |- *.
        unfold value_at at 1. rewrite Hrow.
        specialize (Hval col celda Hcol). unfold value_at at 1 in Hval.
        rewrite Hval.
        change (V02.cargar_valor_desde_origen wb celda)
          with (V0.cargar_valor wb celda) in Hv |- *.
        by destruct (V0.cargar_valor wb celda).
      * unfold value_at at 1. rewrite Hrow, Hfuera by done.
        rewrite Hotras by (by replace (S (c - 1)) with c by lia).
        fold (value_at ws r c). unfold fila.
        by rewrite celda_o_vacia_fila_de.
    + simpl. split; [done|]. intros c Hc _. unfold value_at at 1.
      rewrite Hrow. fold (value_at ws r c). by rewrite Hfila.
  - simpl. split; [done|]. intros c Hc _. unfold value_at at 1.
    rewrite Hrow. fold (value_at ws r c). by rewrite Hfila.
Qed.

Lemma X10_witness :
  ∃ ws' consola fin,
    V0.procesar_hoja Ejemplo.entorno Ejemplo.cwd Ejemplo.hoja
    = Some (ws', consola, fin)
    ∧ consola !! 0 = Some (linea 6 "A100" Copiado)
    ∧ value_at ws' 6 13 = VInt 1.
Proof.
  destruct (X10_los_dos_modos Ejemplo.entorno Ejemplo.cwd Ejemplo.hoja 6 13)
    as (_ & ws' & consola & fin & Hrun & Hlin & Hval).
  - alcanzada_por_calculo.
  - vm_compute. lia.
  - intros c Hc. apply Ejemplo_hoja_ancho. exact Hc.
  - vm_compute. discriminate.
  - exists ws', consola, fin. split; [exact Hrun|]. split; [exact Hlin|].
    apply (Hval 13); [lia|]. right. vm_compute. discriminate.
Defined.


(** ** Running the in-place scripts again on their own result *)

Lemma cell_presente (ws : Worksheet) (r c : nat) :
  is_Some (ws !! (r, c)) → (cell ws r c).1 = ws.
Proof. intros [v Hv]. unfold cell. by rewrite Hv. Qed.

Lemma escribir_estable (fila : nat) (cols : list (nat * Value))
  (ws ws' : Worksheet) :
  NoDup cols.*1 →
  (∀ c, ws' !! (fila, c) = escribir fila cols ws !! (fila, c)) →
  escribir fila cols ws' = ws'.
Proof.
  intros Hnd Hrow. apply map_eq. intros [r c].
  destruct (decide (r ≠ fila ∨ c ∉ cols.*1)) as [Hout|Hin].
  { by apply escribir_fuera. }
  assert (r = fila) as -> by (destruct (decide (r = fila)); tauto).
  assert (c ∈ cols.*1) as Hc by (destruct (decide (c ∈ cols.*1)); tauto).
  apply list_elem_of_fmap in Hc as [[c' v] [-> Hcv]]. cbn [fst].
  rewrite (escribir_en fila cols ws' c' v Hnd Hcv).
  pose proof (Hrow c') as Hc'.
  rewrite (escribir_en fila cols ws c' v Hnd Hcv) in Hc'.
  destruct v; try done.
  unfold value_at at 1. by rewrite Hc'.
Qed.

Section EnSitioEstable.
Variable E : Entorno.
Variable cuerpo : Worksheet → nat → string → Worksheet * Estado.
Hypothesis cuerpo_fuera : ∀ ws fila codigo r c,
  r ≠ fila ∨ c = COL_CODIGO →
  (cuerpo ws fila codigo).1 !! (r, c) = ws !! (r, c).
Hypothesis cuerpo_estable : ∀ ws ws' fila codigo,
  (∀ c, ws' !! (fila, c) = (cuerpo ws fila codigo).1 !! (fila, c)) →
  cuerpo ws' fila codigo = (ws', (cuerpo ws fila codigo).2).

Lemma mientras_estable fuel : ∀ ws fila ws' consola fin,
  EnSitio.mientras E cuerpo fuel ws fila = Some (ws', consola, fin) →
  EnSitio.mientras E cuerpo fuel ws' fila = Some (ws', consola, fin).
Proof.
  induction fuel as [|fuel IH]; intros ws fila ws' consola fin Hrun;
    [done|].
  rewrite mientras_S in Hrun |- *.
  destruct (truthy (value_at ws fila COL_CODIGO)) eqn:Hcod.
  - cbv zeta in Hrun.
    set (res := cuerpo (cell ws fila COL_CODIGO).1 fila (codigo_en E ws fila))
      in Hrun.
    destruct (EnSitio.mientras E cuerpo fuel res.1 (S fila))
      as [[[w l] f]|] eqn:Hsub; [|done].
    simpl in Hrun. injection Hrun as -> <- ->.
    pose proof (mientras_paro E cuerpo cuerpo_fuera _ _ _ _ _ _ Hsub)
      as (_ & _ & _ & Hout & _ & _).
    assert (∀ c, ws' !! (fila, c) = res.1 !! (fila, c)) as Hrow.
    { intros c. apply Hout. lia. }
    assert (ws' !! (fila, COL_CODIGO)
            = Some (value_at ws fila COL_CODIGO)) as Hcel.
    { rewrite Hrow. unfold res. rewrite cuerpo_fuera by auto.
      rewrite cell_lookup. by rewrite decide_True. }
    assert (value_at ws' fila COL_CODIGO = value_at ws fila COL_CODIGO)
      as Hval by (unfold value_at at 1; by rewrite Hcel).
    assert (codigo_en E ws' fila = codigo_en E ws fila) as Hcodigo
      by (unfold codigo_en; by rewrite Hval).
    rewrite Hval, Hcod. cbv zeta. rewrite Hcodigo.
    rewrite cell_presente by (rewrite Hcel; eauto).
    rewrite (cuerpo_estable (cell ws fila COL_CODIGO).1 ws') by done.
    cbn [fst snd]. rewrite (IH _ _ _ _ _ Hsub). done.
  - injection Hrun as <- <- <-.
    rewrite value_at_cell, Hcod.
    rewrite cell_presente; [done|].
    rewrite cell_lookup, decide_True by done. eauto.
Qed.

Lemma mientras_otra_vez (ws : Worksheet) :
  ∃ ws' consola fin,
    EnSitio.mientras E cuerpo (EnSitio.combustible ws) ws FILA_INICIO
    = Some (ws', consola, fin)
    ∧ EnSitio.mientras E cuerpo (EnSitio.combustible ws') ws' FILA_INICIO
      = Some (ws', consola, fin).
Proof.
  destruct (mientras_combustible E cuerpo cuerpo_fuera ws)
    as [[[ws' consola] fin] Hrun].
  exists ws', consola, fin. split; [done|].
  apply mientras_estable in Hrun.
  destruct (mientras_combustible E cuerpo cuerpo_fuera ws') as [res Hres].
  destruct (Nat.le_ge_cases (EnSitio.combustible ws)
                            (EnSitio.combustible ws')) as [Hle|Hle].
  - by apply (mientras_mas_combustible E cuerpo (EnSitio.combustible ws)).
  - rewrite Hres.
    pose proof (mientras_mas_combustible E cuerpo _ _ _ _ _ Hres Hle)
      as Hmas.
    congruence.
Qed.
End EnSitioEstable.

Lemma V0_cuerpo_estable (E : Entorno) (ruta : string) (ws ws' : Worksheet)
  (fila : nat) (codigo : string) :
  (∀ c, ws' !! (fila, c) = (V0.cuerpo E ruta ws fila codigo).1 !! (fila, c)) →
  V0.cuerpo E ruta ws' fila codigo
  = (ws', (V0.cuerpo E ruta ws fila codigo).2).
Proof.
  unfold V0.cuerpo.
  destruct (isfile _ _); [|done]. destruct (load_workbook _ _); [|done].
  cbn [fst snd]. rewrite !copiar_escribir. intros Hrow.
  rewrite (escribir_estable _ _ ws); [done| |done].
  rewrite valores_v0_columnas. apply NoDup_columnas_destino.
Qed.

Lemma V1_cuerpo_estable (E : Entorno) (ws ws' : Worksheet) (fila : nat)
  (codigo : string) :
  (∀ c, ws' !! (fila, c) = (V1.cuerpo E ws fila codigo).1 !! (fila, c)) →
  V1.cuerpo E ws' fila codigo = (ws', (V1.cuerpo E ws fila codigo).2).
Proof.
  unfold V1.cuerpo. cbn [fst snd]. rewrite !enlazar_escribir. intros Hrow.
  rewrite (escribir_estable _ _ ws); [done| |done].
  rewrite formulas_v1_columnas. apply NoDup_columnas_destino.
Qed.

(** X11. The in-place scripts are idempotent on a sheet: run again on the
    sheet they produced, with the same files, they stop at the same row,
    print the same lines and leave every cell as it is. *)
Theorem X11_otra_vez_en_sitio E :
  (∀ ruta ws,
     ∃ ws' consola fin,
       V0.procesar_hoja E ruta ws = Some (ws', consola, fin)
       ∧ V0.procesar_hoja E ruta ws' = Some (ws', consola, fin))
  ∧ (∀ ws,
       ∃ ws' consola fin,
         V1.procesar_hoja E ws = Some (ws', consola, fin)
         ∧ V1.procesar_hoja E ws' = Some (ws', consola, fin)).
Proof.
  split.
  - intros ruta ws. apply mientras_otra_vez.
    + intros. by apply V0_cuerpo_fuera.
    + intros. by apply V0_cuerpo_estable.
  - intros ws. apply mientras_otra_vez.
    + intros. by apply V1_cuerpo_fuera.
    + intros. by apply V1_cuerpo_estable.
Qed.


(** ** What the streaming loop does to any sheet *)

Lemma celda_o_vacia_llena (crv : V02.Fila) (ancho i : nat) :
  ancho ≤ length crv → celda_o_vacia crv ancho i = crv !! i.
Proof.
  intros Hle. unfold celda_o_vacia. repeat case_decide; try lia; try done.
  symmetry. apply lookup_ge_None. lia.
Qed.

Lemma destinos_V02 : V02.COL_INDICES_DESTINO.*1 = columnas_destino.
Proof. reflexivity. Qed.

(** The row a turn appends for a row with a code: the row itself, or the row
    padded to thirteen cells with its destination cells replaced. *)
Lemma fila_con_codigo_marco (E : Entorno) (ruta codigo : string)
  (crv : V02.Fila) :
  let crv' := (V02.fila_con_codigo E ruta codigo crv).1 in
  (crv' = crv ∨ length crv' = length crv `max` 13)
  ∧ (∀ i, S i ∉ columnas_destino →
          crv' !! i = celda_o_vacia crv (length crv') i).
Proof.
  cbv zeta.
  destruct (isfile E (join (os_path E) ruta (codigo +:+ ".xlsx"))) eqn:Hf;
    [destruct (load_workbook E (join (os_path E) ruta (codigo +:+ ".xlsx")))
       as [wb|e] eqn:Hl|].
  - destruct (fila_con_codigo_copiado E ruta codigo wb crv Hf Hl)
      as (crv' & -> & Hlen & _ & Hotras).
    cbn [fst]. split; [by right|]. intros i Hi.
    rewrite Hotras by done. rewrite Hlen.
    unfold celda_o_vacia. repeat case_decide; try lia; done.
  - unfold V02.fila_con_codigo. rewrite Hf, Hl. cbn [fst].
    split; [by left|]. intros i _. by rewrite celda_o_vacia_llena.
  - unfold V02.fila_con_codigo. rewrite Hf. cbn [fst].
    split; [by left|]. intros i _. by rewrite celda_o_vacia_llena.
Qed.

Lemma fila_con_codigo_estable (E : Entorno) (ruta codigo : string)
  (crv : V02.Fila) :
  V02.fila_con_codigo E ruta codigo (V02.fila_con_codigo E ruta codigo crv).1
  = V02.fila_con_codigo E ruta codigo crv.
Proof.
  destruct (isfile E (join (os_path E) ruta (codigo +:+ ".xlsx"))) eqn:Hf;
    [destruct (load_workbook E (join (os_path E) ruta (codigo +:+ ".xlsx")))
       as [wb|e] eqn:Hl|].
  - destruct (fila_con_codigo_copiado E ruta codigo wb crv Hf Hl)
      as (crv1 & Heq1 & Hlen1 & Hen1 & Hotras1).
    rewrite Heq1. cbn [fst].
    destruct (fila_con_codigo_copiado E ruta codigo wb crv1 Hf Hl)
      as (crv2 & -> & Hlen2 & Hen2 & Hotras2).
    f_equal. apply list_eq. intros i.
    destruct (decide (S i ∈ columnas_destino)) as [Hi|Hi].
    + rewrite <- destinos_V02 in Hi.
      apply list_elem_of_fmap in Hi as [[col ref] [Hcol Hin]].
      cbn [fst] in Hcol. subst col.
      pose proof (Hen1 _ _ Hin) as H1. pose proof (Hen2 _ _ Hin) as H2.
      replace (S i - 1) with i in H1, H2 by lia. by rewrite H1, H2.
    + rewrite (Hotras2 i Hi). apply celda_o_vacia_llena. lia.
  - unfold V02.fila_con_codigo. rewrite !Hf, !Hl. cbn [fst].
    by rewrite ?Hf, ?Hl.
  - unfold V02.fila_con_codigo. rewrite !Hf. cbn [fst]. by rewrite ?Hf.
Qed.

Lemma turno_marco (E : Entorno) (ruta : string) (r_idx : nat)
  (fila fila' : V02.Fila) (lineas : list Linea) :
  turno E ruta r_idx fila = Ok (fila', lineas) →
  length fila ≤ length fila'
  ∧ fila' !! (COL_CODIGO - 1) = fila !! (COL_CODIGO - 1)
  ∧ ∀ i, S i ∉ columnas_destino →
         fila' !! i = celda_o_vacia fila (length fila') i.
Proof.
  unfold turno.
  destruct (r_idx + 1 <? V02.FILA_INICIO_DATOS).
  { intros [= <- <-]. split_and!; [done..|].
    intros i _. by rewrite celda_o_vacia_llena. }
  destruct (getitem fila (COL_CODIGO - 1)) as [v|e] eqn:Hget; [|done].
  destruct (negb (truthy (VStr (V02.codigo_de E v)))).
  { intros [= <- <-]. split_and!; [done..|].
    intros i _. by rewrite celda_o_vacia_llena. }
  cbv zeta. intros [= <- <-].
  destruct (fila_con_codigo_marco E ruta (V02.codigo_de E v) fila)
    as [Hlen Hotras].
  assert (length fila
          ≤ length (V02.fila_con_codigo E ruta (V02.codigo_de E v) fila).1)
    as Hle by (destruct Hlen as [-> | ->]; lia).
  split_and!; [done| |done].
  rewrite Hotras by (unfold COL_CODIGO; compute_done).
  unfold celda_o_vacia. case_decide as Hlt; [done|].
  unfold getitem in Hget.
  destruct (fila !! (COL_CODIGO - 1)) eqn:Hlk; [|done].
  apply lookup_lt_Some in Hlk. lia.
Qed.

Lemma turno_estable (E : Entorno) (ruta : string) (r_idx : nat)
  (fila fila' : V02.Fila) (lineas : list Linea) :
  turno E ruta r_idx fila = Ok (fila', lineas) →
  turno E ruta r_idx fila' = Ok (fila', lineas).
Proof.
  intros Hturno.
  pose proof (turno_marco _ _ _ _ _ _ Hturno) as (_ & Hcod & _).
  revert Hturno. unfold turno, getitem. rewrite Hcod.
  destruct (r_idx + 1 <? V02.FILA_INICIO_DATOS); [by intros [= <- <-]|].
  destruct (fila !! (COL_CODIGO - 1)) as [v|]; [|done].
  destruct (negb (truthy (VStr (V02.codigo_de E v)))); [by intros [= <- <-]|].
  cbv zeta. intros [= <- <-]. by rewrite fila_con_codigo_estable.
Qed.

Section FlujoGeneral.
Variable E : Entorno.
Variable ruta_base : string.

Lemma recorrer_general filas : ∀ r_idx out consola,
  ∃ nuevas mas,
    (V02.recorrer E ruta_base r_idx filas out consola).1
    = (out ++ nuevas, consola ++ mas)
    ∧ (∀ out2 consola2,
         V02.recorrer E ruta_base r_idx nuevas out2 consola2
         = (out2 ++ nuevas, consola2 ++ mas, Ok tt))
    ∧ (∀ i fila', nuevas !! i = Some fila' →
         ∃ fila lineas,
           filas !! i = Some fila
           ∧ turno E ruta_base (r_idx + i) fila = Ok (fila', lineas)).
Proof.
  induction filas as [|row resto IH]; intros r_idx out consola.
  { exists [], []. rewrite !app_nil_r. split_and!; [done| |done].
    intros out2 consola2. by rewrite !app_nil_r. }
  rewrite recorrer_cons.
  destruct (turno E ruta_base r_idx row) as [[fila' lineas]|e] eqn:Hturno.
  - destruct (IH (S r_idx) (out ++ [fila']) (consola ++ lineas))
      as (nuevas & mas & Hres & Hotra & Hfilas).
    exists (fila' :: nuevas), (lineas ++ mas).
    rewrite Hres, <- !app_assoc. split_and!; [done| |].
    + intros out2 consola2. rewrite recorrer_cons.
      rewrite (turno_estable _ _ _ _ _ _ Hturno), Hotra.
      by rewrite <- !app_assoc.
    + intros [|i] fila2 Hi.
      * injection Hi as <-. exists row, lineas.
        by rewrite Nat.add_0_r.
      * destruct (Hfilas i fila2 Hi) as (fila & lineas2 & Hf & Ht).
        exists fila, lineas2. split; [done|].
        by replace (r_idx + S i) with (S r_idx + i) by lia.
  - exists [], []. rewrite !app_nil_r. split_and!; [done| |done].
    intros out2 consola2. by rewrite !app_nil_r.
Qed.
End FlujoGeneral.

(** X12. The streaming loop, on any sheet and with any files: every row it
    appends stands at the position of its source row, is at least as long
    as it, holds the source cell in every column that is no destination
    (the code column among them), and [None] in such a column past the end
    of the source row.  This holds for the rows appended before a failure
    too. *)
Theorem X12_flujo_solo_destinos (E : Entorno) (ruta : string)
  (filas : list V02.Fila) (i : nat) (fila' : V02.Fila) :
  (V02.procesar_hoja E ruta filas []).1.1 !! i = Some fila' →
  ∃ fila,
    filas !! i = Some fila
    ∧ length fila ≤ length fila'
    ∧ ∀ j, S j ∉ columnas_destino →
        fila' !! j = if decide (j < length fila) then fila !! j
                     else if decide (j < length fila') then Some VNone
                     else None.
Proof.
  unfold V02.procesar_hoja.
  destruct (recorrer_general E ruta filas 0 [] [])
    as (nuevas & mas & Hres & _ & Hfilas).
  destruct (V02.recorrer E ruta 0 filas [] []) as [[salida consola] exc].
  cbn [fst] in Hres |- *. injection Hres as -> ->.
  intros Hi.
  destruct (Hfilas i fila' Hi) as (fila & lineas & Hf & Ht).
  exists fila. split; [done|].
  destruct (turno_marco _ _ _ _ _ _ Ht) as (Hlen & _ & Hotras).
  split; [done|]. intros j Hj. by rewrite Hotras.
Qed.

Lemma X12_witness :
  (V02.procesar_hoja Ejemplo.entorno "/home/u" Ejemplo.filas []).1.1 !! 5
  = Some Ejemplo2.fila_copiada
  ∧ ∃ fila,
      Ejemplo.filas !! 5 = Some fila
      ∧ length fila ≤ length Ejemplo2.fila_copiada
      ∧ ∀ j, S j ∉ columnas_destino →
          Ejemplo2.fila_copiada !! j
          = if decide (j < length fila) then fila !! j
            else if decide (j < length Ejemplo2.fila_copiada) then Some VNone
            else None.
Proof.
  split; [reflexivity|].
  apply (X12_flujo_solo_destinos Ejemplo.entorno "/home/u" Ejemplo.filas 5).
  reflexivity.
Defined.

(** X13. The streaming loop is idempotent on a sheet: run on the rows it
    appended, with the same files, it ends without exception, appends those
    same rows and prints the same lines, whether or not the first run
    failed part way. *)
Theorem X13_otra_vez_en_flujo (E : Entorno) (ruta : string)
  (filas : list V02.Fila) :
  V02.procesar_hoja E ruta (V02.procesar_hoja E ruta filas []).1.1 []
  = ((V02.procesar_hoja E ruta filas []).1.1,
     (V02.procesar_hoja E ruta filas []).1.2, Ok tt).
Proof.
  unfold V02.procesar_hoja.
  destruct (recorrer_general E ruta filas 0 [] [])
    as (nuevas & mas & Hres & Hotra & _).
  destruct (V02.recorrer E ruta 0 filas [] []) as [[salida consola] exc].
  cbn [fst snd] in Hres |- *. injection Hres as -> ->.
  by rewrite Hotra.
Qed.


(** ** The workbook [main] saves *)

Section LibroGuardado.
Variable procesar_hoja : Worksheet → option (Worksheet * list Linea * nat).
Variable llamada : Worksheet → option (Exc (Worksheet * list Linea * nat)).
Hypothesis llamada_con_paro : ∀ ws,
  con_paro ws →
  ∃ ws' consola fin,
    procesar_hoja ws = Some (ws', consola, fin)
    ∧ llamada ws = Some (Ok (ws', consola, fin))
    ∧ fin ≤ MAX_ROW.

Lemma en_sitio_main_forma (M : Maestro EnSitio.Libro) (wb : EnSitio.Libro) :
  existe M = true → cargar M = Ok wb → guardar M = Ok tt →
  (∀ n ws, n ∈ HOJAS_OBJETIVO → EnSitio.hoja_de wb n = Some ws →
           con_paro ws) →
  ∃ wb',
    EnSitio.main llamada M
    = Some {| exit_code := match entrada M with
                           | Ok _ => 0
                           | Raise _ => 1
                           end;
              guardado := Some wb' |}
    ∧ wb'.*1 = wb.*1
    ∧ (∀ n, n ∉ HOJAS_OBJETIVO →
            EnSitio.hoja_de wb' n = EnSitio.hoja_de wb n)
    ∧ (∀ n ws, n ∈ HOJAS_OBJETIVO → EnSitio.hoja_de wb n = Some ws →
         ∃ ws' consola fin,
           procesar_hoja ws = Some (ws', consola, fin)
           ∧ fin ≤ MAX_ROW
           ∧ EnSitio.hoja_de wb' n = Some ws').
Proof.
  intros Hex Hload Hsave Hparo. unfold EnSitio.main.
  rewrite Hex, Hload. cbn [negb].
  destruct (procesar_hojas_forma procesar_hoja llamada llamada_con_paro
              HOJAS_OBJETIVO ltac:(compute_done) wb Hparo)
    as (wb' & -> & Hrest).
  cbn [mbind option_bind]. rewrite Hsave. by exists wb'.
Qed.
End LibroGuardado.

(** X14. [main] of the two in-place scripts, when the master exists and
    loads, every target sheet it has holds a cell that tests false in column
    D between row 6 and the last row a sheet can have, and the result can be
    saved: the workbook is saved, with the sheets of the master under the
    same names in the same order; a sheet that is no target is saved as it
    was loaded; a target sheet is saved as [procesar_hoja] leaves it, the
    value copy reading the per-entity files from the working directory.
    The closing [input] call comes after the save: the exit code is 0 when
    it returns and 1 when it raises. *)
Theorem X14_libro_en_sitio (E : Entorno) (M : Maestro EnSitio.Libro)
  (wb : EnSitio.Libro) :
  existe M = true → cargar M = Ok wb → guardar M = Ok tt →
  (∀ n ws, n ∈ HOJAS_OBJETIVO → EnSitio.hoja_de wb n = Some ws →
           con_paro ws) →
  (∃ wb',
     V0.main E M
     = Some {| exit_code := match entrada M with
                            | Ok _ => 0
                            | Raise _ => 1
                            end;
               guardado := Some wb' |}
     ∧ wb'.*1 = wb.*1
     ∧ (∀ n, n ∉ HOJAS_OBJETIVO →
             EnSitio.hoja_de wb' n = EnSitio.hoja_de wb n)
     ∧ (∀ n ws, n ∈ HOJAS_OBJETIVO → EnSitio.hoja_de wb n = Some ws →
          ∃ ws' consola fin,
            V0.procesar_hoja E (getcwd E) ws = Some (ws', consola, fin)
            ∧ fin ≤ MAX_ROW
            ∧ EnSitio.hoja_de wb' n = Some ws'))
  ∧ (∃ wb',
       V1.main E M
       = Some {| exit_code := match entrada M with
                              | Ok _ => 0
                              | Raise _ => 1
                              end;
                 guardado := Some wb' |}
       ∧ wb'.*1 = wb.*1
       ∧ (∀ n, n ∉ HOJAS_OBJETIVO →
               EnSitio.hoja_de wb' n = EnSitio.hoja_de wb n)
       ∧ (∀ n ws, n ∈ HOJAS_OBJETIVO → EnSitio.hoja_de wb n = Some ws →
            ∃ ws' consola fin,
              V1.procesar_hoja E ws = Some (ws', consola, fin)
              ∧ fin ≤ MAX_ROW
              ∧ EnSitio.hoja_de wb' n = Some ws')).
Proof.
  intros Hex Hload Hsave Hparo. split.
  - apply en_sitio_main_forma; [|done..].
    intros ws. apply V0_llamada_con_paro.
  - apply en_sitio_main_forma; [|done..].
    intros ws. apply V1_llamada_con_paro.
Qed.

Lemma X14_witness :
  let M := Ejemplo.maestro_sin_entrada true (Ok Ejemplo2.libro_en_memoria)
             (Ok tt) in
  (∃ wb',
     V0.main Ejemplo.entorno M = Some {| exit_code := 1; guardado := Some wb' |}
     ∧ wb'.*1 = ["Notas"; "HOSP"; "EDU"; "Resumen"]
     ∧ (∀ n, n ∉ HOJAS_OBJETIVO →
             EnSitio.hoja_de wb' n
             = EnSitio.hoja_de Ejemplo2.libro_en_memoria n)
     ∧ (∀ n ws, n ∈ HOJAS_OBJETIVO →
          EnSitio.hoja_de Ejemplo2.libro_en_memoria n = Some ws →
          ∃ ws' consola fin,
            V0.procesar_hoja Ejemplo.entorno (getcwd Ejemplo.entorno) ws
            = Some (ws', consola, fin)
            ∧ fin ≤ MAX_ROW
            ∧ EnSitio.hoja_de wb' n = Some ws'))
  ∧ (∃ wb',
       V1.main Ejemplo.entorno M
       = Some {| exit_code := 1; guardado := Some wb' |}
       ∧ wb'.*1 = ["Notas"; "HOSP"; "EDU"; "Resumen"]
       ∧ (∀ n, n ∉ HOJAS_OBJETIVO →
               EnSitio.hoja_de wb' n
               = EnSitio.hoja_de Ejemplo2.libro_en_memoria n)
       ∧ (∀ n ws, n ∈ HOJAS_OBJETIVO →
            EnSitio.hoja_de Ejemplo2.libro_en_memoria n = Some ws →
            ∃ ws' consola fin,
              V1.procesar_hoja Ejemplo.entorno ws = Some (ws', consola, fin)
              ∧ fin ≤ MAX_ROW
              ∧ EnSitio.hoja_de wb' n = Some ws')).
Proof.
  apply (X14_libro_en_sitio Ejemplo.entorno
           (Ejemplo.maestro_sin_entrada true (Ok Ejemplo2.libro_en_memoria)
              (Ok tt))
           Ejemplo2.libro_en_memoria eq_refl eq_refl eq_refl).
  intros n ws Hn Hh.
  assert (n = "EDU" ∨ n = "HOSP" ∨ n = "EMPRESA") as Hcasos.
  { unfold HOJAS_OBJETIVO in Hn.
    repeat (apply elem_of_cons in Hn as [->|Hn]; [tauto|]).
    by apply elem_of_nil in Hn. }
  destruct Hcasos as [->|[->| ->]]; cbn in Hh; [| |done].
  - injection Hh as <-. exists 8.
    split; [unfold FILA_INICIO, MAX_ROW; lia|reflexivity].
  - injection Hh as <-. exists 9.
    split; [unfold FILA_INICIO, MAX_ROW; lia|reflexivity].
Defined.

Section LibroEnFlujo.
Variable E : Entorno.
Variable ruta_base : string.

(** The sheet of the output for the target [n], if the master has it. *)
Lemma procesar_objetivos_forma (wb : V02.Libro) hojas :
  NoDup hojas →
  (∀ n filas, n ∈ hojas → EnSitio.hoja_de wb n = Some filas →
              filas_anchas 0 filas) →
  ∀ wb_salida : V02.Libro,
  (∀ n, n ∈ hojas → EnSitio.hoja_de wb_salida n = None) →
  V02.procesar_objetivos E ruta_base hojas wb wb_salida
  = (wb_salida
     ++ omap (λ n, filas ← EnSitio.hoja_de wb n;
                   Some (n, (V02.procesar_hoja E ruta_base filas []).1.1))
             hojas,
     Ok tt).
Proof.
  induction 1 as [|hoja resto Hno Hnd IH]; intros Hanchas wb_salida Hlibre.
  { cbn [V02.procesar_objetivos omap list_omap]. by rewrite app_nil_r. }
  cbn [V02.procesar_objetivos omap list_omap].
  destruct (EnSitio.hoja_de wb hoja) as [filas|] eqn:Hhoja;
    cbn [mbind option_bind].
  - rewrite (Hlibre hoja) by left. cbn [default].
    destruct (recorrer_una_por_fila E ruta_base filas 0 [] [])
      as (nuevas & consola & Hrun & _).
    { apply (Hanchas hoja); [left|done]. }
    unfold V02.procesar_hoja at 1. rewrite Hrun.
    unfold V02.poner_o_crear. rewrite (Hlibre hoja) by left.
    rewrite IH.
    + unfold V02.procesar_hoja at 2. rewrite Hrun. cbn [fst].
      by rewrite <- app_assoc.
    + intros n filas2 Hn. apply Hanchas. by right.
    + intros n Hn. rewrite hoja_de_app, Hlibre by (by right).
      rewrite hoja_de_cons. rewrite decide_False; [done|].
      intros ->. done.
  - apply IH.
    + intros n filas2 Hn. apply Hanchas. by right.
    + intros n Hn. apply Hlibre. by right.
Qed.

Lemma copiar_no_procesadas_forma (hojas : V02.Libro) :
  NoDup hojas.*1 →
  ∀ wb_salida : V02.Libro,
  (∀ n, n ∈ hojas.*1 → n ∉ HOJAS_OBJETIVO →
        EnSitio.hoja_de wb_salida n = None) →
  V02.copiar_no_procesadas hojas wb_salida
  = wb_salida ++ filter (λ h, h.1 ∉ HOJAS_OBJETIVO) hojas.
Proof.
  induction hojas as [|[n filas] resto IH]; intros Hnd wb_salida Hlibre.
  { cbn [V02.copiar_no_procesadas]. by rewrite filter_nil, app_nil_r. }
  rewrite fmap_cons in Hnd. apply NoDup_cons in Hnd as [Hno Hnd].
  cbn [V02.copiar_no_procesadas]. rewrite filter_cons. cbn [fst].
  destruct (decide (n ∉ HOJAS_OBJETIVO)) as [Hn|Hn].
  - rewrite (bool_decide_eq_false_2 _ Hn).
    rewrite (Hlibre n) by (done || rewrite fmap_cons; left).
    rewrite bool_decide_eq_false_2 by (by intros [? ?]).
    cbn [negb andb]. rewrite IH; [by rewrite <- app_assoc|done|].
    intros m Hm Hobj. rewrite hoja_de_app.
    rewrite Hlibre by (done || rewrite fmap_cons; by right).
    rewrite hoja_de_cons. rewrite decide_False; [done|]. by intros ->.
  - rewrite bool_decide_eq_true_2 by (by apply dec_stable).
    cbn [negb andb]. apply IH; [done|].
    intros m Hm Hobj. apply Hlibre; [|done]. rewrite fmap_cons. by right.
Qed.
End LibroEnFlujo.

(** X15. [main] of the streaming script, when the master exists, loads with
    sheets of distinct names, every data row of its target sheets has a
    cell in the code column, and the result can be saved: the workbook
    saved holds first the target sheets the master has, in the order of
    [HOJAS_OBJETIVO], each with the rows the row loop appended for it, and
    then the master's other sheets, in the master's order, row for row as
    they were read.  The closing [input] call comes after the save: the exit
    code is 0 when it returns and 1 when it raises. *)
Theorem X15_libro_en_flujo (E : Entorno) (M : Maestro V02.Libro)
  (wb : V02.Libro) :
  existe M = true → cargar M = Ok wb → guardar M = Ok tt →
  NoDup wb.*1 →
  (∀ n filas, n ∈ HOJAS_OBJETIVO → EnSitio.hoja_de wb n = Some filas →
              filas_anchas 0 filas) →
  V02.main E M
  = {| exit_code := match entrada M with
                    | Ok _ => 0
                    | Raise _ => 1
                    end;
       guardado :=
         Some (omap (λ n, filas ← EnSitio.hoja_de wb n;
                          Some (n, (V02.procesar_hoja E (getcwd E)
                                                      filas []).1.1))
                    HOJAS_OBJETIVO
               ++ filter (λ h, h.1 ∉ HOJAS_OBJETIVO) wb) |}.
Proof.
  intros Hex Hload Hsave Hnd Hanchas. unfold V02.main. cbv zeta.
  rewrite Hex, Hload. cbn [negb].
  rewrite procesar_objetivos_forma; [|compute_done|done|done].
  rewrite app_nil_l.
  rewrite copiar_no_procesadas_forma; [by rewrite Hsave|done|].
  intros n Hn Hobj. apply hoja_de_None.
  intros Hin. apply list_elem_of_fmap in Hin as [[m filas] [-> Hm]].
  apply list_elem_of_omap in Hm as (k & Hk & Hsome).
  destruct (EnSitio.hoja_de wb k); [|done].
  cbn [mbind option_bind] in Hsome. injection Hsome as -> _. done.
Qed.

Lemma X15_witness :
  V02.main Ejemplo.entorno
           (Ejemplo.maestro true (Ok Ejemplo2.libro_de_lectura) (Ok tt))
  = {| exit_code := 0;
       guardado :=
         Some (omap (λ n, filas ← EnSitio.hoja_de Ejemplo2.libro_de_lectura n;
                          Some (n, (V02.procesar_hoja
                                      Ejemplo.entorno
                                      (getcwd Ejemplo.entorno) filas []).1.1))
                    HOJAS_OBJETIVO
               ++ filter (λ h, h.1 ∉ HOJAS_OBJETIVO)
                         Ejemplo2.libro_de_lectura) |}.
Proof.
  apply (X15_libro_en_flujo Ejemplo.entorno
           (Ejemplo.maestro true (Ok Ejemplo2.libro_de_lectura) (Ok tt))
           Ejemplo2.libro_de_lectura); [reflexivity..| |].
  - compute_done.
  - intros n filas Hn Hh.
    assert (n = "EDU" ∨ n = "HOSP" ∨ n = "EMPRESA") as Hcasos.
    { unfold HOJAS_OBJETIVO in Hn.
      repeat (apply elem_of_cons in Hn as [->|Hn]; [tauto|]).
      by apply elem_of_nil in Hn. }
    destruct Hcasos as [->|[->| ->]]; cbn in Hh; [| |done].
    + injection Hh as <-. apply filas_anchas_Forall. compute_done.
    + injection Hh as <-. apply filas_anchas_Forall. compute_done.
Defined.
